(** * Telethon documentation generator ([docs/generate.py])

    A shallow embedding of the naming, path-resolution, cross-reference and
    page-assembly code of [docs/generate.py], followed by the properties
    proved about it.

    Conventions of the embedding:
    - Python [str] is [string]; identifiers of a TL scheme are ASCII, and
      [str.lower]/[str.upper] act on the ASCII letters only.
    - [os.path] is [posixpath]; the process working directory and the set
      of regular files are explicit ([FileSystem]).
    - Exceptions are values of [Result]: a call returns [Ok] with its value
      or [Raise] with the exception.
    - A Python [dict] is an association list in insertion order, which is
      also the order in which [dict.items()] iterates. *)

From Stdlib Require Import String Ascii List Bool Arith Lia.
From Stdlib Require Import DecimalString DecimalNat.
Import ListNotations.

Open Scope list_scope.
Open Scope string_scope.
Open Scope nat_scope.

(* ================================================================== *)
(** ** Python built-ins on characters and strings *)

Module Py.

Definition code (c : ascii) : nat := nat_of_ascii c.

Definition is_upper (c : ascii) : bool := (65 <=? code c) && (code c <=? 90).
Definition is_lower (c : ascii) : bool := (97 <=? code c) && (code c <=? 122).
Definition is_digit (c : ascii) : bool := (48 <=? code c) && (code c <=? 57).

Definition char_lower (c : ascii) : ascii :=
  if is_upper c then ascii_of_nat (code c + 32) else c.
Definition char_upper (c : ascii) : ascii :=
  if is_lower c then ascii_of_nat (code c - 32) else c.

(** [s.lower()] and [s.upper()] *)
Fixpoint lower (s : string) : string :=
  match s with
  | EmptyString => EmptyString
  | String c s' => String (char_lower c) (lower s')
  end.

Fixpoint upper (s : string) : string :=
  match s with
  | EmptyString => EmptyString
  | String c s' => String (char_upper c) (upper s')
  end.

(** [s.replace(c, '')] for a one-character [c] *)
Fixpoint remove_char (x : ascii) (s : string) : string :=
  match s with
  | EmptyString => EmptyString
  | String c s' =>
      if Ascii.eqb c x then remove_char x s' else String c (remove_char x s')
  end.

(** [s[:1]] and [s[1:]] *)
Definition slice_to_1 (s : string) : string :=
  match s with
  | EmptyString => EmptyString
  | String c _ => String c EmptyString
  end.

Definition slice_from_1 (s : string) : string :=
  match s with
  | EmptyString => EmptyString
  | String _ s' => s'
  end.

(** [c in s] for a one-character [c] *)
Fixpoint contains (x : ascii) (s : string) : bool :=
  match s with
  | EmptyString => false
  | String c s' => Ascii.eqb c x || contains x s'
  end.

(** [s.count(c)] *)
Fixpoint count (x : ascii) (s : string) : nat :=
  match s with
  | EmptyString => 0
  | String c s' => (if Ascii.eqb c x then 1 else 0) + count x s'
  end.

(** [s.split(c)]: the pieces between the occurrences of [c]; never the
    empty list. *)
Fixpoint split (x : ascii) (s : string) : list string :=
  match s with
  | EmptyString => [EmptyString]
  | String c s' =>
      if Ascii.eqb c x then EmptyString :: split x s'
      else match split x s' with
           | [] => [String c EmptyString]
           | p :: ps => String c p :: ps
           end
  end.

(** [sep.join(parts)] *)
Fixpoint join (sep : string) (parts : list string) : string :=
  match parts with
  | [] => EmptyString
  | [p] => p
  | p :: ps => p ++ sep ++ join sep ps
  end.

(** [s.startswith(p)] *)
Fixpoint startswith (p s : string) : bool :=
  match p, s with
  | EmptyString, _ => true
  | String a p', String b s' => Ascii.eqb b a && startswith p' s'
  | String _ _, EmptyString => false
  end.

(** [s.endswith(c)] for a one-character [c] *)
Fixpoint endswith_char (x : ascii) (s : string) : bool :=
  match s with
  | EmptyString => false
  | String c EmptyString => Ascii.eqb c x
  | String _ s' => endswith_char x s'
  end.

(** [s.rstrip(c)] for a one-character [c] *)
Fixpoint rstrip (x : ascii) (s : string) : string :=
  match s with
  | EmptyString => EmptyString
  | String c s' =>
      match rstrip x s' with
      | EmptyString => if Ascii.eqb c x then EmptyString else String c EmptyString
      | r => String c r
      end
  end.

(** [s.strip()]: white space removed at both ends *)
Definition is_space (c : ascii) : bool :=
  (code c =? 32) || ((9 <=? code c) && (code c <=? 13)).

Fixpoint lstrip_space (s : string) : string :=
  match s with
  | EmptyString => EmptyString
  | String c s' => if is_space c then lstrip_space s' else s
  end.

Fixpoint rstrip_space (s : string) : string :=
  match s with
  | EmptyString => EmptyString
  | String c s' =>
      match rstrip_space s' with
      | EmptyString => if is_space c then EmptyString else String c EmptyString
      | r => String c r
      end
  end.

Definition strip (s : string) : string := rstrip_space (lstrip_space s).

(** [sorted(l, key=key)] for a Boolean key ([False < True]): a stable
    sort.  [insert_sorted x l] puts [x], which stood before the elements
    of [l], in front of the first element that is not smaller than it. *)
Definition bool_lt (a b : bool) : bool := negb a && b.

Fixpoint insert_sorted {A : Type} (key : A -> bool) (x : A) (l : list A) : list A :=
  match l with
  | [] => [x]
  | y :: l' =>
      if bool_lt (key y) (key x) then y :: insert_sorted key x l'
      else x :: y :: l'
  end.

Fixpoint sorted {A : Type} (l : list A) (key : A -> bool) : list A :=
  match l with
  | [] => []
  | x :: l' => insert_sorted key x (sorted l' key)
  end.

(** ['%d' % n] for a non-negative [n] *)
Definition format_d (n : nat) : string := NilZero.string_of_uint (Nat.to_uint n).

(** Truthiness of a string ([if s:]) *)
Definition truthy (s : string) : bool :=
  match s with EmptyString => false | _ => true end.

End Py.

(* ================================================================== *)
(** ** Exceptions *)

Inductive Exception :=
| ValueError (msg : string)
| KeyError (key : string).

Inductive Result (A : Type) :=
| Ok (a : A)
| Raise (e : Exception).

Arguments Ok {A} a.
Arguments Raise {A} e.

Definition bind {A B : Type} (r : Result A) (k : A -> Result B) : Result B :=
  match r with
  | Ok a => k a
  | Raise e => Raise e
  end.

Notation "x <- r ;; k" := (bind r (fun x => k))
  (at level 61, r at next level, right associativity).

Definition is_ok {A : Type} (r : Result A) : bool :=
  match r with Ok _ => true | Raise _ => false end.

(* ================================================================== *)
(** ** [os.path] ([posixpath]) over an explicit file system *)

(** The working directory is [/] followed by [cwd_parts] joined with [/]
    ([os.getcwd()] is absolute); [files] holds the absolute, normalised
    paths of the regular files. *)
Record FileSystem := {
  cwd_parts : list string;
  files : list string
}.

Module PosixPath.

Definition getcwd (fs : FileSystem) : string := "/" ++ Py.join "/" (cwd_parts fs).

Definition isabs (s : string) : bool := Py.startswith "/" s.

(** One step of [join(a, *p)]: the accumulated [path] and the next [b]. *)
Definition join2 (path b : string) : string :=
  if Py.startswith "/" b then b
  else if negb (Py.truthy path) || Py.endswith_char "/" path then path ++ b
  else path ++ "/" ++ b.

(** [join(a, *p)] *)
Definition join (a : string) (p : list string) : string := fold_left join2 p a.

(** [p[:p.rfind('/') + 1]] and [p[p.rfind('/') + 1:]] *)
Fixpoint head_of (p : string) : string :=
  match p with
  | EmptyString => EmptyString
  | String c p' => if Py.contains "/" p then String c (head_of p') else EmptyString
  end.

Fixpoint tail_of (p : string) : string :=
  match p with
  | EmptyString => EmptyString
  | String c p' => if Py.contains "/" p then tail_of p' else p
  end.

(** [head == sep * len(head)] *)
Fixpoint all_sep (s : string) : bool :=
  match s with
  | EmptyString => true
  | String c s' => Ascii.eqb c "/" && all_sep s'
  end.

(** [dirname(p)] and [basename(p)] *)
Definition dirname (p : string) : string :=
  let head := head_of p in
  if Py.truthy head && negb (all_sep head) then Py.rstrip "/" head else head.

Definition basename (p : string) : string := tail_of p.

Definition initial_slashes (path : string) : nat :=
  if Py.startswith "/" path then
    if Py.startswith "//" path && negb (Py.startswith "///" path) then 2 else 1
  else 0.

Definition is_nil {A : Type} (l : list A) : bool :=
  match l with [] => true | _ => false end.

(** The body of the loop of [normpath] over the components. *)
Definition norm_step (slashes : nat) (new_comps : list string) (comp : string)
  : list string :=
  if (comp =? "")%string || (comp =? ".")%string then new_comps
  else if negb (comp =? "..")%string
          || ((slashes =? 0) && is_nil new_comps)
          || (negb (is_nil new_comps) && (last new_comps "" =? "..")%string)
  then (new_comps ++ [comp])%list
  else removelast new_comps.

(** [normpath(path)] *)
Definition normpath (path : string) : string :=
  if negb (Py.truthy path) then "."
  else
    let slashes := initial_slashes path in
    let comps := fold_left (norm_step slashes) (Py.split "/" path) [] in
    let path1 := Py.join "/" comps in
    let path2 := if slashes =? 0 then path1
                 else Py.join "" (repeat "/" slashes) ++ path1 in
    if Py.truthy path2 then path2 else ".".

(** [abspath(path)] *)
Definition abspath (fs : FileSystem) (path : string) : string :=
  normpath (if isabs path then path else join (getcwd fs) [path]).

(** [isfile(path)] *)
Definition isfile (fs : FileSystem) (path : string) : bool :=
  existsb (String.eqb (abspath fs path)) (files fs).

(** [commonprefix([l1, l2])] of two component lists *)
Fixpoint commonprefix (l1 l2 : list string) : list string :=
  match l1, l2 with
  | x :: l1', y :: l2' => if (x =? y)%string then x :: commonprefix l1' l2' else []
  | _, _ => []
  end.

(** [[x for x in abspath(p).split(sep) if x]] *)
Definition abs_list (fs : FileSystem) (p : string) : list string :=
  filter Py.truthy (Py.split "/" (abspath fs p)).

(** [relpath(path, start)] *)
Definition relpath (fs : FileSystem) (path start : string) : Result string :=
  if negb (Py.truthy path) then Raise (ValueError "no path specified")
  else
    let start_list := abs_list fs start in
    let path_list := abs_list fs path in
    let i := List.length (commonprefix start_list path_list) in
    let rel_list :=
      (repeat ".." (List.length start_list - i) ++ skipn i path_list)%list in
    match rel_list with
    | [] => Ok "."
    | a :: p => Ok (join a p)
    end.

End PosixPath.

(* ================================================================== *)
(** ** [re.sub] for the three patterns of the generator

    [re.sub(pattern, repl, s)] replaces the leftmost non-overlapping
    matches of [pattern] in [s].  A pattern is given here by its matcher at
    the start of a string: the matcher returns the expansion of the
    replacement template and the number of characters the match consumed
    (at least one for the three patterns below). *)

Module Re.

Definition matcher := string -> option (string * nat).

(** [sub m skip s]: [skip] characters of [s] still belong to the match
    found last and are not copied; after them the scan resumes. *)
Fixpoint sub_from (m : matcher) (skip : nat) (s : string) : string :=
  match s with
  | EmptyString => EmptyString
  | String c s' =>
      match skip with
      | S k => sub_from m k s'
      | O =>
          match m s with
          | Some (repl, n) => repl ++ sub_from m (pred n) s'
          | None => String c (sub_from m 0 s')
          end
      end
  end.

Definition sub (m : matcher) (s : string) : string := sub_from m 0 s.

(** The longest prefix of lower-case letters: the greedy [[a-z]*]. *)
Fixpoint lower_run (s : string) : string :=
  match s with
  | String c s' => if Py.is_lower c then String c (lower_run s') else EmptyString
  | EmptyString => EmptyString
  end.

Definition newline : ascii := ascii_of_nat 10.

(** [_([a-z])] replaced by [m.group(1).upper()] *)
Definition underscore_lower : matcher := fun s =>
  match s with
  | String u (String l _) =>
      if Ascii.eqb u "_"%char && Py.is_lower l
      then Some (String (Py.char_upper l) EmptyString, 2)
      else None
  | _ => None
  end.

(** [(.)([A-Z][a-z]+)] replaced by [\1_\2] *)
Definition any_then_capitalized : matcher := fun s =>
  match s with
  | String c (String u (String l r)) =>
      if negb (Ascii.eqb c newline) && Py.is_upper u && Py.is_lower l
      then let run := lower_run r in
           Some (String c (String "_"%char (String u (String l run))),
                 3 + String.length run)
      else None
  | _ => None
  end.

(** [([a-z0-9])([A-Z])] replaced by [\1_\2] *)
Definition lower_then_upper : matcher := fun s =>
  match s with
  | String c (String u _) =>
      if (Py.is_lower c || Py.is_digit c) && Py.is_upper u
      then Some (String c (String "_"%char (String u EmptyString)), 2)
      else None
  | _ => None
  end.

End Re.

(* ================================================================== *)
(** ** The parsed scheme ([telethon_generator.parser]) *)

(** Modelled from the spec: [TLArg] and [TLObject]
    ([telethon_generator/parser], not part of the sources here), with the
    attributes that [generate.py] reads.  [result] is read for every
    object, function or not (the loop that builds the index). *)
Record TLArg := {
  arg_name : string;
  arg_type : string;
  is_flag : bool;
  is_vector : bool;
  is_generic : bool;
  flag_indicator : bool;
  generic_definition : bool
}.

Record TLObject := {
  name : string;
  namespace : option string;
  is_function : bool;
  result : string;
  args : list TLArg
}.

(** Several functions take "a [TLObject] or only its name"
    ([isinstance(tlobject, TLObject)]). *)
Inductive NameOrObject :=
| Name (s : string)
| Obj (o : TLObject).

(* ================================================================== *)
(** ** Naming *)

(** [get_class_name(tlobject)] *)
Definition get_class_name (tlobject : NameOrObject) : string :=
  let name0 := match tlobject with Obj o => name o | Name s => s end in
  let result0 := Re.sub Re.underscore_lower name0 in
  let result1 :=
    Py.upper (Py.slice_to_1 result0) ++ Py.remove_char "_"%char (Py.slice_from_1 result0) in
  match tlobject with
  | Obj o => if is_function o then result1 ++ "Request" else result1
  | Name _ => result1
  end.

(** [get_file_name(tlobject, add_extension=False)] *)
Definition get_file_name (tlobject : NameOrObject) (add_extension : bool) : string :=
  let name0 := match tlobject with Obj o => name o | Name s => s end in
  let s1 := Re.sub Re.any_then_capitalized name0 in
  let result0 := Py.lower (Re.sub Re.lower_then_upper s1) in
  if add_extension then result0 ++ ".html" else result0.

(* ================================================================== *)
(** ** Path resolution *)

(** [get_create_path_for(tlobject)].  The directories that
    [os.makedirs(out_dir, exist_ok=True)] creates are not regular files and
    leave [FileSystem] as it is. *)
Definition get_create_path_for (tlobject : TLObject) : string :=
  let out_dir := if is_function tlobject then "methods" else "constructors" in
  let out_dir :=
    match namespace tlobject with
    | Some ns => if Py.truthy ns then PosixPath.join out_dir [ns] else out_dir
    | None => out_dir
    end in
  PosixPath.join out_dir [get_file_name (Obj tlobject) true].

(** [get_relative_path(destination, relative_to)] *)
Definition get_relative_path (fs : FileSystem) (destination relative_to : string)
  : Result string :=
  let relative_to :=
    if PosixPath.isfile fs relative_to then PosixPath.dirname relative_to
    else relative_to in
  PosixPath.relpath fs destination relative_to.

Definition core_types : list string :=
  ["int"; "long"; "int128"; "int256"; "double";
   "vector"; "string"; "bool"; "true"; "bytes"; "date"].

Definition is_core_type (type : string) : bool :=
  existsb (String.eqb (Py.lower type)) core_types.

(** The local [path] of [get_path_for_type]: the target before it is made
    relative.  [namespace, name = type.split('.')] raises [ValueError]
    unless the split has exactly two pieces. *)
Definition type_target (type : string) : Result string :=
  if is_core_type type then
    Ok ("core/index.html#" ++ Py.lower type)
  else if Py.contains "." type then
    match Py.split "." type with
    | [namespace0; name0] =>
        Ok ("types/" ++ namespace0 ++ "/" ++ get_file_name (Name name0) true)
    | [] | [_] => Raise (ValueError "not enough values to unpack (expected 2, got 1)")
    | _ => Raise (ValueError "too many values to unpack (expected 2)")
    end
  else
    Ok ("types/" ++ get_file_name (Name type) true).

(** [get_path_for_type(type, relative_to='.')] *)
Definition get_path_for_type (fs : FileSystem) (type relative_to : string)
  : Result string :=
  path <- type_target type ;;
  get_relative_path fs path relative_to.

(** [get_relative_paths(original, relative_to)] over a dictionary given as
    an association list. *)
Fixpoint get_relative_paths (fs : FileSystem) (original : list (string * string))
  (relative_to : string) : Result (list (string * string)) :=
  match original with
  | [] => Ok []
  | (k, v) :: rest =>
      v' <- get_relative_path fs v relative_to ;;
      rest' <- get_relative_paths fs rest relative_to ;;
      Ok ((k, v') :: rest')
  end.

(* ================================================================== *)
(** ** Dictionaries in insertion order *)

Module Dict.

Definition t (V : Type) := list (string * V).

(** [d.get(k)] *)
Fixpoint get {V : Type} (d : t V) (k : string) : option V :=
  match d with
  | [] => None
  | (k', v) :: d' => if (k' =? k)%string then Some v else get d' k
  end.

(** [k in d] *)
Definition mem {V : Type} (k : string) (d : t V) : bool :=
  match get d k with Some _ => true | None => false end.

(** [d[k]] *)
Definition getitem {V : Type} (d : t V) (k : string) : Result V :=
  match get d k with
  | Some v => Ok v
  | None => Raise (KeyError k)
  end.

(** [d.get(k, default)] *)
Definition get_default {V : Type} (d : t V) (k : string) (default : V) : V :=
  match get d k with
  | Some v => v
  | None => default
  end.

(** The value stored under [k] replaced by [f] of it; the entry keeps
    its place ([d[k].append(x)] is [update (fun l => l ++ [x]) k d]). *)
Fixpoint update {V : Type} (f : V -> V) (k : string) (d : t V) : t V :=
  match d with
  | [] => []
  | (k', v) :: d' =>
      if (k' =? k)%string then (k', f v) :: d' else (k', v) :: update f k d'
  end.

(** [d[k] = v]: an existing entry keeps its place, a new one goes last. *)
Definition setitem {V : Type} (k : string) (v : V) (d : t V) : t V :=
  if mem k d then update (fun _ => v) k d else (d ++ [(k, v)])%list.

End Dict.

(* ================================================================== *)
(** ** The cross-reference index (the first loop after the object pages) *)

Definition Index := (Dict.t (list TLObject) * Dict.t (list TLObject))%type.

Definition tltypes_of (ix : Index) : Dict.t (list TLObject) := fst ix.
Definition tlfunctions_of (ix : Index) : Dict.t (list TLObject) := snd ix.

(** The body of [for tlobject in tlobjects:].  [dictionary] is an alias of
    one of the two dictionaries, so the change is written back to it. *)
Definition index_step (ix : Index) (tlobject : TLObject) : Index :=
  let '(tltypes, tlfunctions) := ix in
  let dictionary := if is_function tlobject then tlfunctions else tltypes in
  let dictionary' :=
    if Dict.mem (result tlobject) dictionary
    then Dict.update (fun l => (l ++ [tlobject])%list) (result tlobject) dictionary
    else Dict.setitem (result tlobject) [tlobject] dictionary in
  if is_function tlobject then (tltypes, dictionary') else (dictionary', tlfunctions).

Definition build_index (tlobjects : list TLObject) : Index :=
  fold_left index_step tlobjects ([], []).

(* ================================================================== *)
(** ** The page writer *)

(** Modelled from the spec: [DocsWriter] ([docs/docs_writer.py], not part
    of the sources here).  The spec gives it as a scoped emitter bound to
    one output file, with the operations below; a page is the sequence of
    the calls made on its writer, with the arguments of each call (a
    keyword argument that the call leaves out is [None]).  Entering the
    writer opens the output file, which is a regular file from then on. *)
Inductive DocsCall :=
| write_head (title relative_css_path : string)
| set_menu_separator (relative_image_path : string)
| add_menu (label : string) (link : option string)
| end_menu
| write_title (title : string) (level : option nat)
| write_code (tlobject : TLObject)
| begin_table (column_count : nat)
| add_row (text : string) (bold : option bool) (link : option string)
    (align : option string)
| end_table
| write_text (text : string)
| end_body.

Record Page := {
  page_filename : string;
  page_calls : list DocsCall
}.

Definition open_writer (fs : FileSystem) (filename : string) : FileSystem :=
  {| cwd_parts := cwd_parts fs;
     files := PosixPath.abspath fs filename :: files fs |}.

(* ================================================================== *)
(** ** Page assembly ([generate_documentation]) *)

Definition original_paths : Dict.t string :=
  [("css", "css/docs.css");
   ("arrow", "img/arrow.svg");
   ("index_all", "core/index.html");
   ("index_types", "types/index.html");
   ("index_methods", "methods/index.html");
   ("index_constructors", "constructors/index.html")].

(** [if tlobject.namespace:] / [if namespace:] *)
Definition namespace_menu (ns : option string) : list DocsCall :=
  match ns with
  | Some n => if Py.truthy n then [add_menu n (Some "index.html")] else []
  | None => []
  end.

(** The arguments shown in the table of an object page, in the order of
    the rows. *)
Definition displayed_args (tlobject : TLObject) : list TLArg :=
  Py.sorted
    (filter (fun a => negb (flag_indicator a) && negb (generic_definition a))
       (args tlobject))
    is_flag.

Definition arg_description (arg : TLArg) : string :=
  let description := "" in
  let description :=
    if is_vector arg
    then description ++ "A list must be supplied for this argument. "
    else description in
  let description :=
    if is_generic arg
    then description ++ "A different MTProtoRequest must be supplied for this argument. "
    else description in
  let description :=
    if is_flag arg
    then description ++ "This argument can be omitted. "
    else description in
  Py.strip description.

(** The three cells of the row of one argument. *)
Definition arg_row (fs : FileSystem) (filename : string) (arg : TLArg)
  : Result (list DocsCall) :=
  link <- get_path_for_type fs (arg_type arg) filename ;;
  Ok [add_row (arg_name arg) (Some true) None None;
      add_row (arg_type arg) None (Some link) (Some "center");
      add_row (arg_description arg) None None None].

Fixpoint arg_rows (fs : FileSystem) (filename : string) (l : list TLArg)
  : Result (list DocsCall) :=
  match l with
  | [] => Ok []
  | arg :: l' =>
      row <- arg_row fs filename arg ;;
      rows <- arg_rows fs filename l' ;;
      Ok (row ++ rows)%list
  end.

(** The body of the first loop: the page of one object.  [fs] is the file
    system before the page; the one after it is returned with the page. *)
Definition object_page (fs : FileSystem) (tlobject : TLObject)
  : Result (FileSystem * Page) :=
  let filename := get_create_path_for tlobject in
  paths <- get_relative_paths fs original_paths filename ;;
  let fs := open_writer fs filename in
  css <- Dict.getitem paths "css" ;;
  arrow <- Dict.getitem paths "arrow" ;;
  index_all <- Dict.getitem paths "index_all" ;;
  index_kind <-
    (if is_function tlobject then Dict.getitem paths "index_methods"
     else Dict.getitem paths "index_constructors") ;;
  let args0 := displayed_args tlobject in
  table <-
    (if negb (PosixPath.is_nil args0) then
       rows <- arg_rows fs filename args0 ;;
       Ok ([begin_table 3] ++ rows ++ [end_table])%list
     else if is_function tlobject then
       Ok [write_text "This request takes no input parameters."]
     else
       Ok [write_text "This type has no members."]) ;;
  Ok (fs,
      {| page_filename := filename;
         page_calls :=
           ([write_head (get_class_name (Obj tlobject)) css;
             set_menu_separator arrow;
             add_menu "API" (Some index_all);
             add_menu (if is_function tlobject then "Methods" else "Constructors")
               (Some index_kind)]
            ++ namespace_menu (namespace tlobject)
            ++ [add_menu (get_file_name (Obj tlobject) false) None;
                end_menu;
                write_title (get_class_name (Obj tlobject)) None;
                write_code tlobject;
                write_title (if is_function tlobject then "Parameters" else "Members")
                  (Some 3)]
            ++ table
            ++ [end_body])%list |}).

(** The sentence under "Available constructors". *)
Definition constructors_sentence (constructors : list TLObject) : string :=
  if PosixPath.is_nil constructors then
    "This type has no constructors available."
  else if List.length constructors =? 1 then
    "This type has one constructor available."
  else
    "This type has " ++ Py.format_d (List.length constructors)
      ++ " constructors available.".

(** The sentence under "Methods returning this type". *)
Definition functions_sentence (functions : list TLObject) : string :=
  if PosixPath.is_nil functions then
    "No method returns this type."
  else if List.length functions =? 1 then
    "Only the following method returns this type."
  else
    "The following " ++ Py.format_d (List.length functions)
      ++ " methods return this type as a result.".

(** The rows of a one-column table of objects, each linked from
    [filename]. *)
Fixpoint object_rows (fs : FileSystem) (filename : string) (l : list TLObject)
  : Result (list DocsCall) :=
  match l with
  | [] => Ok []
  | o :: l' =>
      let link := get_create_path_for o in
      link <- get_relative_path fs link filename ;;
      rows <- object_rows fs filename l' ;;
      Ok (add_row (get_class_name (Obj o)) None (Some link) (Some "center") :: rows)
  end.

(** The body of the last loop: the page of one type. *)
Definition type_page (fs : FileSystem) (tlfunctions : Dict.t (list TLObject))
  (tltype : string) (constructors : list TLObject) : Result (FileSystem * Page) :=
  filename <- get_path_for_type fs tltype "." ;;
  let out_dir := PosixPath.dirname filename in
  ns_name <-
    (if Py.contains "." tltype then
       match Py.split "." tltype with
       | [namespace0; name0] => Ok (Some namespace0, name0)
       | [] | [_] => Raise (ValueError "not enough values to unpack (expected 2, got 1)")
       | _ => Raise (ValueError "too many values to unpack (expected 2)")
       end
     else Ok (None, tltype)) ;;
  let '(namespace0, name0) := ns_name in
  paths <- get_relative_paths fs original_paths out_dir ;;
  let fs := open_writer fs filename in
  css <- Dict.getitem paths "css" ;;
  arrow <- Dict.getitem paths "arrow" ;;
  index_all <- Dict.getitem paths "index_all" ;;
  index_types <- Dict.getitem paths "index_types" ;;
  constructor_rows <- object_rows fs filename constructors ;;
  let functions := Dict.get_default tlfunctions tltype [] in
  function_rows <- object_rows fs filename functions ;;
  Ok (fs,
      {| page_filename := filename;
         page_calls :=
           ([write_head (get_class_name (Name name0)) css;
             set_menu_separator arrow;
             add_menu "API" (Some index_all);
             add_menu "Types" (Some index_types)]
            ++ namespace_menu namespace0
            ++ [add_menu (get_file_name (Name name0) false) None;
                end_menu;
                write_title (get_class_name (Name name0)) None;
                write_title "Available constructors" (Some 3);
                write_text (constructors_sentence constructors);
                begin_table 1]
            ++ constructor_rows
            ++ [end_table;
                write_title "Methods returning this type" (Some 3);
                write_text (functions_sentence functions);
                begin_table 1]
            ++ function_rows
            ++ [end_table; end_body])%list |}).

(** [for tlobject in tlobjects:] over the object pages *)
Fixpoint object_pages (fs : FileSystem) (tlobjects : list TLObject)
  : Result (FileSystem * list Page) :=
  match tlobjects with
  | [] => Ok (fs, [])
  | o :: rest =>
      r <- object_page fs o ;;
      let '(fs1, page) := r in
      r' <- object_pages fs1 rest ;;
      let '(fs2, pages) := r' in
      Ok (fs2, page :: pages)
  end.

(** [for tltype, constructors in tltypes.items():] *)
Fixpoint type_pages (fs : FileSystem) (tlfunctions : Dict.t (list TLObject))
  (items : list (string * list TLObject)) : Result (FileSystem * list Page) :=
  match items with
  | [] => Ok (fs, [])
  | (tltype, constructors) :: rest =>
      r <- type_page fs tlfunctions tltype constructors ;;
      let '(fs1, page) := r in
      r' <- type_pages fs1 tlfunctions rest ;;
      let '(fs2, pages) := r' in
      Ok (fs2, page :: pages)
  end.

(** [generate_documentation(scheme_file)], from the objects that
    [TLParser.parse_file(scheme_file)] yields: the pages in the order in
    which they are written. *)
Definition generate_documentation (fs : FileSystem) (tlobjects : list TLObject)
  : Result (FileSystem * list Page) :=
  r <- object_pages fs tlobjects ;;
  let '(fs1, pages_a) := r in
  let ix := build_index tlobjects in
  r' <- type_pages fs1 (tlfunctions_of ix) (tltypes_of ix) ;;
  let '(fs2, pages_b) := r' in
  Ok (fs2, (pages_a ++ pages_b)%list).

(* ================================================================== *)
(** ** Observations and reference definitions used in the statements *)

(** [s[n:]] and [s[:n]] *)
Fixpoint drop (n : nat) (s : string) : string :=
  match n, s with
  | S k, String _ s' => drop k s'
  | _, _ => s
  end.

Fixpoint take (n : nat) (s : string) : string :=
  match n, s with
  | S k, String c s' => String c (take k s')
  | _, _ => EmptyString
  end.

(** A lower-case letter or digit directly followed by an upper-case
    letter: the boundary that the second pass of [get_file_name] splits. *)
Fixpoint has_boundary (s : string) : bool :=
  match s with
  | String c ((String u _) as s') =>
      ((Py.is_lower c || Py.is_digit c) && Py.is_upper u) || has_boundary s'
  | _ => false
  end.

(** No character of the string is an upper-case letter. *)
Fixpoint no_upper (s : string) : bool :=
  match s with
  | EmptyString => true
  | String c s' => negb (Py.is_upper c) && no_upper s'
  end.

(** The class name as the specification words it: the letter after each
    underscore in upper case, then the underscores removed, then the first
    character in upper case. *)
Fixpoint upper_after_underscore (after : bool) (s : string) : string :=
  match s with
  | EmptyString => EmptyString
  | String c s' =>
      String (if after then Py.char_upper c else c)
        (upper_after_underscore (Ascii.eqb c "_") s')
  end.

Definition upper_first (s : string) : string :=
  match s with
  | EmptyString => EmptyString
  | String c s' => String (Py.char_upper c) s'
  end.

(** The string begins with a lower-case letter. *)
Definition starts_lower (s : string) : bool :=
  match s with
  | EmptyString => false
  | String c _ => Py.is_lower c
  end.

(** The name begins with an underscore that no lower-case letter
    follows: the one underscore that [get_class_name] keeps. *)
Definition keeps_leading_underscore (s : string) : bool :=
  match s with
  | EmptyString => false
  | String c s' => Ascii.eqb c "_" && negb (starts_lower s')
  end.

Definition spec_class_name (s : string) : string :=
  upper_first (Py.remove_char "_" (upper_after_underscore false s)).

(** The texts of the cells written in bold (the name column of the table
    of an object page) and of the running text of a page. *)
Definition bold_rows (calls : list DocsCall) : list string :=
  flat_map (fun c => match c with
                     | add_row text (Some true) _ _ => [text]
                     | _ => []
                     end) calls.

Definition text_calls (calls : list DocsCall) : list string :=
  flat_map (fun c => match c with
                     | write_text text => [text]
                     | _ => []
                     end) calls.

(** The type-to-constructors association as the specification words it:
    each non-function object grouped under its own name. *)
Definition spec_types_by_own_name (tlobjects : list TLObject)
  : Dict.t (list TLObject) :=
  fold_left
    (fun d o =>
       if is_function o then d
       else if Dict.mem (name o) d
            then Dict.update (fun l => (l ++ [o])%list) (name o) d
            else Dict.setitem (name o) [o] d)
    tlobjects [].

(** The objects of one kind whose [result] is [k], in the order of the
    collection. *)
Definition with_result (fn : bool) (k : string) (tlobjects : list TLObject)
  : list TLObject :=
  filter (fun o => Bool.eqb (is_function o) fn && (result o =? k)%string) tlobjects.

(** The components of a path: the non-empty pieces between the slashes. *)
Definition parts (s : string) : list string :=
  filter Py.truthy (Py.split "/" s).

(** A component that [normpath] keeps as it is. *)
Definition is_regular (c : string) : bool :=
  Py.truthy c && negb (c =? ".")%string && negb (c =? "..")%string.

(** A component without a slash in it and not empty. *)
Definition clean (p : string) : Prop :=
  Py.contains "/" p = false /\ Py.truthy p = true.

(** The components that [abspath] starts from: those of the working
    directory for a relative path, none for an absolute one. *)
Definition base_parts (fs : FileSystem) (p : string) : list string :=
  if PosixPath.isabs p then []
  else fold_left (PosixPath.norm_step 1) (parts (PosixPath.getcwd fs)) [].

(** Two states of the file system with the same working directory. *)
Definition same_cwd (fs fs' : FileSystem) : Prop := cwd_parts fs' = cwd_parts fs.

(** The directory that [get_relative_path] takes a link to start from. *)
Definition link_base (fs : FileSystem) (relative_to : string) : string :=
  if PosixPath.isfile fs relative_to then PosixPath.dirname relative_to
  else relative_to.

(** The place that a link written in the directory [base] leads to, as
    the components of its absolute path. *)
Definition link_target (fs : FileSystem) (base link : string) : list string :=
  PosixPath.abs_list fs (PosixPath.join base [link]).

(** Sample data. *)
Definition fs_fresh : FileSystem :=
  {| cwd_parts := ["home"; "docs"]; files := [] |}.

Definition plain_arg (n t : string) (flag : bool) : TLArg :=
  {| arg_name := n; arg_type := t; is_flag := flag; is_vector := false;
     is_generic := false; flag_indicator := false; generic_definition := false |}.

Definition sample_flag_args : list TLArg :=
  [plain_arg "flagA" "true" true; plain_arg "plain1" "int" false;
   plain_arg "plain2" "Peer" false; plain_arg "flagB" "string" true].

Definition sample_request : TLObject :=
  {| name := "sendMessage"; namespace := Some "messages"; is_function := true;
     result := "Updates"; args := sample_flag_args |}.

Definition sample_constructor (n : string) : TLObject :=
  {| name := n; namespace := None; is_function := false;
     result := "InputPeer"; args := [] |}.

Definition sample_constructors : list TLObject :=
  [sample_constructor "inputPeerEmpty"; sample_constructor "inputPeerSelf";
   sample_constructor "inputPeerChat"].

(** The sentences that make up the description of an argument, in the
    order in which [arg_description] appends them. *)
Definition description_sentences (arg : TLArg) : list string :=
  ((if is_vector arg then ["A list must be supplied for this argument."] else [])
   ++ (if is_generic arg
       then ["A different MTProtoRequest must be supplied for this argument."]
       else [])
   ++ (if is_flag arg then ["This argument can be omitted."] else []))%list.

(** The object with another name. *)
Definition with_name (o : TLObject) (n : string) : TLObject :=
  {| name := n; namespace := namespace o; is_function := is_function o;
     result := result o; args := args o |}.

(** The keys of a dictionary, in its order. *)
Definition dict_keys {V : Type} (d : Dict.t V) : list string := map fst d.

(** The distinct elements of a list, each at its first place. *)
Definition add_key (seen : list string) (k : string) : list string :=
  if existsb (String.eqb k) seen then seen else (seen ++ [k])%list.

Definition distinct_in_order (l : list string) : list string :=
  fold_left add_key l [].

(** The [result] of the objects of one kind, in the order of the
    collection. *)
Definition results_of (fn : bool) (tlobjects : list TLObject) : list string :=
  map result (filter (fun o => Bool.eqb (is_function o) fn) tlobjects).




(** The exception of [namespace, name = type.split('.')] on a key with
    more than one dot. *)
Definition unpack_error : Exception :=
  ValueError "too many values to unpack (expected 2)".

(** The cells of a page that carry a link, with their text. *)
Definition row_links (calls : list DocsCall) : list (string * string) :=
  flat_map (fun c => match c with
                     | add_row text _ (Some link) _ => [(text, link)]
                     | _ => []
                     end) calls.

(** The crumbs of the menu of a page that carry a link, with their
    label. *)
Definition menu_links (calls : list DocsCall) : list (string * string) :=
  flat_map (fun c => match c with
                     | add_menu label (Some link) => [(label, link)]
                     | _ => []
                     end) calls.

(** The style sheet that the head of a page names. *)
Definition head_css (calls : list DocsCall) : option string :=
  match calls with
  | write_head _ css :: _ => Some css
  | _ => None
  end.

(** The number of cells of a page. *)
Definition cell_count (calls : list DocsCall) : nat :=
  List.length (filter (fun c => match c with add_row _ _ _ _ => true | _ => false end)
                 calls).

(** The texts of the cells of a page, in their order. *)
Definition cell_texts (calls : list DocsCall) : list string :=
  flat_map (fun c => match c with
                     | add_row text _ _ _ => [text]
                     | _ => []
                     end) calls.

(** The titles of a page, in their order. *)
Definition titles (calls : list DocsCall) : list string :=
  flat_map (fun c => match c with
                     | write_head title _ => [title]
                     | write_title title _ => [title]
                     | _ => []
                     end) calls.




(* ================================================================== *)
(** * Properties *)

(** ** Strings *)

Lemma append_assoc (a b c : string) : (a ++ b) ++ c = a ++ b ++ c.
Proof. induction a as [|x a IH]; simpl; [reflexivity | now rewrite IH]. Qed.


Lemma remove_char_app x s t :
  Py.remove_char x (s ++ t) = Py.remove_char x s ++ Py.remove_char x t.
Proof.
  induction s as [|c s IH]; simpl; [reflexivity|].
  destruct (Ascii.eqb c x); simpl; now rewrite IH.
Qed.

Lemma take_drop n s : take n s ++ drop n s = s.
Proof.
  revert s; induction n as [|n IH]; intros [|c s]; simpl; try reflexivity.
  now rewrite IH.
Qed.

Lemma take_lower_run r : take (String.length (Re.lower_run r)) r = Re.lower_run r.
Proof.
  induction r as [|c r IH]; simpl; [reflexivity|].
  destruct (Py.is_lower c); simpl; [now rewrite IH | reflexivity].
Qed.

(** ** [re.sub] only rewrites what it matches *)

Section SubKeeps.

Variable m : Re.matcher.

(** The replacement is the matched text up to underscores. *)
Hypothesis m_keeps : forall s repl n,
  m s = Some (repl, n) ->
  1 <= n /\ Py.remove_char "_" repl = Py.remove_char "_" (take n s).

Lemma sub_from_keeps s : forall k,
  Py.remove_char "_" (Re.sub_from m k s) = Py.remove_char "_" (drop k s).
Proof.
  induction s as [|c s IH]; intros k.
  - destruct k; reflexivity.
  - destruct k as [|k].
    + cbn [Re.sub_from drop].
      destruct (m (String c s)) as [[repl n]|] eqn:E.
      * destruct (m_keeps _ _ _ E) as [Hn Hr].
        rewrite remove_char_app, Hr, IH.
        destruct n as [|n]; [lia|]. cbn [pred].
        rewrite <- remove_char_app.
        change (drop n s) with (drop (S n) (String c s)).
        now rewrite take_drop.
      * simpl. destruct (Ascii.eqb c "_"); now rewrite IH.
    + simpl. apply IH.
Qed.

Lemma sub_keeps s :
  Py.remove_char "_" (Re.sub m s) = Py.remove_char "_" s.
Proof. unfold Re.sub. now rewrite sub_from_keeps. Qed.

End SubKeeps.

Lemma any_then_capitalized_keeps s repl n :
  Re.any_then_capitalized s = Some (repl, n) ->
  1 <= n /\ Py.remove_char "_" repl = Py.remove_char "_" (take n s).
Proof.
  destruct s as [|c [|u [|l r]]]; simpl; try discriminate.
  destruct (negb (Ascii.eqb c Re.newline) && Py.is_upper u && Py.is_lower l);
    [|discriminate].
  intros H; injection H as <- <-. split; [lia|].
  cbn [take Nat.add]. rewrite take_lower_run.
  simpl. destruct (Ascii.eqb c "_"); reflexivity.
Qed.

Lemma lower_then_upper_keeps s repl n :
  Re.lower_then_upper s = Some (repl, n) ->
  1 <= n /\ Py.remove_char "_" repl = Py.remove_char "_" (take n s).
Proof.
  destruct s as [|c [|u r]]; simpl; try discriminate.
  destruct ((Py.is_lower c || Py.is_digit c) && Py.is_upper u); [|discriminate].
  intros H; injection H as <- <-. split; [lia|].
  simpl. destruct (Ascii.eqb c "_"); reflexivity.
Qed.

(** ** Characters *)

Ltac by_cases_on_char c :=
  destruct c as [[] [] [] [] [] [] [] []]; try reflexivity; try discriminate.

Lemma char_lower_underscore c :
  Ascii.eqb (Py.char_lower c) "_" = Ascii.eqb c "_".
Proof. by_cases_on_char c. Qed.

Lemma char_lower_not_upper c : Py.is_upper (Py.char_lower c) = false.
Proof. by_cases_on_char c. Qed.

Lemma upper_not_lower_digit c :
  Py.is_upper c = true -> Py.is_lower c || Py.is_digit c = false.
Proof. by_cases_on_char c. Qed.

Lemma lower_not_underscore c : Py.is_lower c = true -> Ascii.eqb c "_" = false.
Proof. by_cases_on_char c. Qed.

Lemma char_upper_not_underscore c :
  Py.is_lower c = true -> Ascii.eqb (Py.char_upper c) "_" = false.
Proof. by_cases_on_char c. Qed.

Lemma char_upper_id c : Py.is_lower c = false -> Py.char_upper c = c.
Proof. unfold Py.char_upper. now intros ->. Qed.

Lemma lower_remove_underscore s :
  Py.remove_char "_" (Py.lower s) = Py.lower (Py.remove_char "_" s).
Proof.
  induction s as [|c s IH]; simpl; [reflexivity|].
  rewrite char_lower_underscore.
  destruct (Ascii.eqb c "_"); simpl; now rewrite IH.
Qed.

Lemma lower_no_upper s : no_upper (Py.lower s) = true.
Proof.
  induction s as [|c s IH]; simpl; [reflexivity|].
  now rewrite char_lower_not_upper, IH.
Qed.

(** ** The second pass of [get_file_name] leaves no boundary unsplit *)

Lemma sub_lower_then_upper_cons2 c u r :
  Re.sub Re.lower_then_upper (String c (String u r)) =
  if (Py.is_lower c || Py.is_digit c) && Py.is_upper u
  then String c (String "_" (String u (Re.sub Re.lower_then_upper r)))
  else String c (Re.sub Re.lower_then_upper (String u r)).
Proof.
  unfold Re.sub. cbn [Re.sub_from Re.lower_then_upper].
  destruct ((Py.is_lower c || Py.is_digit c) && Py.is_upper u); reflexivity.
Qed.

Lemma sub_lower_then_upper_head c s :
  exists t, Re.sub Re.lower_then_upper (String c s) = String c t.
Proof.
  destruct s as [|u r].
  - now exists EmptyString.
  - rewrite sub_lower_then_upper_cons2.
    destruct ((Py.is_lower c || Py.is_digit c) && Py.is_upper u); eauto.
Qed.

Lemma has_boundary_cons c d t :
  has_boundary (String c (String d t)) =
  ((Py.is_lower c || Py.is_digit c) && Py.is_upper d) || has_boundary (String d t).
Proof. reflexivity. Qed.

Lemma sub_lower_then_upper_no_boundary s :
  has_boundary (Re.sub Re.lower_then_upper s) = false.
Proof.
  remember (String.length s) as n eqn:Hn.
  assert (Hle : String.length s <= n) by lia. clear Hn.
  revert s Hle. induction n as [|n IH]; intros s Hle.
  - destruct s; [reflexivity | simpl in Hle; lia].
  - destruct s as [|c [|u r]]; try reflexivity.
    simpl in Hle. rewrite sub_lower_then_upper_cons2.
    destruct ((Py.is_lower c || Py.is_digit c) && Py.is_upper u) eqn:E.
    + apply andb_true_iff in E as [_ Hu].
      assert (Hr : has_boundary (String u (Re.sub Re.lower_then_upper r)) = false).
      { destruct r as [|d r']; [reflexivity|].
        destruct (sub_lower_then_upper_head d r') as [t Ht].
        pose proof (IH (String d r') ltac:(simpl in *; lia)) as IHr.
        rewrite Ht in *. rewrite has_boundary_cons, IHr.
        now rewrite (upper_not_lower_digit _ Hu). }
      rewrite !has_boundary_cons, Hr.
      change (Py.is_upper "_") with false.
      change (Py.is_lower "_" || Py.is_digit "_") with false.
      now rewrite andb_false_r.
    + destruct (sub_lower_then_upper_head u r) as [t Ht].
      pose proof (IH (String u r) ltac:(simpl in *; lia)) as IHr.
      rewrite Ht in *. now rewrite has_boundary_cons, E, IHr.
Qed.

(** ** The class name of the code and of the specification *)

Lemma sub_underscore_lower_cons2 c l r :
  Re.sub Re.underscore_lower (String c (String l r)) =
  if Ascii.eqb c "_" && Py.is_lower l
  then String (Py.char_upper l) (Re.sub Re.underscore_lower r)
  else String c (Re.sub Re.underscore_lower (String l r)).
Proof.
  unfold Re.sub. cbn [Re.sub_from Re.underscore_lower].
  destruct (Ascii.eqb c "_" && Py.is_lower l); reflexivity.
Qed.

Lemma upper_after_underscore_no_lower c s :
  Py.is_lower c = false ->
  upper_after_underscore true (String c s) = upper_after_underscore false (String c s).
Proof. intros H. simpl. now rewrite (char_upper_id _ H). Qed.

Lemma sub_underscore_lower_spec s :
  Py.remove_char "_" (Re.sub Re.underscore_lower s) =
  Py.remove_char "_" (upper_after_underscore false s).
Proof.
  remember (String.length s) as n eqn:Hn.
  assert (Hle : String.length s <= n) by lia. clear Hn.
  revert s Hle. induction n as [|n IH]; intros s Hle.
  - destruct s; [reflexivity | simpl in Hle; lia].
  - destruct s as [|c [|l r]]; try reflexivity.
    simpl in Hle. rewrite sub_underscore_lower_cons2.
    destruct (Ascii.eqb c "_") eqn:Ec; cbn [andb].
    + destruct (Py.is_lower l) eqn:El.
      * cbn [upper_after_underscore Py.remove_char]. rewrite Ec.
        rewrite (char_upper_not_underscore _ El), (lower_not_underscore _ El).
        f_equal. apply IH. lia.
      * cbn [upper_after_underscore Py.remove_char]. rewrite Ec.
        rewrite (IH (String l r) ltac:(simpl in *; lia)).
        cbn [upper_after_underscore Py.remove_char].
        now rewrite (char_upper_id _ El).
    + cbn [upper_after_underscore Py.remove_char]. rewrite Ec.
      f_equal. rewrite (IH (String l r) ltac:(simpl in *; lia)). reflexivity.
Qed.

Lemma get_class_name_spec_string s :
  keeps_leading_underscore s = false ->
  get_class_name (Name s) = spec_class_name s.
Proof.
  intros Hs. unfold get_class_name, spec_class_name.
  destruct s as [|c s]; [reflexivity|].
  cbn [keeps_leading_underscore] in Hs.
  destruct (Ascii.eqb c "_") eqn:Ec; cbn [andb] in Hs.
  - apply negb_false_iff in Hs. destruct s as [|l r]; [discriminate|].
    cbn [starts_lower] in Hs.
    rewrite sub_underscore_lower_cons2, Ec, Hs. cbn [andb].
    cbn [Py.slice_to_1 Py.slice_from_1 Py.upper append].
    rewrite sub_underscore_lower_spec.
    cbn [upper_after_underscore Py.remove_char]. rewrite Ec.
    rewrite (char_upper_not_underscore _ Hs), (lower_not_underscore _ Hs).
    reflexivity.
  - assert (Hsub : Re.sub Re.underscore_lower (String c s)
                   = String c (Re.sub Re.underscore_lower s)).
    { destruct s as [|l r]; [reflexivity|].
      rewrite sub_underscore_lower_cons2, Ec. reflexivity. }
    rewrite Hsub. cbn [Py.slice_to_1 Py.slice_from_1 Py.upper append].
    rewrite sub_underscore_lower_spec.
    cbn [upper_after_underscore Py.remove_char]. rewrite Ec. reflexivity.
Qed.

Lemma file_name_keeps_letters s :
  Py.remove_char "_" (get_file_name (Name s) false)
  = Py.remove_char "_" (Py.lower s).
Proof.
  unfold get_file_name.
  rewrite lower_remove_underscore.
  rewrite (sub_keeps _ lower_then_upper_keeps).
  rewrite (sub_keeps _ any_then_capitalized_keeps).
  now rewrite <- lower_remove_underscore.
Qed.

(** C4: [get_file_name] is the two-pass rule followed by lower-casing: the
    first pass puts an underscore between any character and a capitalised
    run of at least two letters that follows it, the second between a
    lower-case letter or digit and an upper-case letter that follows it.
    The result is the lower-cased name with underscores added and nothing
    else changed, no boundary of the second kind is left unsplit, and no
    upper-case letter remains; an object is named by its [name].  In
    particular "GetFullUser" gives "get_full_user", and
    "get_full_user.html" with the extension. *)
Theorem C4_file_name_two_pass :
  (forall s ext,
      get_file_name (Name s) ext =
      let snake :=
        Py.lower (Re.sub Re.lower_then_upper (Re.sub Re.any_then_capitalized s)) in
      if ext then snake ++ ".html" else snake)
  /\ (forall o ext, get_file_name (Obj o) ext = get_file_name (Name (name o)) ext)
  /\ (forall s,
         Py.remove_char "_" (get_file_name (Name s) false) =
         Py.remove_char "_" (Py.lower s))
  /\ (forall s,
         has_boundary (Re.sub Re.lower_then_upper (Re.sub Re.any_then_capitalized s))
         = false)
  /\ (forall s, no_upper (get_file_name (Name s) false) = true)
  /\ Re.sub Re.any_then_capitalized "GetFullUser" = "Get_FullUser"
  /\ Re.sub Re.lower_then_upper "Get_FullUser" = "Get_Full_User"
  /\ get_file_name (Name "GetFullUser") false = "get_full_user"
  /\ get_file_name (Name "GetFullUser") true = "get_full_user.html".
Proof.
  repeat split; try reflexivity.
  - intros s. apply file_name_keeps_letters.
  - intros s. apply sub_lower_then_upper_no_boundary.
  - intros s. apply lower_no_upper.
Qed.

(** The name with consecutive capitals: the first pass splits only before
    "Wait", the second finds nothing to split. *)
Example get_file_name_HTTPWait :
  Re.sub Re.any_then_capitalized "HTTPWait" = "HTTP_Wait"
  /\ get_file_name (Name "HTTPWait") false = "http_wait".
Proof. split; reflexivity. Qed.

Lemma char_upper_underscore c :
  Ascii.eqb (Py.char_upper c) "_" = Ascii.eqb c "_".
Proof. by_cases_on_char c. Qed.

Lemma char_upper_not_lower c : Py.is_lower (Py.char_upper c) = false.
Proof. by_cases_on_char c. Qed.

Lemma remove_char_contains x s : Py.contains x (Py.remove_char x s) = false.
Proof.
  induction s as [|c s IH]; [reflexivity|]. cbn [Py.remove_char].
  destruct (Ascii.eqb c x) eqn:E; [assumption|].
  cbn [Py.contains]. now rewrite E, IH.
Qed.

Lemma spec_class_name_shape s :
  Py.contains "_" (spec_class_name s) = false
  /\ starts_lower (spec_class_name s) = false.
Proof.
  unfold spec_class_name.
  pose proof (remove_char_contains "_" (upper_after_underscore false s)) as H.
  destruct (Py.remove_char "_" (upper_after_underscore false s)) as [|c r];
    [now split|].
  cbn [upper_first Py.contains starts_lower] in *.
  rewrite char_upper_underscore, char_upper_not_lower. now split.
Qed.

(** C5: for a name that does not begin with an underscore, or begins with
    one that a lower-case letter follows, [get_class_name] is the letter
    after each underscore in upper case, the underscores removed and the
    first character in upper case: no underscore is left and the name
    does not begin with a lower-case letter.  A function object gets the
    suffix "Request".
    "get_full_user" gives "GetFullUser", and "GetFullUserRequest" for a
    function object. *)
Theorem C5_class_name_camel_case :
  (forall s, keeps_leading_underscore s = false ->
             get_class_name (Name s) = spec_class_name s
             /\ Py.contains "_" (get_class_name (Name s)) = false
             /\ starts_lower (get_class_name (Name s)) = false)
  /\ (forall o,
         get_class_name (Obj o) =
         if is_function o then get_class_name (Name (name o)) ++ "Request"
         else get_class_name (Name (name o)))
  /\ get_class_name (Name "get_full_user") = "GetFullUser"
  /\ (forall ns res l,
         get_class_name
           (Obj {| name := "get_full_user"; namespace := ns; is_function := true;
                   result := res; args := l |}) = "GetFullUserRequest").
Proof.
  repeat split; try reflexivity.
  - now apply get_class_name_spec_string.
  - rewrite get_class_name_spec_string by assumption. apply spec_class_name_shape.
  - rewrite get_class_name_spec_string by assumption. apply spec_class_name_shape.
Qed.

Lemma C5_class_name_camel_case_witness :
  keeps_leading_underscore "get_full_user" = false
  /\ get_class_name (Name "get_full_user") = spec_class_name "get_full_user".
Proof.
  split; [reflexivity|].
  exact (proj1 (proj1 C5_class_name_camel_case "get_full_user" eq_refl)).
Defined.

(** A leading underscore that no lower-case letter follows is kept: only
    the underscores after the first character are removed.  One that a
    lower-case letter follows goes with the first pass. *)
Example get_class_name_leading_underscore :
  get_class_name (Name "__init") = "_Init"
  /\ spec_class_name "__init" = "Init"
  /\ get_class_name (Name "_private_name") = "PrivateName".
Proof. repeat split; reflexivity. Qed.

(** ** Sorting by a Boolean key *)

Lemma insert_sorted_false {A : Type} (key : A -> bool) x l :
  key x = false -> Py.insert_sorted key x l = x :: l.
Proof.
  intros Hx. destruct l as [|y l]; simpl; [reflexivity|].
  rewrite Hx. unfold Py.bool_lt. now rewrite andb_false_r.
Qed.

Lemma insert_sorted_true {A : Type} (key : A -> bool) x l1 l2 :
  key x = true ->
  Forall (fun y => key y = false) l1 ->
  Forall (fun y => key y = true) l2 ->
  Py.insert_sorted key x (l1 ++ l2) = (l1 ++ x :: l2)%list.
Proof.
  intros Hx H1 H2. induction H1 as [|y l1 Hy _ IH]; simpl.
  - destruct H2 as [|z l2 Hz _]; simpl; [reflexivity|].
    now rewrite Hx, Hz.
  - now rewrite Hx, Hy, IH.
Qed.

Lemma Forall_filter_key {A : Type} (f : A -> bool) l :
  Forall (fun y => f y = true) (filter f l).
Proof.
  induction l as [|y l IH]; simpl; [constructor|].
  destruct (f y) eqn:E; [constructor|]; assumption.
Qed.

(** A stable sort on a Boolean key is a partition that keeps the order
    inside both parts. *)
Lemma sorted_partition {A : Type} (key : A -> bool) l :
  Py.sorted l key = (filter (fun a => negb (key a)) l ++ filter key l)%list.
Proof.
  induction l as [|x l IH]; simpl; [reflexivity|].
  rewrite IH. destruct (key x) eqn:Hx; simpl.
  - apply insert_sorted_true; [assumption| |apply Forall_filter_key].
    eapply Forall_impl; [|apply (Forall_filter_key (fun a => negb (key a)))].
    intros a Ha. now apply negb_true_iff.
  - now apply insert_sorted_false.
Qed.

(** ** The table of an object page *)

Lemma bold_rows_app l1 l2 : bold_rows (l1 ++ l2) = (bold_rows l1 ++ bold_rows l2)%list.
Proof. apply flat_map_app. Qed.

Lemma text_calls_app l1 l2 : text_calls (l1 ++ l2) = (text_calls l1 ++ text_calls l2)%list.
Proof. apply flat_map_app. Qed.

Lemma bold_rows_namespace_menu ns : bold_rows (namespace_menu ns) = [].
Proof. destruct ns as [n|]; simpl; [destruct (Py.truthy n)|]; reflexivity. Qed.

Lemma text_calls_namespace_menu ns : text_calls (namespace_menu ns) = [].
Proof. destruct ns as [n|]; simpl; [destruct (Py.truthy n)|]; reflexivity. Qed.

Lemma arg_rows_bold fs filename l rows :
  arg_rows fs filename l = Ok rows -> bold_rows rows = map arg_name l.
Proof.
  revert rows. induction l as [|a l IH]; simpl; intros rows H.
  - now injection H as <-.
  - unfold arg_row in H.
    destruct (get_path_for_type fs (arg_type a) filename) as [link|e];
      simpl in H; [|discriminate].
    destruct (arg_rows fs filename l) as [rows'|e]; simpl in H; [|discriminate].
    injection H as <-. simpl. f_equal. now apply IH.
Qed.

Lemma arg_rows_text fs filename l rows :
  arg_rows fs filename l = Ok rows -> text_calls rows = [].
Proof.
  revert rows. induction l as [|a l IH]; simpl; intros rows H.
  - now injection H as <-.
  - unfold arg_row in H.
    destruct (get_path_for_type fs (arg_type a) filename) as [link|e];
      simpl in H; [|discriminate].
    destruct (arg_rows fs filename l) as [rows'|e]; simpl in H; [|discriminate].
    injection H as <-. simpl. now apply IH.
Qed.

Lemma bind_ok {A B : Type} (r : Result A) (k : A -> Result B) b :
  bind r k = Ok b -> exists a, r = Ok a /\ k a = Ok b.
Proof. destruct r as [a|e]; simpl; [eauto | discriminate]. Qed.

Ltac bind_inv H :=
  repeat (let x := fresh "x" in
          let Hx := fresh "Hx" in
          apply bind_ok in H as (x & Hx & H)).

(** The table of an object page holds its bold cells and its texts. *)
Lemma object_page_calls fs tlobject fs' page :
  object_page fs tlobject = Ok (fs', page) ->
  exists table,
    bold_rows (page_calls page) = bold_rows table
    /\ text_calls (page_calls page) = text_calls table
    /\ (if negb (PosixPath.is_nil (displayed_args tlobject)) then
          exists rows,
            arg_rows (open_writer fs (get_create_path_for tlobject))
              (get_create_path_for tlobject) (displayed_args tlobject) = Ok rows
            /\ table = ([begin_table 3] ++ rows ++ [end_table])%list
        else
          table = [write_text (if is_function tlobject
                               then "This request takes no input parameters."
                               else "This type has no members.")]).
Proof.
  unfold object_page. intros H. bind_inv H.
  injection H as _ <-. cbn [page_calls].
  exists x4.
  split; [|split].
  - pose proof (bold_rows_namespace_menu (namespace tlobject)) as E.
    unfold bold_rows in *. cbn [flat_map app].
    rewrite flat_map_app, E. cbn [flat_map app].
    rewrite flat_map_app. cbn [flat_map app]. apply app_nil_r.
  - pose proof (text_calls_namespace_menu (namespace tlobject)) as E.
    unfold text_calls in *. cbn [flat_map app].
    rewrite flat_map_app, E. cbn [flat_map app].
    rewrite flat_map_app. cbn [flat_map app]. apply app_nil_r.
  - destruct (negb (PosixPath.is_nil (displayed_args tlobject))).
    + bind_inv Hx4. injection Hx4 as <-. eauto.
    + destruct (is_function tlobject); now injection Hx4 as <-.
Qed.

(** C6: the rows of the parameter table of an object page are the
    displayable arguments (neither flag indicator nor generic definition),
    the arguments that are not flags first and the flags after them, each
    group in its original order. *)
Theorem C6_parameter_table_order : forall fs tlobject fs' page,
  object_page fs tlobject = Ok (fs', page) ->
  let shown :=
    filter (fun a => negb (flag_indicator a) && negb (generic_definition a))
      (args tlobject) in
  displayed_args tlobject
  = (filter (fun a => negb (is_flag a)) shown ++ filter is_flag shown)%list
  /\ bold_rows (page_calls page) = map arg_name (displayed_args tlobject).
Proof.
  intros fs tlobject fs' page H shown. split.
  - apply sorted_partition.
  - destruct (object_page_calls _ _ _ _ H) as (table & -> & _ & Ht).
    destruct (displayed_args tlobject) as [|a l] eqn:E; cbn [PosixPath.is_nil negb] in Ht.
    + now subst table.
    + destruct Ht as (rows & Hrows & ->).
      rewrite !bold_rows_app. apply arg_rows_bold in Hrows. rewrite Hrows.
      cbn [bold_rows flat_map app]. now rewrite !app_nil_r.
Qed.

Lemma C6_parameter_table_order_witness :
  exists fs' page,
    object_page fs_fresh sample_request = Ok (fs', page)
    /\ bold_rows (page_calls page) = ["plain1"; "plain2"; "flagA"; "flagB"].
Proof.
  destruct (object_page fs_fresh sample_request) as [[fs' page]|e] eqn:E;
    [|vm_compute in E; discriminate].
  exists fs', page. split; [reflexivity|].
  rewrite (proj2 (C6_parameter_table_order _ _ _ _ E)). reflexivity.
Defined.

(** ** The sentences of a type page *)

Lemma object_rows_text fs filename l rows :
  object_rows fs filename l = Ok rows -> text_calls rows = [].
Proof.
  revert rows. induction l as [|o l IH]; simpl; intros rows H.
  - now injection H as <-.
  - bind_inv H. injection H as <-. simpl. now apply IH.
Qed.

Lemma type_page_text fs tlfunctions tltype constructors fs' page :
  type_page fs tlfunctions tltype constructors = Ok (fs', page) ->
  text_calls (page_calls page) =
  [constructors_sentence constructors;
   functions_sentence (Dict.get_default tlfunctions tltype [])].
Proof.
  unfold type_page. intros H.
  apply bind_ok in H as (filename & _ & H).
  apply bind_ok in H as ([namespace0 name0] & _ & H).
  bind_inv H. injection H as _ <-. cbn [page_calls].
  pose proof (text_calls_namespace_menu namespace0) as E.
  pose proof (object_rows_text _ _ _ _ Hx4) as Ec.
  pose proof (object_rows_text _ _ _ _ Hx5) as Ef.
  unfold text_calls in *. cbn [flat_map app].
  rewrite flat_map_app, E. cbn [flat_map app].
  rewrite flat_map_app, Ec. cbn [flat_map app].
  rewrite flat_map_app, Ef. reflexivity.
Qed.

Lemma format_d_value n :
  option_map Nat.of_uint (NilZero.uint_of_string (Py.format_d n)) = Some n.
Proof.
  unfold Py.format_d. pose proof (DecimalNat.Unsigned.of_to n) as Hn.
  destruct (Nat.to_uint n) eqn:E;
    try (rewrite NilZero.usu by discriminate; simpl; now f_equal).
  simpl in *. now f_equal.
Qed.

(** C7: on a type page the sentence under "Available constructors" is
    chosen by the number of constructors (none, one, or the number written
    in decimal), and the sentence under "Methods returning this type" by the
    number of functions in the same way; these are the two texts of the
    page. *)
Theorem C7_count_sentences : forall fs tlfunctions tltype constructors fs' page,
  type_page fs tlfunctions tltype constructors = Ok (fs', page) ->
  let functions := Dict.get_default tlfunctions tltype [] in
  text_calls (page_calls page)
  = [constructors_sentence constructors; functions_sentence functions]
  /\ constructors_sentence constructors
     = match List.length constructors with
       | 0 => "This type has no constructors available."
       | 1 => "This type has one constructor available."
       | n => "This type has " ++ Py.format_d n ++ " constructors available."
       end
  /\ functions_sentence functions
     = match List.length functions with
       | 0 => "No method returns this type."
       | 1 => "Only the following method returns this type."
       | n => "The following " ++ Py.format_d n
              ++ " methods return this type as a result."
       end
  /\ (forall n, option_map Nat.of_uint (NilZero.uint_of_string (Py.format_d n))
                = Some n)
  /\ Py.format_d 3 = "3".
Proof.
  intros fs tlfunctions tltype constructors fs' page H functions.
  split; [apply (type_page_text _ _ _ _ _ _ H)|].
  split; [destruct constructors as [|? [|? ?]]; reflexivity|].
  split; [destruct functions as [|? [|? ?]]; reflexivity|].
  split; [apply format_d_value | reflexivity].
Qed.

Lemma C7_count_sentences_witness :
  exists fs' page,
    type_page fs_fresh [] "InputPeer" sample_constructors = Ok (fs', page)
    /\ text_calls (page_calls page)
       = ["This type has 3 constructors available."; "No method returns this type."].
Proof.
  destruct (type_page fs_fresh [] "InputPeer" sample_constructors)
    as [[fs' page]|e] eqn:E; [|vm_compute in E; discriminate].
  exists fs', page. split; [reflexivity|].
  rewrite (proj1 (C7_count_sentences _ _ _ _ _ _ E)). reflexivity.
Defined.

(** ** Dictionaries *)

Lemma dict_get_update {V : Type} (f : V -> V) k (d : Dict.t V) k' :
  Dict.get (Dict.update f k d) k' =
  if (k =? k')%string then option_map f (Dict.get d k) else Dict.get d k'.
Proof.
  induction d as [|[k0 v] d IH]; simpl.
  - now destruct (k =? k')%string.
  - destruct (String.eqb_spec k0 k) as [->|Hk0]; simpl.
    + destruct (k =? k')%string; reflexivity.
    + rewrite IH.
      destruct (String.eqb_spec k0 k') as [->|Hk0']; [|reflexivity].
      destruct (String.eqb_spec k k') as [->|]; [congruence | reflexivity].
Qed.

Lemma dict_get_app {V : Type} (d : Dict.t V) k v k' :
  Dict.get (d ++ [(k, v)])%list k' =
  match Dict.get d k' with
  | Some x => Some x
  | None => if (k =? k')%string then Some v else None
  end.
Proof.
  induction d as [|[k0 v0] d IH]; simpl; [reflexivity|].
  destruct (k0 =? k')%string; [reflexivity | apply IH].
Qed.

Lemma dict_update_Forall {V : Type} (P : V -> Prop) (f : V -> V) k (d : Dict.t V) :
  (forall v, P (f v)) ->
  Forall (fun kv => P (snd kv)) d ->
  Forall (fun kv => P (snd kv)) (Dict.update f k d).
Proof.
  intros Hf Hd. induction Hd as [|[k0 v] d Hv Hd IH]; simpl; [constructor|].
  destruct (k0 =? k)%string; constructor; simpl; auto.
Qed.

Lemma dict_setitem_Forall {V : Type} (P : V -> Prop) k v (d : Dict.t V) :
  P v ->
  Forall (fun kv => P (snd kv)) d ->
  Forall (fun kv => P (snd kv)) (Dict.setitem k v d).
Proof.
  intros Hv Hd. unfold Dict.setitem. destruct (Dict.mem k d).
  - now apply dict_update_Forall.
  - apply Forall_app. split; [assumption|]. now constructor.
Qed.

(** ** The cross-reference index *)

(** What [index_step] stores for one object: the object goes to the end of
    the list under its [result], in the dictionary of its kind. *)
Lemma index_step_get (fn : bool) ix o k :
  Dict.get (if fn then tlfunctions_of (index_step ix o)
            else tltypes_of (index_step ix o)) k =
  let d := if fn then tlfunctions_of ix else tltypes_of ix in
  if Bool.eqb (is_function o) fn && (result o =? k)%string
  then Some (match Dict.get d k with Some l => l ++ [o] | None => [o] end)%list
  else Dict.get d k.
Proof.
  destruct ix as [tltypes tlfunctions]. unfold index_step.
  destruct (is_function o) eqn:Hf, fn; cbn [tlfunctions_of tltypes_of fst snd Bool.eqb andb];
    try reflexivity.
  all: unfold Dict.setitem, Dict.mem.
  all: match goal with
       | |- context [Dict.get ?d (result ?x)] =>
           destruct (Dict.get d (result x)) as [l|] eqn:E
       end.
  all: rewrite ?dict_get_update, ?dict_get_app.
  all: destruct (String.eqb_spec (result o) k) as [<-|Hne];
    rewrite ?E; try reflexivity.
  all: now destruct (Dict.get _ k).
Qed.

Lemma fold_index_step_get (fn : bool) tlobjects : forall ix k,
  Dict.get (if fn then tlfunctions_of (fold_left index_step tlobjects ix)
            else tltypes_of (fold_left index_step tlobjects ix)) k =
  match Dict.get (if fn then tlfunctions_of ix else tltypes_of ix) k,
        with_result fn k tlobjects with
  | Some l, r => Some (l ++ r)%list
  | None, [] => None
  | None, r => Some r
  end.
Proof.
  induction tlobjects as [|o l IH]; intros ix k; cbn [fold_left with_result filter].
  - destruct (Dict.get _ k); [now rewrite app_nil_r | reflexivity].
  - rewrite IH, index_step_get. cbv zeta. fold (with_result fn k l).
    destruct (Bool.eqb (is_function o) fn && (result o =? k)%string).
    + destruct (Dict.get _ k) as [l0|]; [now rewrite <- app_assoc | reflexivity].
    + reflexivity.
Qed.

Lemma index_step_nonempty ix o :
  Forall (fun kv => snd kv <> []) (tltypes_of ix) ->
  Forall (fun kv => snd kv <> []) (tltypes_of (index_step ix o)).
Proof.
  destruct ix as [tltypes tlfunctions]. unfold index_step.
  cbn [tltypes_of fst]. intros H.
  destruct (is_function o); cbn [fst]; [assumption|].
  destruct (Dict.mem (result o) tltypes).
  - apply (dict_update_Forall (fun l => l <> [])); [|assumption].
    intros v Hv. now destruct v.
  - now apply (dict_setitem_Forall (fun l => l <> [])).
Qed.

Lemma build_index_nonempty tlobjects :
  Forall (fun kv => snd kv <> []) (tltypes_of (build_index tlobjects)).
Proof.
  unfold build_index.
  assert (H : Forall (fun kv : string * list TLObject => snd kv <> [])
                (tltypes_of ([], []))) by constructor.
  revert H. generalize (([], []) : Index).
  induction tlobjects as [|o l IH]; intros ix H; cbn [fold_left]; [assumption|].
  apply IH. now apply index_step_nonempty.
Qed.

(** C2, as the code has it: both associations are keyed by the [result]
    of the objects.  The constructors under a type are the non-function
    objects whose [result] is that type, the functions under a type are the
    functions whose [result] is that type, both in the order of the
    collection; a type without such an object has no entry. *)
Theorem C2_index_grouped_by_result : forall tlobjects k,
  Dict.get (tltypes_of (build_index tlobjects)) k
  = match with_result false k tlobjects with
    | [] => None
    | l => Some l
    end
  /\ Dict.get (tlfunctions_of (build_index tlobjects)) k
     = match with_result true k tlobjects with
       | [] => None
       | l => Some l
       end.
Proof.
  intros tlobjects k. unfold build_index. split.
  - apply (fold_index_step_get false tlobjects ([], []) k).
  - apply (fold_index_step_get true tlobjects ([], []) k).
Qed.

(** Three constructors of the type "InputPeer": the code stores them in
    one list under "InputPeer", and nothing under their own names. *)
Lemma C2_own_name_counterexample :
  tltypes_of (build_index sample_constructors) = [("InputPeer", sample_constructors)]
  /\ Dict.get (tltypes_of (build_index sample_constructors)) "inputPeerEmpty" = None
  /\ Dict.get (spec_types_by_own_name sample_constructors) "inputPeerEmpty"
     = Some [sample_constructor "inputPeerEmpty"]
  /\ tltypes_of (build_index sample_constructors)
     <> spec_types_by_own_name sample_constructors.
Proof.
  repeat split; try reflexivity. vm_compute. discriminate.
Qed.

(** ** No page says that a type has no constructors *)

Lemma in_text_calls text calls :
  In (write_text text) calls -> In text (text_calls calls).
Proof.
  intros H. unfold text_calls. apply in_flat_map.
  exists (write_text text). split; [assumption | now left].
Qed.

Lemma format_d_head n :
  exists c s, Py.format_d n = String c s /\ Py.is_digit c = true.
Proof.
  unfold Py.format_d. destruct (Nat.to_uint n); simpl; eauto.
Qed.

Lemma constructors_sentence_nonempty constructors :
  constructors <> [] ->
  constructors_sentence constructors <> "This type has no constructors available.".
Proof.
  intros Hne. destruct constructors as [|a [|b l]]; [congruence|discriminate|].
  unfold constructors_sentence. cbn [PosixPath.is_nil List.length Nat.eqb].
  destruct (format_d_head (S (S (List.length l)))) as (c & s & -> & Hc).
  cbn [append]. intros H. injection H as -> _. discriminate.
Qed.

Lemma functions_sentence_other functions :
  functions_sentence functions <> "This type has no constructors available.".
Proof.
  destruct functions as [|a [|b l]]; discriminate.
Qed.

Lemma object_page_text fs tlobject fs' page :
  object_page fs tlobject = Ok (fs', page) ->
  ~ In (write_text "This type has no constructors available.") (page_calls page).
Proof.
  intros H Hin. apply in_text_calls in Hin.
  destruct (object_page_calls _ _ _ _ H) as (table & _ & Ht & Htable).
  rewrite Ht in Hin.
  destruct (negb (PosixPath.is_nil (displayed_args tlobject))).
  - destruct Htable as (rows & Hrows & ->).
    apply arg_rows_text in Hrows.
    unfold text_calls in *. cbn [flat_map app] in Hin.
    rewrite flat_map_app, Hrows in Hin. destruct Hin.
  - subst table. destruct (is_function tlobject);
      destruct Hin as [Hin|[]]; discriminate.
Qed.

Lemma object_pages_text tlobjects : forall fs fs' pages,
  object_pages fs tlobjects = Ok (fs', pages) ->
  forall page, In page pages ->
  ~ In (write_text "This type has no constructors available.") (page_calls page).
Proof.
  induction tlobjects as [|o l IH]; cbn [object_pages]; intros fs fs' pages H.
  - injection H as _ <-. intros page [].
  - apply bind_ok in H as ([fs1 page1] & H1 & H).
    apply bind_ok in H as ([fs2 pages2] & H2 & H).
    injection H as _ <-. intros page [<-|Hin].
    + apply (object_page_text _ _ _ _ H1).
    + apply (IH _ _ _ H2 _ Hin).
Qed.

Lemma type_pages_text tlfunctions items : forall fs fs' pages,
  Forall (fun kv => snd kv <> []) items ->
  type_pages fs tlfunctions items = Ok (fs', pages) ->
  forall page, In page pages ->
  ~ In (write_text "This type has no constructors available.") (page_calls page).
Proof.
  induction items as [|[tltype constructors] l IH]; cbn [type_pages];
    intros fs fs' pages Hne H.
  - injection H as _ <-. intros page [].
  - apply bind_ok in H as ([fs1 page1] & H1 & H).
    apply bind_ok in H as ([fs2 pages2] & H2 & H).
    injection H as _ <-.
    apply Forall_cons_iff in Hne as [Hc Hne]. cbn [snd] in Hc.
    intros page [<-|Hin].
    + intros Hin. apply in_text_calls in Hin.
      rewrite (type_page_text _ _ _ _ _ _ H1) in Hin.
      destruct Hin as [Hin|[Hin|[]]].
      * now apply (constructors_sentence_nonempty _ Hc).
      * now apply (functions_sentence_other _ Hin).
    + apply (IH _ _ _ Hne H2 _ Hin).
Qed.

(** C9: every list of constructors stored in the type index has at least
    one element, so the sentence chosen for it is never "This type has no
    constructors available.", and no page that [generate_documentation]
    writes carries that sentence. *)
Theorem C9_type_index_lists_nonempty : forall tlobjects,
  (forall tltype constructors,
      In (tltype, constructors) (tltypes_of (build_index tlobjects)) ->
      1 <= List.length constructors
      /\ constructors_sentence constructors
         <> "This type has no constructors available.")
  /\ (forall fs fs' pages,
         generate_documentation fs tlobjects = Ok (fs', pages) ->
         forall page, In page pages ->
         ~ In (write_text "This type has no constructors available.")
             (page_calls page)).
Proof.
  intros tlobjects. split.
  - intros tltype constructors Hin.
    pose proof (build_index_nonempty tlobjects) as H.
    rewrite Forall_forall in H. specialize (H _ Hin). cbn [snd] in H.
    split; [|now apply constructors_sentence_nonempty].
    destruct constructors; [congruence | simpl; lia].
  - unfold generate_documentation. intros fs fs' pages H.
    apply bind_ok in H as ([fs1 pages_a] & Ha & H).
    apply bind_ok in H as ([fs2 pages_b] & Hb & H).
    injection H as _ <-. intros page Hin.
    apply in_app_or in Hin as [Hin|Hin].
    + apply (object_pages_text _ _ _ _ Ha _ Hin).
    + apply (type_pages_text _ _ _ _ _ (build_index_nonempty tlobjects) Hb _ Hin).
Qed.

Lemma C9_type_index_lists_nonempty_witness :
  In ("InputPeer", sample_constructors)
    (tltypes_of (build_index (sample_request :: sample_constructors)))
  /\ 1 <= List.length sample_constructors
  /\ exists fs' pages,
       generate_documentation fs_fresh (sample_request :: sample_constructors)
       = Ok (fs', pages)
       /\ List.length pages = 5
       /\ Forall (fun page =>
                    ~ In (write_text "This type has no constructors available.")
                        (page_calls page)) pages.
Proof.
  assert (Hin : In ("InputPeer", sample_constructors)
                  (tltypes_of (build_index (sample_request :: sample_constructors))))
    by (now left).
  split; [exact Hin|].
  split; [exact (proj1 (proj1 (C9_type_index_lists_nonempty _) _ _ Hin))|].
  destruct (generate_documentation fs_fresh (sample_request :: sample_constructors))
    as [[fs' pages]|e] eqn:E; [|vm_compute in E; discriminate].
  exists fs', pages. split; [reflexivity|].
  split.
  - vm_compute in E. injection E as _ <-. reflexivity.
  - apply Forall_forall. intros page Hp.
    exact (proj2 (C9_type_index_lists_nonempty _) _ _ _ E page Hp).
Defined.

(** ** Splitting and joining *)

Lemma split_cons_sep x s : Py.split x (String x s) = EmptyString :: Py.split x s.
Proof. simpl. now rewrite Ascii.eqb_refl. Qed.

Lemma split_not_nil x s : Py.split x s <> [].
Proof.
  destruct s as [|c s]; simpl; [discriminate|].
  destruct (Ascii.eqb c x); [discriminate|].
  destruct (Py.split x s); discriminate.
Qed.

Lemma split_app_sep x a b :
  Py.split x (a ++ String x b) = (Py.split x a ++ Py.split x b)%list.
Proof.
  induction a as [|c a IH]; cbn [append].
  - now rewrite split_cons_sep.
  - cbn [Py.split]. destruct (Ascii.eqb c x).
    + now rewrite IH.
    + rewrite IH. destruct (Py.split x a) eqn:E; [|reflexivity].
      now apply split_not_nil in E.
Qed.

Lemma split_no_sep x s : Py.contains x s = false -> Py.split x s = [s].
Proof.
  induction s as [|c s IH]; simpl; [reflexivity|].
  destruct (Ascii.eqb c x); simpl; [discriminate|].
  intros H. now rewrite (IH H).
Qed.

Lemma split_length x s : List.length (Py.split x s) = S (Py.count x s).
Proof.
  induction s as [|c s IH]; simpl; [reflexivity|].
  destruct (Ascii.eqb c x); simpl; [now rewrite IH|].
  destruct (Py.split x s); simpl in *; lia.
Qed.

Lemma contains_count x s : Py.contains x s = negb (Py.count x s =? 0).
Proof.
  induction s as [|c s IH]; simpl; [reflexivity|].
  destruct (Ascii.eqb c x); simpl; [reflexivity | assumption].
Qed.

Lemma split_pieces_no_sep x s :
  Forall (fun p => Py.contains x p = false) (Py.split x s).
Proof.
  induction s as [|c s IH]; simpl; [now repeat constructor|].
  destruct (Ascii.eqb c x) eqn:E; [now constructor|].
  destruct (Py.split x s) as [|p ps].
  - constructor; [|constructor]. simpl. now rewrite E.
  - apply Forall_cons_iff in IH as [Hp Hps].
    constructor; [|assumption]. simpl. now rewrite E.
Qed.

Lemma contains_app x a b :
  Py.contains x (a ++ b) = Py.contains x a || Py.contains x b.
Proof.
  induction a as [|c a IH]; simpl; [reflexivity|].
  now rewrite IH, orb_assoc.
Qed.

Lemma parts_app_sep a b : parts (a ++ String "/" b) = (parts a ++ parts b)%list.
Proof. unfold parts. now rewrite split_app_sep, filter_app. Qed.

Lemma parts_cons_sep s : parts (String "/" s) = parts s.
Proof. apply (parts_app_sep "" s). Qed.

Lemma parts_no_sep s :
  Py.contains "/" s = false -> Py.truthy s = true -> parts s = [s].
Proof.
  intros H Ht. unfold parts. rewrite (split_no_sep _ _ H). simpl. now rewrite Ht.
Qed.

Lemma parts_clean s :
  Forall (fun p => Py.contains "/" p = false /\ Py.truthy p = true) (parts s).
Proof.
  unfold parts. pose proof (split_pieces_no_sep "/" s) as H.
  induction H as [|p ps Hp _ IH]; simpl; [constructor|].
  destruct (Py.truthy p) eqn:E; [constructor|]; auto.
Qed.

Lemma parts_join comps :
  Forall (fun p => Py.contains "/" p = false /\ Py.truthy p = true) comps ->
  parts (Py.join "/" comps) = comps.
Proof.
  induction 1 as [|p ps [Hp Ht] Hps IH]; [reflexivity|].
  destruct ps as [|q ps].
  - now apply parts_no_sep.
  - change (Py.join "/" (p :: q :: ps)) with (p ++ String "/" (Py.join "/" (q :: ps))).
    rewrite parts_app_sep, IH. now rewrite (parts_no_sep _ Hp Ht).
Qed.

Lemma endswith_char_app x a b :
  Py.truthy b = true -> Py.endswith_char x (a ++ b) = Py.endswith_char x b.
Proof.
  intros Hb. induction a as [|c a IH]; [reflexivity|].
  cbn [append Py.endswith_char]. rewrite IH.
  destruct (a ++ b) eqn:E; [|reflexivity].
  destruct a, b; discriminate.
Qed.

Lemma endswith_char_split x s :
  Py.endswith_char x s = true -> exists s', s = s' ++ String x EmptyString.
Proof.
  induction s as [|c s IH]; [discriminate|].
  destruct s as [|d s].
  - simpl. intros H. apply Ascii.eqb_eq in H as ->. now exists EmptyString.
  - intros H. destruct (IH H) as [s' Hs']. exists (String c s'). simpl.
    now rewrite <- Hs'.
Qed.

Lemma endswith_char_no_sep x s :
  Py.contains x s = false -> Py.endswith_char x s = false.
Proof.
  induction s as [|c s IH]; [reflexivity|].
  simpl. destruct (Ascii.eqb c x); [discriminate|]. simpl.
  intros H. destruct s; [reflexivity | now apply IH].
Qed.

Lemma startswith_sep_contains s :
  Py.contains "/" s = false -> Py.startswith "/" s = false.
Proof.
  destruct s as [|c s]; [reflexivity|]. simpl.
  now destruct (Ascii.eqb c "/").
Qed.

Lemma startswith_sep_cons c s :
  Py.startswith "/" (String c s) = Ascii.eqb c "/".
Proof.
  simpl. apply andb_true_r.
Qed.

(** ** [normpath] and [abspath] on components *)

Lemma norm_step_succ k acc c :
  PosixPath.norm_step (S k) acc c = PosixPath.norm_step 1 acc c.
Proof. reflexivity. Qed.

Lemma norm_step_regular n acc c :
  is_regular c = true -> PosixPath.norm_step n acc c = (acc ++ [c])%list.
Proof.
  unfold is_regular, PosixPath.norm_step. intros H.
  apply andb_true_iff in H as [H H2]. apply andb_true_iff in H as [H0 H1].
  destruct c as [|a c]; [discriminate|].
  apply negb_true_iff in H1. rewrite H1, H2. reflexivity.
Qed.

Lemma fold_norm_succ k l : forall acc,
  fold_left (PosixPath.norm_step (S k)) l acc = fold_left (PosixPath.norm_step 1) l acc.
Proof. induction l as [|c l IH]; intros acc; simpl; [reflexivity | apply IH]. Qed.

Lemma fold_norm_filter n l : forall acc,
  fold_left (PosixPath.norm_step n) l acc
  = fold_left (PosixPath.norm_step n) (filter Py.truthy l) acc.
Proof.
  induction l as [|c l IH]; intros acc; [reflexivity|].
  destruct c as [|a c]; cbn [filter Py.truthy fold_left]; apply IH.
Qed.

Lemma fold_norm_regular n l : forall acc,
  forallb is_regular l = true ->
  fold_left (PosixPath.norm_step n) l acc = (acc ++ l)%list.
Proof.
  induction l as [|c l IH]; intros acc H; cbn [fold_left].
  - now rewrite app_nil_r.
  - cbn [forallb] in H. apply andb_true_iff in H as [Hc Hl].
    rewrite (norm_step_regular _ _ _ Hc), (IH _ Hl), <- app_assoc. reflexivity.
Qed.

Lemma Forall_removelast {A : Type} (P : A -> Prop) l :
  Forall P l -> Forall P (removelast l).
Proof.
  induction 1 as [|x l Hx Hl IH]; simpl; [constructor|].
  destruct l; [constructor | now constructor].
Qed.

Lemma norm_step_clean n acc c :
  Py.contains "/" c = false -> Forall clean acc ->
  Forall clean (PosixPath.norm_step n acc c).
Proof.
  intros Hc Hacc. unfold PosixPath.norm_step.
  destruct c as [|a c]; [assumption|].
  destruct ((String a c =? "")%string || (String a c =? ".")%string);
    [assumption|].
  match goal with |- Forall _ (if ?b then _ else _) => destruct b end.
  - apply Forall_app. split; [assumption|]. now repeat constructor.
  - now apply Forall_removelast.
Qed.

Lemma fold_norm_clean n l : forall acc,
  Forall (fun p => Py.contains "/" p = false) l -> Forall clean acc ->
  Forall clean (fold_left (PosixPath.norm_step n) l acc).
Proof.
  induction l as [|c l IH]; intros acc Hl Hacc; cbn [fold_left]; [assumption|].
  apply Forall_cons_iff in Hl as [Hc Hl].
  apply IH; [assumption|]. now apply norm_step_clean.
Qed.

Lemma truthy_startswith s : Py.startswith "/" s = true -> Py.truthy s = true.
Proof. now destruct s. Qed.

(** The components of the normal form of an absolute path. *)
Lemma parts_normpath_abs s :
  PosixPath.isabs s = true ->
  parts (PosixPath.normpath s) = fold_left (PosixPath.norm_step 1) (parts s) [].
Proof.
  unfold PosixPath.isabs. intros Habs. unfold PosixPath.normpath.
  rewrite (truthy_startswith _ Habs). cbn [negb].
  assert (Hs : exists k, PosixPath.initial_slashes s = S k
                         /\ (k = 0 \/ k = 1)).
  { unfold PosixPath.initial_slashes. rewrite Habs.
    destruct (Py.startswith "//" s && negb (Py.startswith "///" s)); eauto. }
  destruct Hs as (k & -> & Hk). cbn [Nat.eqb].
  rewrite fold_norm_succ, fold_norm_filter. fold (parts s).
  assert (Hclean : Forall clean (fold_left (PosixPath.norm_step 1) (parts s) [])).
  { apply fold_norm_clean; [|constructor].
    eapply Forall_impl; [|apply parts_clean]. now intros p [Hp _]. }
  destruct Hk as [-> | ->]; cbn [repeat Py.join append Py.truthy];
    rewrite ?parts_cons_sep; now apply parts_join.
Qed.


Lemma getcwd_isabs fs : PosixPath.isabs (PosixPath.getcwd fs) = true.
Proof. reflexivity. Qed.

Lemma parts_join2_relative cwd q :
  PosixPath.isabs cwd = true -> PosixPath.isabs q = false ->
  PosixPath.isabs (PosixPath.join2 cwd q) = true
  /\ parts (PosixPath.join2 cwd q) = (parts cwd ++ parts q)%list.
Proof.
  unfold PosixPath.isabs, PosixPath.join2. intros Hc Hq. rewrite Hq.
  rewrite (truthy_startswith _ Hc). cbn [negb orb].
  destruct cwd as [|c cwd]; [discriminate|].
  rewrite startswith_sep_cons in Hc. split.
  - destruct (Py.endswith_char "/" (String c cwd)); cbn [append];
      now rewrite startswith_sep_cons.
  - destruct (Py.endswith_char "/" (String c cwd)) eqn:E.
    + destruct (endswith_char_split _ _ E) as [s' ->].
      rewrite append_assoc. cbn [append].
      rewrite !parts_app_sep. change (parts "") with (@nil string).
      now rewrite app_nil_r.
    + apply (parts_app_sep (String c cwd) q).
Qed.

Lemma abs_list_parts fs p :
  PosixPath.abs_list fs p
  = fold_left (PosixPath.norm_step 1) (parts p) (base_parts fs p).
Proof.
  unfold PosixPath.abs_list, PosixPath.abspath, base_parts. fold (parts).
  change (filter Py.truthy (Py.split "/" ?s)) with (parts s).
  destruct (PosixPath.isabs p) eqn:Habs.
  - now apply parts_normpath_abs.
  - cbn [PosixPath.join fold_left].
    destruct (parts_join2_relative _ _ (getcwd_isabs fs) Habs) as [Ha Hp].
    rewrite (parts_normpath_abs _ Ha), Hp. apply fold_left_app.
Qed.

(** ** [relpath] *)

Lemma commonprefix_app l r : PosixPath.commonprefix l (l ++ r) = l.
Proof.
  induction l as [|x l IH]; simpl; [now destruct r|].
  now rewrite String.eqb_refl, IH.
Qed.

Lemma skipn_length_app {A : Type} (l r : list A) : skipn (List.length l) (l ++ r) = r.
Proof. induction l as [|x l IH]; simpl; [reflexivity | assumption]. Qed.

(** [join] of clean components puts one slash between them. *)
Lemma join_clean cs : forall a,
  Py.truthy a = true -> Py.endswith_char "/" a = false ->
  Forall clean cs ->
  PosixPath.join a cs = Py.join "/" (a :: cs).
Proof.
  unfold PosixPath.join.
  induction cs as [|c cs IH]; intros a Ha He Hcs; [reflexivity|].
  apply Forall_cons_iff in Hcs as [[Hc Ht] Hcs].
  cbn [fold_left]. unfold PosixPath.join2 at 2.
  rewrite (startswith_sep_contains _ Hc), Ha, He. cbn [negb orb].
  rewrite IH; [|now destruct a|
                rewrite endswith_char_app;
                [rewrite endswith_char_app; [now apply endswith_char_no_sep|assumption]
                |now destruct c]
               |assumption].
  change (Py.join "/" (a :: c :: cs)) with (a ++ "/" ++ Py.join "/" (c :: cs)).
  destruct cs as [|d cs]; [reflexivity|].
  change (Py.join "/" ((a ++ "/" ++ c) :: d :: cs))
    with ((a ++ "/" ++ c) ++ "/" ++ Py.join "/" (d :: cs)).
  change (Py.join "/" (c :: d :: cs)) with (c ++ "/" ++ Py.join "/" (d :: cs)).
  now rewrite !append_assoc.
Qed.

(** The path from a directory to something below it. *)
Lemma relpath_below fs path start c cs :
  Py.truthy path = true ->
  PosixPath.abs_list fs path = (PosixPath.abs_list fs start ++ c :: cs)%list ->
  PosixPath.relpath fs path start = Ok (PosixPath.join c cs).
Proof.
  intros Hp H. unfold PosixPath.relpath. rewrite Hp. cbn [negb].
  rewrite H, commonprefix_app, Nat.sub_diag, skipn_length_app. reflexivity.
Qed.

(** The path from a place to itself. *)
Lemma relpath_self fs path :
  Py.truthy path = true -> PosixPath.relpath fs path path = Ok ".".
Proof.
  intros Hp. unfold PosixPath.relpath. rewrite Hp. cbn [negb].
  pose proof (commonprefix_app (PosixPath.abs_list fs path) []) as E.
  rewrite app_nil_r in E. rewrite E, Nat.sub_diag, skipn_all. reflexivity.
Qed.

Lemma relpath_defined fs path start :
  Py.truthy path = true -> exists r, PosixPath.relpath fs path start = Ok r.
Proof.
  intros Hp. unfold PosixPath.relpath. rewrite Hp. cbn [negb].
  match goal with |- exists r, match ?l with _ => _ end = _ => destruct l end; eauto.
Qed.

(** From the working directory, a relative path of regular components is
    its own relative path. *)
Lemma relpath_from_cwd fs path start c cs :
  PosixPath.isabs path = false ->
  start = "" \/ start = "." ->
  parts path = c :: cs ->
  forallb is_regular (c :: cs) = true ->
  PosixPath.relpath fs path start = Ok (Py.join "/" (c :: cs)).
Proof.
  intros Hrel Hstart Hparts Hreg.
  assert (Hp : Py.truthy path = true) by (destruct path; [discriminate|reflexivity]).
  assert (Hclean : Forall clean (c :: cs)).
  { rewrite <- Hparts. apply parts_clean. }
  rewrite (relpath_below fs path start c cs Hp).
  - f_equal. apply Forall_cons_iff in Hclean as [[Hc Ht] Hcs].
    apply join_clean; [assumption | now apply endswith_char_no_sep | assumption].
  - rewrite !abs_list_parts, Hparts, (fold_norm_regular _ _ _ Hreg).
    f_equal. unfold base_parts. rewrite Hrel.
    destruct Hstart as [-> | ->]; reflexivity.
Qed.

Lemma get_relative_path_from_cwd fs path c cs :
  PosixPath.isabs path = false ->
  parts path = c :: cs ->
  forallb is_regular (c :: cs) = true ->
  get_relative_path fs path "." = Ok (Py.join "/" (c :: cs)).
Proof.
  intros Hrel Hparts Hreg. unfold get_relative_path.
  destruct (PosixPath.isfile fs ".");
    apply relpath_from_cwd; auto.
Qed.

Lemma get_relative_path_defined fs path relative_to :
  Py.truthy path = true -> exists r, get_relative_path fs path relative_to = Ok r.
Proof. intros Hp. unfold get_relative_path. now apply relpath_defined. Qed.

(** ** Type keys *)

Lemma is_core_type_spec type :
  is_core_type type = true <-> In (Py.lower type) core_types.
Proof.
  unfold is_core_type. rewrite existsb_exists. split.
  - intros (t & Hin & Heq). apply String.eqb_eq in Heq. now subst.
  - intros Hin. exists (Py.lower type). split; [assumption | apply String.eqb_refl].
Qed.

Lemma char_lower_is x c :
  Py.is_upper x = false -> Py.is_lower x = false ->
  Ascii.eqb (Py.char_lower c) x = Ascii.eqb c x.
Proof.
  intros Hu Hl. destruct (Ascii.eqb_spec c x) as [->|Hne].
  - unfold Py.char_lower. rewrite Hu. apply Ascii.eqb_refl.
  - apply Ascii.eqb_neq. intros <-. apply Hne. clear Hne Hu.
    revert Hl. by_cases_on_char c.
Qed.

Lemma contains_lower x s :
  Py.is_upper x = false -> Py.is_lower x = false ->
  Py.contains x (Py.lower s) = Py.contains x s.
Proof.
  intros Hu Hl. induction s as [|c s IH]; simpl; [reflexivity|].
  now rewrite IH, char_lower_is.
Qed.

Lemma contains_remove_underscore x s :
  Ascii.eqb x "_" = false ->
  Py.contains x (Py.remove_char "_" s) = Py.contains x s.
Proof.
  intros Hx. induction s as [|c s IH]; [reflexivity|].
  cbn [Py.remove_char Py.contains].
  destruct (Ascii.eqb_spec c "_") as [->|Hne]; cbn [Py.contains]; rewrite IH;
    [|reflexivity].
  rewrite (Ascii.eqb_sym "_" x), Hx. reflexivity.
Qed.

(** No character other than the underscore comes or goes in a file name. *)
Lemma get_file_name_contains x s :
  Ascii.eqb x "_" = false -> Py.is_upper x = false -> Py.is_lower x = false ->
  Py.contains x (get_file_name (Name s) false) = Py.contains x s.
Proof.
  intros Hx Hu Hl.
  rewrite <- (contains_remove_underscore x (get_file_name (Name s) false) Hx).
  rewrite file_name_keeps_letters.
  now rewrite contains_remove_underscore, contains_lower.
Qed.

Lemma core_type_no_dot type : is_core_type type = true -> Py.contains "." type = false.
Proof.
  intros H. apply is_core_type_spec in H.
  rewrite <- (contains_lower "." type) by reflexivity.
  unfold core_types in H. simpl in H.
  repeat (destruct H as [H|H]; [now rewrite <- H|]). destruct H.
Qed.

Lemma core_type_no_sep type : is_core_type type = true -> Py.contains "/" type = false.
Proof.
  intros H. apply is_core_type_spec in H.
  rewrite <- (contains_lower "/" type) by reflexivity.
  unfold core_types in H. simpl in H.
  repeat (destruct H as [H|H]; [now rewrite <- H|]). destruct H.
Qed.

Lemma split_two x a b :
  Py.contains x a = false -> Py.contains x b = false ->
  Py.split x (a ++ String x b) = [a; b].
Proof.
  intros Ha Hb. now rewrite split_app_sep, (split_no_sep _ _ Ha), (split_no_sep _ _ Hb).
Qed.

Lemma string_length_app a b : String.length (a ++ b) = String.length a + String.length b.
Proof. induction a as [|c a IH]; simpl; [reflexivity | now rewrite IH]. Qed.

(** A name that ends in ".html" is a regular component. *)
Lemma html_is_regular s : is_regular (s ++ ".html") = true.
Proof.
  unfold is_regular.
  assert (H : 5 <= String.length (s ++ ".html"))
    by (rewrite string_length_app; simpl; lia).
  destruct (s ++ ".html") as [|a [|b [|c t]]]; simpl in H; try lia.
  simpl. destruct (Ascii.eqb a "."); [|reflexivity].
  simpl. destruct (Ascii.eqb b "."); reflexivity.
Qed.

Lemma no_dot_is_regular s :
  Py.truthy s = true -> Py.contains "." s = false -> is_regular s = true.
Proof.
  unfold is_regular. intros Ht Hd. rewrite Ht.
  destruct s as [|a s]; [discriminate|]. simpl in Hd.
  apply orb_false_iff in Hd as [Ha _].
  simpl. now rewrite Ha.
Qed.

Lemma type_target_truthy type path : type_target type = Ok path -> Py.truthy path = true.
Proof.
  unfold type_target. destruct (is_core_type type); [now intros [= <-]|].
  destruct (Py.contains "." type).
  - destruct (Py.split "." type) as [|a [|b [|c l]]]; try discriminate.
    now intros [= <-].
  - now intros [= <-].
Qed.

(** [type_target] fails exactly on the keys that are not core types and
    hold two dots or more. *)
Lemma type_target_defined type :
  is_ok (type_target type) = is_core_type type || (Py.count "." type <=? 1).
Proof.
  unfold type_target. destruct (is_core_type type); [reflexivity|].
  rewrite contains_count. cbn [orb].
  pose proof (split_length "." type) as Hlen.
  destruct (Py.count "." type) as [|[|n]]; cbn [Nat.eqb negb Nat.leb].
  - reflexivity.
  - destruct (Py.split "." type) as [|a [|b [|c l]]]; simpl in Hlen; try lia.
    reflexivity.
  - destruct (Py.split "." type) as [|a [|b [|c l]]]; simpl in Hlen; try lia.
    reflexivity.
Qed.

(** C10: [get_path_for_type] returns a path exactly when the key is a
    core type or holds at most one dot; on a key that is not a core type
    and holds two dots or more the two-way unpacking of the split raises
    [ValueError]. *)
Theorem C10_type_key_with_two_dots : forall fs type relative_to,
  is_ok (get_path_for_type fs type relative_to)
  = is_core_type type || (Py.count "." type <=? 1)
  /\ (is_core_type type = false -> 2 <= Py.count "." type ->
      get_path_for_type fs type relative_to
      = Raise (ValueError "too many values to unpack (expected 2)")).
Proof.
  intros fs type relative_to. split.
  - rewrite <- type_target_defined. unfold get_path_for_type.
    destruct (type_target type) as [path|e] eqn:E; [|reflexivity].
    cbn [bind is_ok].
    destruct (get_relative_path_defined fs path relative_to
                (type_target_truthy _ _ E)) as [r ->].
    reflexivity.
  - intros Hcore Hdots. unfold get_path_for_type, type_target.
    rewrite Hcore, contains_count.
    pose proof (split_length "." type) as Hlen.
    destruct (Py.count "." type) as [|[|n]]; [lia|lia|].
    cbn [Nat.eqb negb].
    destruct (Py.split "." type) as [|a [|b [|c l]]]; simpl in Hlen; try lia.
    reflexivity.
Qed.

Lemma C10_type_key_with_two_dots_witness :
  is_core_type "a.b.Foo" = false /\ 2 <= Py.count "." "a.b.Foo"
  /\ get_path_for_type fs_fresh "a.b.Foo" "."
     = Raise (ValueError "too many values to unpack (expected 2)").
Proof.
  split; [reflexivity|]. split; [simpl; lia|].
  apply (proj2 (C10_type_key_with_two_dots fs_fresh "a.b.Foo" ".")).
  - reflexivity.
  - simpl; lia.
Defined.

Lemma file_name_ext s :
  get_file_name (Name s) true = get_file_name (Name s) false ++ ".html".
Proof. reflexivity. Qed.

Lemma file_name_ext_no_sep s :
  Py.contains "/" s = false -> Py.contains "/" (get_file_name (Name s) true) = false.
Proof.
  intros H. rewrite file_name_ext, contains_app.
  rewrite get_file_name_contains by reflexivity. now rewrite H.
Qed.

Lemma file_name_ext_truthy s : Py.truthy (get_file_name (Name s) true) = true.
Proof. rewrite file_name_ext. now destruct (get_file_name (Name s) false). Qed.

(** ** [dirname] and [basename] *)

Lemma head_tail p : PosixPath.head_of p ++ PosixPath.tail_of p = p.
Proof.
  induction p as [|c p IH]; [reflexivity|].
  cbn [PosixPath.head_of PosixPath.tail_of].
  destruct (Py.contains "/" (String c p)); [|reflexivity].
  cbn [append]. now rewrite IH.
Qed.

Lemma tail_no_sep p : Py.contains "/" (PosixPath.tail_of p) = false.
Proof.
  induction p as [|c p IH]; [reflexivity|].
  cbn [PosixPath.tail_of].
  destruct (Py.contains "/" (String c p)) eqn:E; assumption.
Qed.

Lemma tail_of_no_sep s : Py.contains "/" s = false -> PosixPath.tail_of s = s.
Proof. destruct s as [|c s]; [reflexivity|]. cbn [PosixPath.tail_of]. now intros ->. Qed.

Lemma head_nil_no_sep p : PosixPath.head_of p = "" -> Py.contains "/" p = false.
Proof.
  destruct p as [|c p]; [reflexivity|]. cbn [PosixPath.head_of].
  destruct (Py.contains "/" (String c p)); [discriminate | reflexivity].
Qed.

(** The head is empty or ends with a slash. *)
Lemma head_shape p :
  PosixPath.head_of p = ""
  \/ exists h, PosixPath.head_of p = h ++ String "/" EmptyString.
Proof.
  induction p as [|c p IH]; [now left|].
  cbn [PosixPath.head_of].
  destruct (Py.contains "/" (String c p)) eqn:E; [right | now left].
  destruct IH as [Hnil | [h Hh]].
  - rewrite Hnil. apply head_nil_no_sep in Hnil.
    cbn [Py.contains] in E. rewrite Hnil, orb_false_r in E.
    apply Ascii.eqb_eq in E as ->. now exists EmptyString.
  - rewrite Hh. now exists (String c h).
Qed.

Lemma tail_of_app_sep a b :
  PosixPath.tail_of (a ++ String "/" b) = PosixPath.tail_of b.
Proof.
  induction a as [|c a IH]; cbn [append PosixPath.tail_of].
  - cbn [Py.contains]. now rewrite Ascii.eqb_refl.
  - replace (Py.contains "/" (String c (a ++ String "/" b))) with true; [assumption|].
    cbn [Py.contains]. rewrite contains_app. cbn [Py.contains].
    rewrite Ascii.eqb_refl. now rewrite !orb_true_r.
Qed.

Lemma tail_of_app_no_sep a b :
  Py.contains "/" b = false ->
  PosixPath.tail_of (a ++ b) = PosixPath.tail_of a ++ b.
Proof.
  intros Hb. induction a as [|c a IH]; cbn [append].
  - now apply tail_of_no_sep.
  - cbn [PosixPath.tail_of].
    replace (Py.contains "/" (String c (a ++ b)))
      with (Py.contains "/" (String c a)).
    + destruct (Py.contains "/" (String c a)); [assumption | reflexivity].
    + cbn [Py.contains]. now rewrite contains_app, Hb, orb_false_r.
Qed.

(** Stripping the trailing slashes only drops empty pieces. *)
Lemma split_rstrip s :
  exists k, Py.split "/" s = (Py.split "/" (Py.rstrip "/" s) ++ repeat "" k)%list.
Proof.
  induction s as [|c s [k IH]]; [now exists 0|].
  cbn [Py.rstrip]. destruct (Py.rstrip "/" s) as [|d r] eqn:E.
  - destruct (Ascii.eqb_spec c "/") as [->|Hne].
    + exists (S k). rewrite split_cons_sep, IH. reflexivity.
    + exists k. cbn [Py.split]. apply Ascii.eqb_neq in Hne. rewrite Hne, IH.
      reflexivity.
  - exists k. cbn [Py.split]. destruct (Ascii.eqb c "/").
    + now rewrite IH.
    + rewrite IH. cbn [Py.split].
      destruct (if Ascii.eqb d "/" then "" :: Py.split "/" r
                else match Py.split "/" r with
                     | [] => [String d ""]
                     | p :: ps => String d p :: ps
                     end) eqn:E'; [|reflexivity].
      exfalso. apply (split_not_nil "/" (String d r)). exact E'.
Qed.

Lemma parts_rstrip s : parts (Py.rstrip "/" s) = parts s.
Proof.
  unfold parts. destruct (split_rstrip s) as [k ->].
  rewrite filter_app.
  replace (filter Py.truthy (repeat "" k)) with (@nil string);
    [now rewrite app_nil_r|].
  induction k; simpl; auto.
Qed.

Lemma parts_dirname p : parts (PosixPath.dirname p) = parts (PosixPath.head_of p).
Proof.
  unfold PosixPath.dirname.
  destruct (Py.truthy (PosixPath.head_of p) && negb (PosixPath.all_sep (PosixPath.head_of p)));
    [apply parts_rstrip | reflexivity].
Qed.

Lemma parts_head_tail p :
  Py.truthy (PosixPath.tail_of p) = true ->
  parts p = (parts (PosixPath.dirname p) ++ [PosixPath.basename p])%list.
Proof.
  intros Ht. rewrite parts_dirname. unfold PosixPath.basename.
  rewrite <- (head_tail p) at 1.
  destruct (head_shape p) as [-> | [h ->]].
  - cbn [append]. now apply parts_no_sep; [apply tail_no_sep|].
  - rewrite append_assoc. cbn [append]. rewrite !parts_app_sep.
    change (parts "") with (@nil string). rewrite app_nil_r.
    f_equal. now apply parts_no_sep; [apply tail_no_sep|].
Qed.

Lemma rstrip_head c s :
  Py.rstrip "/" (String c s) = ""
  \/ exists r, Py.rstrip "/" (String c s) = String c r.
Proof.
  cbn [Py.rstrip]. destruct (Py.rstrip "/" s); [|eauto].
  destruct (Ascii.eqb c "/"); eauto.
Qed.

Lemma rstrip_nil_all_sep s : Py.rstrip "/" s = "" -> PosixPath.all_sep s = true.
Proof.
  induction s as [|c s IH]; [reflexivity|].
  cbn [Py.rstrip PosixPath.all_sep].
  destruct (Py.rstrip "/" s); [|discriminate].
  destruct (Ascii.eqb c "/"); [intros _; now apply IH | discriminate].
Qed.

Lemma isabs_dirname p : PosixPath.isabs (PosixPath.dirname p) = PosixPath.isabs p.
Proof.
  unfold PosixPath.isabs, PosixPath.dirname.
  destruct p as [|c p]; [reflexivity|].
  cbn [PosixPath.head_of].
  destruct (Py.contains "/" (String c p)) eqn:E.
  - cbn [Py.truthy andb].
    destruct (PosixPath.all_sep (String c (PosixPath.head_of p))) eqn:Ea; cbn [negb].
    + now rewrite !startswith_sep_cons.
    + destruct (rstrip_head c (PosixPath.head_of p)) as [Hnil | [r ->]].
      * apply rstrip_nil_all_sep in Hnil. congruence.
      * now rewrite !startswith_sep_cons.
  - cbn [Py.truthy andb]. symmetry. now apply startswith_sep_contains.
Qed.

(** From the directory of a path to the path: its last component. *)
Lemma relpath_from_dirname fs p :
  is_regular (PosixPath.basename p) = true ->
  PosixPath.relpath fs p (PosixPath.dirname p) = Ok (PosixPath.basename p).
Proof.
  intros Hreg.
  assert (Ht : Py.truthy (PosixPath.tail_of p) = true).
  { unfold is_regular, PosixPath.basename in Hreg.
    now destruct (Py.truthy (PosixPath.tail_of p)). }
  assert (Hp : Py.truthy p = true).
  { rewrite <- (head_tail p).
    destruct (PosixPath.head_of p), (PosixPath.tail_of p); easy. }
  rewrite (relpath_below fs p (PosixPath.dirname p) (PosixPath.basename p) [] Hp);
    [reflexivity|].
  rewrite !abs_list_parts, (parts_head_tail p Ht), fold_left_app.
  cbn [fold_left]. rewrite (norm_step_regular _ _ _ Hreg).
  unfold base_parts. now rewrite isabs_dirname.
Qed.

(** ** The path of an object and the link from a page to itself *)

Lemma basename_join2 d f :
  PosixPath.basename (PosixPath.join2 d f) = PosixPath.basename f.
Proof.
  unfold PosixPath.basename, PosixPath.join2.
  destruct (Py.startswith "/" f); [reflexivity|].
  destruct d as [|c d]; [reflexivity|]. cbn [Py.truthy negb orb].
  destruct (Py.endswith_char "/" (String c d)) eqn:E.
  - destruct (endswith_char_split _ _ E) as [d' ->].
    rewrite append_assoc. cbn [append]. apply tail_of_app_sep.
  - apply (tail_of_app_sep (String c d) f).
Qed.

Lemma basename_object_path o :
  PosixPath.basename (get_create_path_for o)
  = PosixPath.tail_of (get_file_name (Name (name o)) false) ++ ".html".
Proof.
  unfold get_create_path_for. cbn [PosixPath.join fold_left].
  rewrite basename_join2. unfold PosixPath.basename.
  change (get_file_name (Obj o) true)
    with (get_file_name (Name (name o)) false ++ ".html").
  now apply tail_of_app_no_sep.
Qed.

Lemma object_path_truthy o : Py.truthy (get_create_path_for o) = true.
Proof.
  pose proof (basename_object_path o) as H. unfold PosixPath.basename in H.
  rewrite <- (head_tail (get_create_path_for o)), H.
  destruct (PosixPath.head_of (get_create_path_for o)); [|reflexivity].
  cbn [append]. now destruct (PosixPath.tail_of (get_file_name (Name (name o)) false)).
Qed.

Lemma abspath_same_cwd fs fs' p :
  same_cwd fs fs' -> PosixPath.abspath fs' p = PosixPath.abspath fs p.
Proof.
  unfold same_cwd, PosixPath.abspath, PosixPath.getcwd. now intros ->.
Qed.

Lemma isfile_open_writer fs p : PosixPath.isfile (open_writer fs p) p = true.
Proof.
  unfold PosixPath.isfile. cbn [files open_writer existsb].
  rewrite (abspath_same_cwd fs (open_writer fs p)) by reflexivity.
  now rewrite String.eqb_refl.
Qed.

Lemma isfile_mono fs fs' p :
  same_cwd fs fs' -> incl (files fs) (files fs') ->
  PosixPath.isfile fs p = true -> PosixPath.isfile fs' p = true.
Proof.
  unfold PosixPath.isfile. intros Hc Hi H.
  rewrite (abspath_same_cwd _ _ _ Hc).
  apply existsb_exists in H as (f & Hf & He).
  apply existsb_exists. exists f. split; [now apply Hi | assumption].
Qed.

Lemma object_page_fs fs o fs' page :
  object_page fs o = Ok (fs', page) -> fs' = open_writer fs (get_create_path_for o).
Proof. unfold object_page. intros H. bind_inv H. now injection H as <- _. Qed.

Lemma type_page_fs fs tlfunctions tltype constructors fs' page :
  type_page fs tlfunctions tltype constructors = Ok (fs', page) ->
  same_cwd fs fs' /\ incl (files fs) (files fs').
Proof.
  unfold type_page. intros H.
  apply bind_ok in H as (filename & _ & H).
  apply bind_ok in H as ([namespace0 name0] & _ & H).
  bind_inv H. injection H as <- _. split; [reflexivity|].
  cbn [files open_writer]. now apply incl_tl, incl_refl.
Qed.

Lemma object_pages_fs tlobjects : forall fs fs' pages,
  object_pages fs tlobjects = Ok (fs', pages) ->
  same_cwd fs fs' /\ incl (files fs) (files fs')
  /\ forall o, In o tlobjects -> PosixPath.isfile fs' (get_create_path_for o) = true.
Proof.
  induction tlobjects as [|o l IH]; cbn [object_pages]; intros fs fs' pages H.
  - injection H as <- _. repeat split; [apply incl_refl | intros o []].
  - apply bind_ok in H as ([fs1 page1] & H1 & H).
    apply bind_ok in H as ([fs2 pages2] & H2 & H).
    injection H as <- _. apply object_page_fs in H1. subst fs1.
    destruct (IH _ _ _ H2) as (Hc & Hi & Hf).
    split; [exact Hc|]. split.
    + intros f Hin. apply Hi. cbn [files open_writer]. now right.
    + intros o' [<-|Hin]; [|now apply Hf].
      apply (isfile_mono _ _ _ Hc Hi). apply isfile_open_writer.
Qed.

Lemma type_pages_fs tlfunctions items : forall fs fs' pages,
  type_pages fs tlfunctions items = Ok (fs', pages) ->
  same_cwd fs fs' /\ incl (files fs) (files fs').
Proof.
  induction items as [|[tltype constructors] l IH]; cbn [type_pages];
    intros fs fs' pages H.
  - injection H as <- _. split; [reflexivity | apply incl_refl].
  - apply bind_ok in H as ([fs1 page1] & H1 & H).
    apply bind_ok in H as ([fs2 pages2] & H2 & H).
    injection H as <- _.
    destruct (type_page_fs _ _ _ _ _ _ H1) as [Hc1 Hi1].
    destruct (IH _ _ _ H2) as [Hc2 Hi2].
    split; [unfold same_cwd in *; congruence|].
    intros f Hin. now apply Hi2, Hi1.
Qed.

Lemma generate_documentation_files fs tlobjects fs' pages :
  generate_documentation fs tlobjects = Ok (fs', pages) ->
  forall o, In o tlobjects -> PosixPath.isfile fs' (get_create_path_for o) = true.
Proof.
  unfold generate_documentation. intros H.
  apply bind_ok in H as ([fs1 pages_a] & Ha & H).
  apply bind_ok in H as ([fs2 pages_b] & Hb & H).
  injection H as <- _.
  destruct (object_pages_fs _ _ _ _ Ha) as (_ & _ & Hf).
  destruct (type_pages_fs _ _ _ _ _ Hb) as [Hc Hi].
  intros o Hin. apply (isfile_mono _ _ _ Hc Hi). now apply Hf.
Qed.

(** C3, as the code has it: the link from the output path of an object to
    itself is the last component of the path (one component that is not
    "..", and the file name of the object with its extension when the
    name holds no slash) while the path names a regular file, as it does
    for every object once the pages are written; while no such file
    exists the link is ".". *)
Theorem C3_link_to_itself : forall fs tlobject,
  let path := get_create_path_for tlobject in
  (PosixPath.isfile fs path = true ->
   get_relative_path fs path path = Ok (PosixPath.basename path))
  /\ (PosixPath.isfile fs path = false -> get_relative_path fs path path = Ok ".")
  /\ Py.contains "/" (PosixPath.basename path) = false
  /\ is_regular (PosixPath.basename path) = true
  /\ (Py.contains "/" (name tlobject) = false ->
      PosixPath.basename path = get_file_name (Obj tlobject) true)
  /\ (forall fs0 tlobjects pages,
         generate_documentation fs0 tlobjects = Ok (fs, pages) ->
         In tlobject tlobjects ->
         get_relative_path fs path path = Ok (PosixPath.basename path)).
Proof.
  intros fs tlobject path.
  assert (Hfile : PosixPath.isfile fs path = true ->
                  get_relative_path fs path path = Ok (PosixPath.basename path)).
  { intros H. unfold get_relative_path. rewrite H.
    apply relpath_from_dirname. unfold path.
    rewrite basename_object_path. apply html_is_regular. }
  split; [exact Hfile|]. split; [|split; [|split; [|split]]].
  - intros H. unfold get_relative_path. rewrite H.
    apply relpath_self, object_path_truthy.
  - apply tail_no_sep.
  - unfold path. rewrite basename_object_path. apply html_is_regular.
  - intros Hn. unfold path. rewrite basename_object_path.
    rewrite tail_of_no_sep; [reflexivity|].
    now rewrite get_file_name_contains.
  - intros fs0 tlobjects pages Hgen Hin. apply Hfile.
    apply (generate_documentation_files _ _ _ _ Hgen _ Hin).
Qed.

Lemma C3_link_to_itself_witness :
  let path := get_create_path_for sample_request in
  path = "methods/messages/send_message.html"
  /\ PosixPath.isfile (open_writer fs_fresh path) path = true
  /\ get_relative_path (open_writer fs_fresh path) path path = Ok "send_message.html".
Proof.
  split; [reflexivity|]. split; [reflexivity|].
  exact (proj1 (C3_link_to_itself (open_writer fs_fresh
                                     (get_create_path_for sample_request))
                  sample_request) eq_refl).
Defined.

(** Before the page of the object is written its path names no file, and
    the link from the path to itself is "." and not the file name. *)
Lemma C3_no_file_counterexample :
  let path := get_create_path_for sample_request in
  PosixPath.isfile fs_fresh path = false
  /\ get_relative_path fs_fresh path path = Ok "."
  /\ get_relative_path fs_fresh path path
     <> Ok (get_file_name (Obj sample_request) true).
Proof.
  repeat split. vm_compute. discriminate.
Qed.

(** ** A relative link leads back to its destination *)

Lemma regular_last_not_dotdot acc :
  forallb is_regular acc = true -> (last acc "" =? "..")%string = false.
Proof.
  induction acc as [|x acc IH]; [reflexivity|].
  cbn [forallb]. intros H. apply andb_true_iff in H as [Hx Hacc].
  destruct acc as [|y acc]; [|now apply IH].
  cbn [last]. unfold is_regular in Hx.
  apply andb_true_iff in Hx as [_ Hx]. now apply negb_true_iff in Hx.
Qed.

Lemma forallb_removelast {A : Type} (f : A -> bool) l :
  forallb f l = true -> forallb f (removelast l) = true.
Proof.
  induction l as [|x l IH]; [reflexivity|].
  cbn [forallb]. intros H. apply andb_true_iff in H as [Hx Hl].
  destruct l as [|y l]; [reflexivity|].
  change (removelast (x :: y :: l)) with (x :: removelast (y :: l)).
  cbn [forallb]. now rewrite Hx, IH.
Qed.

Lemma norm_step_rooted_regular acc c :
  forallb is_regular acc = true ->
  forallb is_regular (PosixPath.norm_step 1 acc c) = true.
Proof.
  intros Hacc. unfold PosixPath.norm_step.
  destruct ((c =? "")%string || (c =? ".")%string) eqn:E; [assumption|].
  apply orb_false_iff in E as [E0 E1].
  rewrite (regular_last_not_dotdot _ Hacc).
  cbn [Nat.eqb andb]. rewrite andb_false_r, !orb_false_r.
  destruct (c =? "..")%string eqn:E2; cbn [negb].
  - now apply forallb_removelast.
  - rewrite forallb_app, Hacc. cbn [forallb]. unfold is_regular.
    rewrite E1, E2. destruct c; [discriminate | reflexivity].
Qed.

Lemma fold_norm_rooted_regular l : forall acc,
  forallb is_regular acc = true ->
  forallb is_regular (fold_left (PosixPath.norm_step 1) l acc) = true.
Proof.
  induction l as [|c l IH]; intros acc H; cbn [fold_left]; [assumption|].
  apply IH. now apply norm_step_rooted_regular.
Qed.

Lemma base_parts_regular fs p : forallb is_regular (base_parts fs p) = true.
Proof.
  unfold base_parts. destruct (PosixPath.isabs p); [reflexivity|].
  now apply fold_norm_rooted_regular.
Qed.

Lemma base_parts_clean fs p : Forall clean (base_parts fs p).
Proof.
  unfold base_parts. destruct (PosixPath.isabs p); [constructor|].
  apply fold_norm_clean; [|constructor].
  eapply Forall_impl; [|apply parts_clean]. now intros q [Hq _].
Qed.

Lemma abs_list_regular fs p : forallb is_regular (PosixPath.abs_list fs p) = true.
Proof.
  rewrite abs_list_parts. apply fold_norm_rooted_regular, base_parts_regular.
Qed.

Lemma abs_list_clean fs p : Forall clean (PosixPath.abs_list fs p).
Proof.
  rewrite abs_list_parts. apply fold_norm_clean; [|apply base_parts_clean].
  eapply Forall_impl; [|apply parts_clean]. now intros q [Hq _].
Qed.

Lemma commonprefix_split l1 : forall l2,
  exists r1 r2,
    l1 = (PosixPath.commonprefix l1 l2 ++ r1)%list
    /\ l2 = (PosixPath.commonprefix l1 l2 ++ r2)%list.
Proof.
  induction l1 as [|x l1 IH]; intros l2.
  - exists [], l2. now destruct l2.
  - destruct l2 as [|y l2]; [now exists (x :: l1), []|].
    cbn [PosixPath.commonprefix].
    destruct (String.eqb_spec x y) as [->|Hne].
    + destruct (IH l2) as (r1 & r2 & H1 & H2).
      exists r1, r2. cbn [app]. now rewrite <- H1, <- H2.
    + now exists (x :: l1), (y :: l2).
Qed.

(** Each ".." drops the last component. *)
Lemma fold_norm_dotdot r : forall a,
  forallb is_regular (a ++ r) = true ->
  fold_left (PosixPath.norm_step 1) (repeat ".." (List.length r)) (a ++ r)%list = a.
Proof.
  induction r as [|x r IH] using rev_ind; intros a H.
  - now rewrite app_nil_r.
  - rewrite length_app, Nat.add_comm. cbn [List.length Nat.add repeat fold_left].
    rewrite app_assoc in *.
    assert (Hstep : PosixPath.norm_step 1 ((a ++ r) ++ [x]) ".." = (a ++ r)%list).
    { unfold PosixPath.norm_step. cbn [String.eqb Ascii.eqb Bool.eqb orb negb].
      rewrite (regular_last_not_dotdot _ H).
      cbn [Nat.eqb andb]. rewrite andb_false_r. cbn [orb].
      apply removelast_last. }
    rewrite Hstep. apply IH.
    rewrite forallb_app in H. now apply andb_true_iff in H as [H _].
Qed.

Lemma repeat_dotdot_clean n : Forall clean (repeat ".." n).
Proof. induction n; simpl; constructor; [now split | assumption]. Qed.

Lemma join_not_abs c cs :
  clean c -> Py.startswith "/" (Py.join "/" (c :: cs)) = false.
Proof.
  intros [Hc Ht]. destruct c as [|x c]; [discriminate|].
  assert (Hx : Ascii.eqb x "/" = false).
  { cbn [Py.contains] in Hc. now apply orb_false_iff in Hc as [Hx _]. }
  destruct cs as [|d cs].
  - cbn [Py.join]. now rewrite startswith_sep_cons.
  - change (Py.join "/" (String x c :: d :: cs))
      with (String x (c ++ "/" ++ Py.join "/" (d :: cs))).
    now rewrite startswith_sep_cons.
Qed.

(** The place a link written in [start] leads to. *)
Lemma abs_list_join2 fs start link :
  Py.startswith "/" link = false ->
  PosixPath.abs_list fs (PosixPath.join start [link])
  = fold_left (PosixPath.norm_step 1) (parts link) (PosixPath.abs_list fs start).
Proof.
  intros Hl. rewrite !abs_list_parts. cbn [PosixPath.join fold_left].
  rewrite <- fold_left_app.
  assert (H : parts (PosixPath.join2 start link) = (parts start ++ parts link)%list
              /\ PosixPath.isabs (PosixPath.join2 start link) = PosixPath.isabs start).
  { unfold PosixPath.join2, PosixPath.isabs. rewrite Hl.
    destruct start as [|c s]; [now split|].
    cbn [Py.truthy negb orb].
    destruct (Py.endswith_char "/" (String c s)) eqn:E.
    - split; [|cbn [append]; now rewrite !startswith_sep_cons].
      destruct (endswith_char_split _ _ E) as [s' ->].
      rewrite append_assoc. cbn [append]. rewrite !parts_app_sep.
      change (parts "") with (@nil string). now rewrite app_nil_r.
    - split; [|cbn [append]; now rewrite !startswith_sep_cons].
      apply (parts_app_sep (String c s) link). }
  destruct H as [-> Habs]. unfold base_parts. now rewrite Habs.
Qed.

(** [relpath] is right: the link it gives, followed from [start], leads
    to the destination. *)
Lemma relpath_leads_back fs destination start link :
  PosixPath.relpath fs destination start = Ok link ->
  PosixPath.abs_list fs (PosixPath.join start [link])
  = PosixPath.abs_list fs destination.
Proof.
  unfold PosixPath.relpath.
  destruct (negb (Py.truthy destination)); [discriminate|].
  pose proof (abs_list_regular fs start) as Hrb.
  pose proof (abs_list_regular fs destination) as Hrt.
  pose proof (abs_list_clean fs destination) as Hct.
  destruct (commonprefix_split (PosixPath.abs_list fs start)
              (PosixPath.abs_list fs destination)) as (r1 & r2 & Hb & Ht).
  set (cp := PosixPath.commonprefix (PosixPath.abs_list fs start)
               (PosixPath.abs_list fs destination)) in *.
  assert (Hlen : List.length (PosixPath.abs_list fs start) - List.length cp
                 = List.length r1).
  { rewrite Hb at 1. rewrite length_app. lia. }
  assert (Hskip : skipn (List.length cp) (PosixPath.abs_list fs destination) = r2).
  { rewrite Ht at 1. apply skipn_length_app. }
  rewrite Hlen, Hskip.
  assert (Hr2 : forallb is_regular r2 = true).
  { rewrite Ht, forallb_app in Hrt. now apply andb_true_iff in Hrt as [_ H]. }
  assert (Hc2 : Forall clean r2).
  { rewrite Ht in Hct. now apply Forall_app in Hct as [_ H]. }
  assert (Hfold : fold_left (PosixPath.norm_step 1)
                    (repeat ".." (List.length r1) ++ r2)
                    (PosixPath.abs_list fs start)
                  = PosixPath.abs_list fs destination).
  { rewrite fold_left_app. rewrite Hb at 1.
    rewrite fold_norm_dotdot by (now rewrite <- Hb).
    rewrite (fold_norm_regular _ _ _ Hr2). now rewrite <- Ht. }
  destruct (repeat ".." (List.length r1) ++ r2)%list as [|c cs] eqn:E.
  - intros [= <-]. rewrite abs_list_join2 by reflexivity.
    cbn [fold_left] in Hfold. rewrite <- Hfold. reflexivity.
  - assert (Hclean : Forall clean (c :: cs)).
    { rewrite <- E. apply Forall_app. split; [apply repeat_dotdot_clean | exact Hc2]. }
    intros [= <-].
    pose proof Hclean as Hclean'.
    apply Forall_cons_iff in Hclean' as [[Hc Htr] Hcs].
    rewrite (join_clean cs c Htr (endswith_char_no_sep _ _ Hc) Hcs).
    rewrite abs_list_join2 by (now apply join_not_abs).
    now rewrite (parts_join _ Hclean).
Qed.

(** ** The links to the pages of types *)

Lemma get_relative_path_leads_back fs destination relative_to link :
  get_relative_path fs destination relative_to = Ok link ->
  link_target fs (link_base fs relative_to) link = PosixPath.abs_list fs destination.
Proof. unfold get_relative_path, link_target, link_base. apply relpath_leads_back. Qed.

(** The value returned for a type is its target made relative, and it
    leads to the target from the place it is relative to. *)
Lemma get_path_for_type_leads_back fs type target relative_to :
  type_target type = Ok target ->
  get_path_for_type fs type relative_to = get_relative_path fs target relative_to
  /\ exists link,
       get_path_for_type fs type relative_to = Ok link
       /\ link_target fs (link_base fs relative_to) link = PosixPath.abs_list fs target.
Proof.
  intros Ht. unfold get_path_for_type. rewrite Ht. cbn [bind].
  split; [reflexivity|].
  destruct (get_relative_path_defined fs target relative_to
              (type_target_truthy _ _ Ht)) as [link Hl].
  exists link. split; [exact Hl | now apply get_relative_path_leads_back].
Qed.

(** A relative path of regular components lies below the working
    directory. *)
Lemma abs_list_below_cwd fs path :
  PosixPath.isabs path = false ->
  forallb is_regular (parts path) = true ->
  PosixPath.abs_list fs path = (PosixPath.abs_list fs "." ++ parts path)%list.
Proof.
  intros Hrel Hreg. rewrite !abs_list_parts, (fold_norm_regular _ _ _ Hreg).
  unfold base_parts. now rewrite Hrel.
Qed.

(** C1: a key whose lower-case form is in the set of core types has the
    target [core/index.html#] followed by the lower-case key, whatever
    [relative_to] is.  The value returned is that target made relative to
    [relative_to]: a link that, followed from there, leads to
    [core/index.html#key] under the working directory; with the default
    [relative_to] it is the target itself. *)
Theorem C1_core_type_target : forall fs type relative_to,
  In (Py.lower type) core_types ->
  let target := "core/index.html#" ++ Py.lower type in
  type_target type = Ok target
  /\ get_path_for_type fs type relative_to = get_relative_path fs target relative_to
  /\ (exists link,
         get_path_for_type fs type relative_to = Ok link
         /\ link_target fs (link_base fs relative_to) link
            = (PosixPath.abs_list fs "."
               ++ ["core"; ("index.html#" ++ Py.lower type)%string])%list)
  /\ get_path_for_type fs type "." = Ok target.
Proof.
  intros fs type relative_to Hin target.
  pose proof (proj2 (is_core_type_spec type) Hin) as Hcore.
  assert (Ht : type_target type = Ok target).
  { unfold type_target. now rewrite Hcore. }
  assert (Hsep : Py.contains "/" ("index.html#" ++ Py.lower type) = false).
  { cbn [append Py.contains Ascii.eqb Bool.eqb orb].
    rewrite contains_lower by reflexivity. now apply core_type_no_sep. }
  assert (Hparts : parts target = ["core"; "index.html#" ++ Py.lower type]).
  { change target with ("core" ++ String "/" ("index.html#" ++ Py.lower type)).
    rewrite parts_app_sep, (parts_no_sep _ Hsep eq_refl). reflexivity. }
  split; [exact Ht|].
  destruct (get_path_for_type_leads_back fs type target relative_to Ht)
    as (Hrel & link & Hlink & Hlead).
  split; [exact Hrel|]. split.
  - exists link. split; [exact Hlink|].
    rewrite Hlead, (abs_list_below_cwd fs target eq_refl); rewrite Hparts; reflexivity.
  - unfold get_path_for_type. rewrite Ht. cbn [bind].
    now rewrite (get_relative_path_from_cwd fs _ "core" ["index.html#" ++ Py.lower type]).
Qed.

Lemma C1_core_type_target_witness :
  In (Py.lower "Vector") core_types
  /\ get_path_for_type fs_fresh "Vector" "." = Ok "core/index.html#vector"
  /\ get_path_for_type fs_fresh "Vector" "methods"
     = get_relative_path fs_fresh "core/index.html#vector" "methods".
Proof.
  assert (Hin : In (Py.lower "Vector") core_types) by (simpl; tauto).
  split; [exact Hin|]. split.
  - exact (proj2 (proj2 (proj2 (C1_core_type_target fs_fresh "Vector" "." Hin)))).
  - exact (proj1 (proj2 (C1_core_type_target fs_fresh "Vector" "methods" Hin))).
Defined.

(** The value returned for a core type depends on [relative_to]: from
    the directory [methods] the link climbs one level, and leads to the
    same place. *)
Example core_type_link_from_methods :
  get_path_for_type fs_fresh "Vector" "methods" = Ok "../core/index.html#vector"
  /\ link_target fs_fresh "methods" "../core/index.html#vector"
     = ["home"; "docs"; "core"; "index.html#vector"].
Proof. split; reflexivity. Qed.

(** C8: a key [ns.Foo] with a single dot has the target [types/ns/]
    followed by the file name of [Foo] with the extension, and a bare key
    [Foo] that is not a core type has the target [types/] followed by that
    file name.  The value returned is the target made relative to
    [relative_to], a link that leads to the target from there; with the
    default [relative_to] it is the target itself when the pieces hold no
    slash. *)
Theorem C8_custom_type_target : forall fs ns foo relative_to,
  Py.contains "." ns = false ->
  Py.contains "." foo = false ->
  let file := get_file_name (Name foo) false ++ ".html" in
  type_target (ns ++ "." ++ foo) = Ok ("types/" ++ ns ++ "/" ++ file)
  /\ get_path_for_type fs (ns ++ "." ++ foo) relative_to
     = get_relative_path fs ("types/" ++ ns ++ "/" ++ file) relative_to
  /\ (exists link,
         get_path_for_type fs (ns ++ "." ++ foo) relative_to = Ok link
         /\ link_target fs (link_base fs relative_to) link
            = PosixPath.abs_list fs ("types/" ++ ns ++ "/" ++ file))
  /\ (Py.truthy ns = true -> Py.contains "/" ns = false ->
      Py.contains "/" foo = false ->
      get_path_for_type fs (ns ++ "." ++ foo) "."
      = Ok ("types/" ++ ns ++ "/" ++ file))
  /\ (is_core_type foo = false ->
      type_target foo = Ok ("types/" ++ file)
      /\ get_path_for_type fs foo relative_to
         = get_relative_path fs ("types/" ++ file) relative_to
      /\ (exists link,
             get_path_for_type fs foo relative_to = Ok link
             /\ link_target fs (link_base fs relative_to) link
                = PosixPath.abs_list fs ("types/" ++ file))
      /\ (Py.contains "/" foo = false ->
          get_path_for_type fs foo "." = Ok ("types/" ++ file))).
Proof.
  intros fs ns foo relative_to Hns Hfoo file.
  assert (Hdot : Py.contains "." (ns ++ "." ++ foo) = true).
  { rewrite contains_app. cbn [append Py.contains]. rewrite Ascii.eqb_refl.
    apply orb_true_r. }
  assert (Hcore : is_core_type (ns ++ "." ++ foo) = false).
  { destruct (is_core_type (ns ++ "." ++ foo)) eqn:E; [|reflexivity].
    apply core_type_no_dot in E. congruence. }
  assert (Ht : type_target (ns ++ "." ++ foo) = Ok ("types/" ++ ns ++ "/" ++ file)).
  { unfold type_target. rewrite Hcore, Hdot.
    change (ns ++ "." ++ foo) with (ns ++ String "." foo).
    now rewrite (split_two _ _ _ Hns Hfoo). }
  split; [exact Ht|].
  destruct (get_path_for_type_leads_back fs _ _ relative_to Ht) as (Hrel & Hlead).
  split; [exact Hrel|]. split; [exact Hlead|].
  split.
  - intros Htr Hsep Hfsep. unfold get_path_for_type. rewrite Ht. cbn [bind].
    rewrite (get_relative_path_from_cwd fs _ "types" [ns; file]).
    + reflexivity.
    + reflexivity.
    + change ("types/" ++ ns ++ "/" ++ file)
        with ("types" ++ String "/" (ns ++ String "/" file)).
      rewrite !parts_app_sep.
      rewrite (parts_no_sep ns Hsep Htr).
      rewrite (parts_no_sep file (file_name_ext_no_sep _ Hfsep) (file_name_ext_truthy _)).
      reflexivity.
    + cbn [forallb]. rewrite (no_dot_is_regular _ Htr Hns).
      unfold file. now rewrite html_is_regular.
  - intros Hc.
    assert (Ht' : type_target foo = Ok ("types/" ++ file)).
    { unfold type_target. now rewrite Hc, Hfoo. }
    split; [exact Ht'|].
    destruct (get_path_for_type_leads_back fs _ _ relative_to Ht') as (Hrel' & Hlead').
    split; [exact Hrel'|]. split; [exact Hlead'|].
    intros Hfsep. unfold get_path_for_type. rewrite Ht'. cbn [bind].
    rewrite (get_relative_path_from_cwd fs _ "types" [file]).
    + reflexivity.
    + reflexivity.
    + change ("types/" ++ file) with ("types" ++ String "/" file).
      rewrite parts_app_sep.
      rewrite (parts_no_sep file (file_name_ext_no_sep _ Hfsep) (file_name_ext_truthy _)).
      reflexivity.
    + cbn [forallb]. unfold file. now rewrite html_is_regular.
Qed.

Lemma C8_custom_type_target_witness :
  Py.contains "." "contacts" = false /\ Py.contains "." "ResolvedPeer" = false
  /\ type_target "contacts.ResolvedPeer" = Ok "types/contacts/resolved_peer.html"
  /\ get_path_for_type fs_fresh "contacts.ResolvedPeer" "."
     = Ok "types/contacts/resolved_peer.html"
  /\ get_path_for_type fs_fresh "ResolvedPeer" "." = Ok "types/resolved_peer.html".
Proof.
  split; [reflexivity|]. split; [reflexivity|].
  pose proof (C8_custom_type_target fs_fresh "contacts" "ResolvedPeer" "."
                eq_refl eq_refl) as (H1 & _ & _ & H3 & H4).
  split; [exact H1|]. split.
  - exact (H3 eq_refl eq_refl eq_refl).
  - exact (proj2 (proj2 (proj2 (H4 eq_refl))) eq_refl).
Defined.


(* ================================================================== *)
(** * Further properties of the generator *)

(** ** Names that the naming functions leave as they are *)

Section SubNoMatch.

Variable m : Re.matcher.
Variable P : string -> bool.

Hypothesis P_tail : forall c s, P (String c s) = true -> P s = true.
Hypothesis m_none : forall s, P s = true -> m s = None.

(** Where the pattern matches nowhere, [re.sub] returns its input. *)
Lemma sub_no_match s : P s = true -> Re.sub m s = s.
Proof.
  unfold Re.sub. induction s as [|c s IH]; intros H; [reflexivity|].
  cbn [Re.sub_from]. rewrite (m_none _ H). f_equal. apply IH.
  now apply (P_tail c).
Qed.

End SubNoMatch.

Lemma no_upper_tail c s : no_upper (String c s) = true -> no_upper s = true.
Proof. cbn [no_upper]. intros H. now apply andb_true_iff in H as [_ H]. Qed.

Lemma any_then_capitalized_no_upper s :
  no_upper s = true -> Re.any_then_capitalized s = None.
Proof.
  destruct s as [|c [|u [|l r]]]; try reflexivity.
  cbn [no_upper Re.any_then_capitalized]. intros H.
  apply andb_true_iff in H as [_ H]. apply andb_true_iff in H as [Hu _].
  apply negb_true_iff in Hu. now rewrite Hu, andb_false_r.
Qed.

Lemma lower_then_upper_no_upper s :
  no_upper s = true -> Re.lower_then_upper s = None.
Proof.
  destruct s as [|c [|u r]]; try reflexivity.
  cbn [no_upper Re.lower_then_upper]. intros H.
  apply andb_true_iff in H as [_ H]. apply andb_true_iff in H as [Hu _].
  apply negb_true_iff in Hu. now rewrite Hu, andb_false_r.
Qed.

Lemma lower_no_upper_id s : no_upper s = true -> Py.lower s = s.
Proof.
  induction s as [|c s IH]; [reflexivity|]. cbn [no_upper Py.lower].
  intros H. apply andb_true_iff in H as [Hc Hs]. apply negb_true_iff in Hc.
  unfold Py.char_lower. now rewrite Hc, IH.
Qed.

Lemma file_name_of_lower_case r :
  no_upper r = true -> get_file_name (Name r) false = r.
Proof.
  intros H. unfold get_file_name.
  rewrite (sub_no_match _ no_upper no_upper_tail any_then_capitalized_no_upper _ H).
  rewrite (sub_no_match _ no_upper no_upper_tail lower_then_upper_no_upper _ H).
  now apply lower_no_upper_id.
Qed.

(** X1: [get_file_name] leaves a name without upper-case letters as it
    is, so it is idempotent: the file name of a file name is that file
    name.  A name and its file name therefore share one file, and an
    object renamed to its file name keeps its output path. *)
Theorem X1_file_name_fixed_point :
  (forall r ext, no_upper r = true ->
                 get_file_name (Name r) ext = if ext then r ++ ".html" else r)
  /\ (forall s ext,
         get_file_name (Name (get_file_name (Name s) false)) ext
         = get_file_name (Name s) ext)
  /\ (forall o,
         get_create_path_for (with_name o (get_file_name (Obj o) false))
         = get_create_path_for o).
Proof.
  assert (Hfix : forall r ext, no_upper r = true ->
                   get_file_name (Name r) ext = if ext then r ++ ".html" else r).
  { intros r ext H. pose proof (file_name_of_lower_case r H) as E.
    destruct ext; [|exact E].
    change (get_file_name (Name r) true) with (get_file_name (Name r) false ++ ".html").
    now rewrite E. }
  assert (Hidem : forall s ext,
             get_file_name (Name (get_file_name (Name s) false)) ext
             = get_file_name (Name s) ext).
  { intros s ext. rewrite Hfix by apply lower_no_upper. now destruct ext. }
  split; [exact Hfix|]. split; [exact Hidem|].
  intros o. unfold get_create_path_for.
  cbn [with_name is_function namespace]. f_equal. f_equal.
  apply (Hidem (name o) true).
Qed.

Lemma X1_file_name_fixed_point_witness :
  no_upper "get_full_user" = true
  /\ get_file_name (Name "get_full_user") true = "get_full_user.html".
Proof.
  split; [reflexivity|].
  exact (proj1 X1_file_name_fixed_point "get_full_user" true eq_refl).
Defined.

Lemma contains_tail x c s : Py.contains x (String c s) = false -> Py.contains x s = false.
Proof. cbn [Py.contains]. intros H. now apply orb_false_iff in H as [_ H]. Qed.

Lemma underscore_lower_no_underscore s :
  Py.contains "_" s = false -> Re.underscore_lower s = None.
Proof.
  destruct s as [|c [|l r]]; try reflexivity.
  cbn [Py.contains Re.underscore_lower]. intros H.
  apply orb_false_iff in H as [Hc _]. now rewrite Hc.
Qed.

Lemma remove_char_absent x s : Py.contains x s = false -> Py.remove_char x s = s.
Proof.
  induction s as [|c s IH]; [reflexivity|]. cbn [Py.contains Py.remove_char].
  intros H. apply orb_false_iff in H as [Hc Hs]. now rewrite Hc, IH.
Qed.

Lemma class_name_of_class_name r :
  Py.contains "_" r = false -> starts_lower r = false ->
  get_class_name (Name r) = r.
Proof.
  intros Hu Hl. unfold get_class_name.
  rewrite (sub_no_match _ (fun s => negb (Py.contains "_" s))).
  - destruct r as [|c r]; [reflexivity|].
    cbn [Py.slice_to_1 Py.slice_from_1 Py.upper append starts_lower] in *.
    rewrite (char_upper_id _ Hl).
    now rewrite (remove_char_absent _ _ (contains_tail _ _ _ Hu)).
  - intros c s H. apply negb_true_iff in H. apply negb_true_iff.
    now apply (contains_tail _ c).
  - intros s H. apply negb_true_iff in H. now apply underscore_lower_no_underscore.
  - now rewrite Hu.
Qed.

(** X2: [get_class_name] leaves a name that holds no underscore and does
    not begin with a lower-case letter as it is, so the class name of a
    class name is that class name (for a bare name that keeps no leading
    underscore). *)
Theorem X2_class_name_fixed_point :
  (forall r, Py.contains "_" r = false -> starts_lower r = false ->
             get_class_name (Name r) = r)
  /\ (forall s, keeps_leading_underscore s = false ->
                get_class_name (Name (get_class_name (Name s)))
                = get_class_name (Name s)).
Proof.
  split; [exact class_name_of_class_name|].
  intros s Hs. rewrite (get_class_name_spec_string _ Hs).
  destruct (spec_class_name_shape s) as [Hu Hl].
  now apply class_name_of_class_name.
Qed.

Lemma X2_class_name_fixed_point_witness :
  Py.contains "_" "GetFullUser" = false /\ starts_lower "GetFullUser" = false
  /\ get_class_name (Name "GetFullUser") = "GetFullUser"
  /\ get_class_name (Name (get_class_name (Name "get_full_user"))) = "GetFullUser".
Proof.
  split; [reflexivity|]. split; [reflexivity|]. split.
  - exact (proj1 X2_class_name_fixed_point "GetFullUser" eq_refl eq_refl).
  - exact (proj2 X2_class_name_fixed_point "get_full_user" eq_refl).
Defined.

(** ** The description of an argument *)

(** X3: the description of an argument is the sentences for "vector",
    "generic" and "flag", in this order, with one blank between them and
    none at the end; it is empty exactly when the argument is none of the
    three. *)
Theorem X3_arg_description_sentences : forall arg,
  arg_description arg = Py.join " " (description_sentences arg)
  /\ (arg_description arg = ""
      <-> is_vector arg = false /\ is_generic arg = false /\ is_flag arg = false).
Proof.
  intros [n t f v g fi gd]. unfold arg_description, description_sentences.
  cbn [is_vector is_generic is_flag].
  destruct v, g, f; (split; [reflexivity|]);
    split; try discriminate; try tauto;
    intros (H1 & H2 & H3); discriminate.
Qed.

(** ** A dictionary of links *)

Lemma get_relative_path_error fs relative_to :
  get_relative_path fs "" relative_to = Raise (ValueError "no path specified").
Proof. reflexivity. Qed.

(** X4: [get_relative_paths] keeps the keys and their order and replaces
    each path by its link from [relative_to], a link that leads to the
    path; it raises [ValueError] exactly when one of the paths is
    empty. *)
Theorem X4_relative_paths_keep_keys : forall fs original relative_to,
  (forallb (fun kv => Py.truthy (snd kv)) original = true ->
   exists paths,
     get_relative_paths fs original relative_to = Ok paths
     /\ map fst paths = map fst original
     /\ forall k v,
          Dict.get original k = Some v ->
          exists link,
            Dict.get paths k = Some link
            /\ get_relative_path fs v relative_to = Ok link
            /\ link_target fs (link_base fs relative_to) link
               = PosixPath.abs_list fs v)
  /\ (forallb (fun kv => Py.truthy (snd kv)) original = false ->
      get_relative_paths fs original relative_to
      = Raise (ValueError "no path specified")).
Proof.
  intros fs original relative_to.
  induction original as [|[k0 v0] rest [IHok IHerr]]; split.
  - intros _. exists []. repeat split. intros k v H. discriminate.
  - discriminate.
  - cbn [forallb snd]. intros H. apply andb_true_iff in H as [Hv Hrest].
    destruct (IHok Hrest) as (paths & Hp & Hkeys & Hget).
    destruct (get_relative_path_defined fs v0 relative_to Hv) as [link0 Hl0].
    exists ((k0, link0) :: paths). cbn [get_relative_paths].
    rewrite Hl0, Hp. cbn [bind]. split; [reflexivity|].
    split; [cbn [map fst]; now rewrite Hkeys|].
    intros k v. cbn [Dict.get]. destruct (k0 =? k)%string.
    + intros [= <-]. exists link0. split; [reflexivity|].
      split; [exact Hl0 | now apply get_relative_path_leads_back].
    + apply Hget.
  - cbn [forallb snd get_relative_paths]. intros H.
    destruct (Py.truthy v0) eqn:Hv.
    + destruct (get_relative_path_defined fs v0 relative_to Hv) as [link0 ->].
      cbn [bind]. cbn [andb] in H. now rewrite (IHerr H).
    + destruct v0; [|discriminate]. reflexivity.
Qed.

Lemma X4_relative_paths_keep_keys_witness :
  forallb (fun kv => Py.truthy (snd kv)) original_paths = true
  /\ get_relative_paths fs_fresh original_paths "types"
     = Ok [("css", "../css/docs.css"); ("arrow", "../img/arrow.svg");
           ("index_all", "../core/index.html"); ("index_types", "index.html");
           ("index_methods", "../methods/index.html");
           ("index_constructors", "../constructors/index.html")]
  /\ forallb (fun kv => Py.truthy (snd kv)) [("css", "")] = false
  /\ get_relative_paths fs_fresh [("css", "")] "types"
     = Raise (ValueError "no path specified").
Proof.
  split; [reflexivity|].
  destruct (proj1 (X4_relative_paths_keep_keys fs_fresh original_paths "types") eq_refl)
    as (paths & Hp & _ & _).
  split; [rewrite Hp; vm_compute in Hp; now injection Hp as <-|].
  split; [reflexivity|].
  exact (proj2 (X4_relative_paths_keep_keys fs_fresh [("css", "")] "types") eq_refl).
Defined.


(** ** The entries of the cross-reference index *)

Lemma dict_keys_update {V : Type} (f : V -> V) k (d : Dict.t V) :
  dict_keys (Dict.update f k d) = dict_keys d.
Proof.
  unfold dict_keys. induction d as [|[k0 v] d IH]; [reflexivity|].
  cbn [Dict.update]. destruct (k0 =? k)%string; cbn [map fst]; [reflexivity|].
  now rewrite IH.
Qed.

Lemma dict_mem_keys {V : Type} k (d : Dict.t V) :
  Dict.mem k d = existsb (String.eqb k) (dict_keys d).
Proof.
  unfold Dict.mem, dict_keys. induction d as [|[k0 v] d IH]; [reflexivity|].
  cbn [Dict.get map fst existsb]. rewrite (String.eqb_sym k k0).
  destruct (k0 =? k)%string; [reflexivity | exact IH].
Qed.

Lemma dict_get_none_keys {V : Type} k (d : Dict.t V) :
  Dict.get d k = None <-> ~ In k (dict_keys d).
Proof.
  unfold dict_keys. induction d as [|[k0 v] d IH]; cbn [Dict.get map fst In].
  - tauto.
  - destruct (String.eqb_spec k0 k) as [->|Hne].
    + split; [discriminate | intros H; exfalso; apply H; now left].
    + rewrite IH. tauto.
Qed.

Lemma dict_get_in {V : Type} k (v : V) (d : Dict.t V) :
  Dict.get d k = Some v -> In (k, v) d.
Proof.
  induction d as [|[k0 v0] d IH]; cbn [Dict.get]; [discriminate|].
  destruct (String.eqb_spec k0 k) as [->|Hne].
  - intros [= <-]. now left.
  - intros H. right. now apply IH.
Qed.

Lemma dict_in_get {V : Type} k (v : V) (d : Dict.t V) :
  NoDup (dict_keys d) -> In (k, v) d -> Dict.get d k = Some v.
Proof.
  unfold dict_keys. induction d as [|[k0 v0] d IH]; cbn [map fst]; intros Hnd Hin;
    [destruct Hin|].
  apply NoDup_cons_iff in Hnd as [Hk0 Hnd]. cbn [Dict.get].
  destruct Hin as [[= -> ->]|Hin].
  - now rewrite String.eqb_refl.
  - destruct (String.eqb_spec k0 k) as [->|Hne]; [|now apply IH].
    exfalso. apply Hk0. apply (in_map fst) in Hin. exact Hin.
Qed.

(** The keys after one object: its [result] goes last in the dictionary
    of its kind unless it is a key already. *)
Lemma index_step_keys (fn : bool) ix o :
  dict_keys (if fn then tlfunctions_of (index_step ix o)
             else tltypes_of (index_step ix o))
  = let keys := dict_keys (if fn then tlfunctions_of ix else tltypes_of ix) in
    if Bool.eqb (is_function o) fn then add_key keys (result o) else keys.
Proof.
  destruct ix as [tltypes tlfunctions]. unfold index_step, add_key.
  destruct (is_function o), fn;
    cbn [tlfunctions_of tltypes_of fst snd Bool.eqb]; try reflexivity.
  all: unfold Dict.setitem; rewrite <- dict_mem_keys.
  all: match goal with
       | |- context [Dict.mem ?k ?d] => destruct (Dict.mem k d) eqn:E
       end.
  all: rewrite ?dict_keys_update; try reflexivity.
  all: unfold dict_keys; now rewrite map_app.
Qed.

Lemma fold_index_step_keys (fn : bool) tlobjects : forall ix,
  dict_keys (if fn then tlfunctions_of (fold_left index_step tlobjects ix)
             else tltypes_of (fold_left index_step tlobjects ix))
  = fold_left add_key (results_of fn tlobjects)
      (dict_keys (if fn then tlfunctions_of ix else tltypes_of ix)).
Proof.
  unfold results_of.
  induction tlobjects as [|o l IH]; intros ix; cbn [fold_left filter map];
    [reflexivity|].
  rewrite IH, index_step_keys. cbv zeta.
  destruct (Bool.eqb (is_function o) fn); reflexivity.
Qed.

Lemma add_key_NoDup seen k : NoDup seen -> NoDup (add_key seen k).
Proof.
  intros H. unfold add_key. destruct (existsb (String.eqb k) seen) eqn:E;
    [assumption|].
  apply NoDup_app; [assumption | repeat constructor; intros [] |].
  intros x Hx [Hk|[]]. subst x.
  assert (existsb (String.eqb k) seen = true); [|congruence].
  apply existsb_exists. exists k. split; [assumption | apply String.eqb_refl].
Qed.

Lemma fold_add_key_NoDup l : forall seen,
  NoDup seen -> NoDup (fold_left add_key l seen).
Proof.
  induction l as [|k l IH]; intros seen H; cbn [fold_left]; [assumption|].
  apply IH. now apply add_key_NoDup.
Qed.

Lemma add_key_In seen k x : In x (add_key seen k) <-> In x seen \/ x = k.
Proof.
  unfold add_key. destruct (existsb (String.eqb k) seen) eqn:E.
  - split; [tauto|]. intros [H| ->]; [assumption|].
    apply existsb_exists in E as (y & Hy & Heq).
    apply String.eqb_eq in Heq. now subst.
  - rewrite in_app_iff. cbn [In]. intuition congruence.
Qed.

Lemma fold_add_key_In l : forall seen x,
  In x (fold_left add_key l seen) <-> In x seen \/ In x l.
Proof.
  induction l as [|k l IH]; intros seen x; cbn [fold_left In]; [tauto|].
  rewrite IH, add_key_In. intuition congruence.
Qed.

(** X5: in both dictionaries of the index no key occurs twice, and the
    entry under a key is the non-empty list of the objects of that kind
    with that [result], in the order of the collection; an object stands
    in the list of one key only, its own [result]. *)
Theorem X5_index_entries : forall tlobjects (fn : bool),
  let d := if fn then tlfunctions_of (build_index tlobjects)
           else tltypes_of (build_index tlobjects) in
  NoDup (dict_keys d)
  /\ (forall k l, In (k, l) d <-> l <> [] /\ l = with_result fn k tlobjects)
  /\ (forall k l o,
         In (k, l) d ->
         (In o l <-> In o tlobjects /\ is_function o = fn /\ result o = k)).
Proof.
  intros tlobjects fn d.
  assert (Hnd : NoDup (dict_keys d)).
  { unfold d, build_index. rewrite (fold_index_step_keys fn tlobjects ([], [])).
    apply fold_add_key_NoDup. destruct fn; constructor. }
  assert (Hget : forall k, Dict.get d k
                           = match with_result fn k tlobjects with
                             | [] => None
                             | l => Some l
                             end).
  { intros k. unfold d, build_index.
    rewrite (fold_index_step_get fn tlobjects ([], []) k). now destruct fn. }
  assert (Hin : forall k l, In (k, l) d <-> l <> [] /\ l = with_result fn k tlobjects).
  { intros k l. split.
    - intros H. apply (dict_in_get _ _ _ Hnd) in H. rewrite Hget in H.
      destruct (with_result fn k tlobjects); [discriminate|].
      injection H as <-. split; [discriminate | reflexivity].
    - intros [Hne ->]. apply dict_get_in. rewrite Hget.
      now destruct (with_result fn k tlobjects). }
  split; [exact Hnd|]. split; [exact Hin|].
  intros k l o H. apply Hin in H as [_ ->]. unfold with_result.
  rewrite filter_In, andb_true_iff, String.eqb_eq, Bool.eqb_true_iff. tauto.
Qed.

(** X6: the keys of each dictionary of the index stand in the order in
    which the [result]s of the objects of that kind first appear in the
    collection; [dict.items()] visits the types in this order. *)
Theorem X6_index_key_order : forall tlobjects (fn : bool),
  let d := if fn then tlfunctions_of (build_index tlobjects)
           else tltypes_of (build_index tlobjects) in
  dict_keys d = distinct_in_order (results_of fn tlobjects)
  /\ NoDup (distinct_in_order (results_of fn tlobjects))
  /\ (forall k, In k (dict_keys d) <-> In k (results_of fn tlobjects)).
Proof.
  intros tlobjects fn d.
  assert (Hk : dict_keys d = distinct_in_order (results_of fn tlobjects)).
  { unfold d, build_index, distinct_in_order.
    rewrite (fold_index_step_keys fn tlobjects ([], [])). now destruct fn. }
  split; [exact Hk|]. split.
  - apply fold_add_key_NoDup. constructor.
  - intros k. rewrite Hk. unfold distinct_in_order.
    rewrite fold_add_key_In. cbn [In]. tauto.
Qed.

(** The order of the keys on a collection where two types alternate. *)
Example index_key_order_sample :
  dict_keys (tltypes_of (build_index
    [sample_constructor "inputPeerEmpty";
     {| name := "userEmpty"; namespace := None; is_function := false;
        result := "User"; args := [] |};
     sample_constructor "inputPeerSelf"]))
  = ["InputPeer"; "User"].
Proof. reflexivity. Qed.


(** ** When the generator fails *)








Lemma original_paths_relative fs relative_to :
  exists css arrow index_all index_types index_methods index_constructors,
    get_relative_paths fs original_paths relative_to
    = Ok [("css", css); ("arrow", arrow); ("index_all", index_all);
          ("index_types", index_types); ("index_methods", index_methods);
          ("index_constructors", index_constructors)]
    /\ get_relative_path fs "css/docs.css" relative_to = Ok css
    /\ get_relative_path fs "img/arrow.svg" relative_to = Ok arrow
    /\ get_relative_path fs "core/index.html" relative_to = Ok index_all
    /\ get_relative_path fs "types/index.html" relative_to = Ok index_types
    /\ get_relative_path fs "methods/index.html" relative_to = Ok index_methods
    /\ get_relative_path fs "constructors/index.html" relative_to
       = Ok index_constructors.
Proof.
  destruct (get_relative_path_defined fs "css/docs.css" relative_to eq_refl) as [a Ha].
  destruct (get_relative_path_defined fs "img/arrow.svg" relative_to eq_refl) as [b Hb].
  destruct (get_relative_path_defined fs "core/index.html" relative_to eq_refl) as [c Hc].
  destruct (get_relative_path_defined fs "types/index.html" relative_to eq_refl) as [d Hd].
  destruct (get_relative_path_defined fs "methods/index.html" relative_to eq_refl)
    as [e He].
  destruct (get_relative_path_defined fs "constructors/index.html" relative_to eq_refl)
    as [f Hf].
  exists a, b, c, d, e, f. unfold original_paths. cbn [get_relative_paths].
  rewrite Ha, Hb, Hc, Hd, He, Hf. cbn [bind]. now repeat split.
Qed.















(** A constructor of a type with two dots in its key stops the run, a
    function with such a [result] does not. *)
Example generation_fails_on_constructor_result :
  generate_documentation fs_fresh
    [{| name := "foo"; namespace := None; is_function := false;
        result := "a.b.Foo"; args := [] |}] = Raise unpack_error
  /\ is_ok (generate_documentation fs_fresh
              [{| name := "foo"; namespace := None; is_function := true;
                  result := "a.b.Foo"; args := [] |}]) = true.
Proof. split; reflexivity. Qed.

(** ** The files of a run *)

Lemma abs_list_same_cwd fs fs' p :
  same_cwd fs fs' -> PosixPath.abs_list fs' p = PosixPath.abs_list fs p.
Proof. intros H. unfold PosixPath.abs_list. now rewrite (abspath_same_cwd _ _ _ H). Qed.

Lemma relpath_same_cwd fs fs' path start :
  same_cwd fs fs' -> PosixPath.relpath fs' path start = PosixPath.relpath fs path start.
Proof. intros H. unfold PosixPath.relpath. now rewrite !(abs_list_same_cwd _ _ _ H). Qed.

Lemma abs_list_empty fs : PosixPath.abs_list fs "" = PosixPath.abs_list fs ".".
Proof. rewrite !abs_list_parts. reflexivity. Qed.

Lemma relpath_empty_start fs path :
  PosixPath.relpath fs path "" = PosixPath.relpath fs path ".".
Proof. unfold PosixPath.relpath. now rewrite abs_list_empty. Qed.

(** From the working directory the link does not depend on the files. *)
Lemma get_relative_path_dot fs path :
  get_relative_path fs path "." = PosixPath.relpath fs path ".".
Proof.
  unfold get_relative_path. destruct (PosixPath.isfile fs "."); [|reflexivity].
  apply relpath_empty_start.
Qed.

Lemma get_path_for_type_dot_same_cwd fs fs' type :
  same_cwd fs fs' -> get_path_for_type fs' type "." = get_path_for_type fs type ".".
Proof.
  intros H. unfold get_path_for_type. destruct (type_target type); cbn [bind];
    [|reflexivity].
  now rewrite !get_relative_path_dot, (relpath_same_cwd _ _ _ _ H).
Qed.

Lemma object_page_filename fs o fs' page :
  object_page fs o = Ok (fs', page) -> page_filename page = get_create_path_for o.
Proof. unfold object_page. intros H. bind_inv H. now injection H as _ <-. Qed.

Lemma type_page_filename fs tlfunctions tltype constructors fs' page :
  type_page fs tlfunctions tltype constructors = Ok (fs', page) ->
  get_path_for_type fs tltype "." = Ok (page_filename page)
  /\ fs' = open_writer fs (page_filename page).
Proof.
  unfold type_page. intros H.
  apply bind_ok in H as (filename & Hf & H).
  apply bind_ok in H as ([namespace0 name0] & _ & H).
  bind_inv H. injection H as <- <-. now split.
Qed.

Lemma object_pages_layout tlobjects : forall fs fs' pages,
  object_pages fs tlobjects = Ok (fs', pages) ->
  map page_filename pages = map get_create_path_for tlobjects
  /\ same_cwd fs fs'
  /\ files fs' = (rev (map (PosixPath.abspath fs) (map page_filename pages))
                  ++ files fs)%list.
Proof.
  induction tlobjects as [|o l IH]; cbn [object_pages]; intros fs fs' pages H.
  - injection H as <- <-. now repeat split.
  - apply bind_ok in H as ([fs1 page1] & H1 & H).
    apply bind_ok in H as ([fs2 pages2] & H2 & H).
    injection H as <- <-.
    pose proof (object_page_filename _ _ _ _ H1) as Hname.
    apply object_page_fs in H1. subst fs1.
    destruct (IH _ _ _ H2) as (Hnames & Hc & Hfiles).
    cbn [map rev]. split; [now rewrite Hname, Hnames|].
    split; [exact Hc|]. rewrite Hfiles. cbn [files open_writer].
    rewrite Hname, <- app_assoc. reflexivity.
Qed.

Lemma type_pages_layout tlfunctions items : forall fs fs' pages,
  type_pages fs tlfunctions items = Ok (fs', pages) ->
  map (fun k => get_path_for_type fs k ".") (dict_keys items)
  = map Ok (map page_filename pages)
  /\ same_cwd fs fs'
  /\ files fs' = (rev (map (PosixPath.abspath fs) (map page_filename pages))
                  ++ files fs)%list.
Proof.
  induction items as [|[tltype constructors] l IH]; cbn [type_pages];
    intros fs fs' pages H.
  - injection H as <- <-. now repeat split.
  - apply bind_ok in H as ([fs1 page1] & H1 & H).
    apply bind_ok in H as ([fs2 pages2] & H2 & H).
    injection H as <- <-.
    apply type_page_filename in H1 as [Hname ->].
    destruct (IH _ _ _ H2) as (Hnames & Hc & Hfiles).
    assert (Hc1 : same_cwd fs (open_writer fs (page_filename page1))) by reflexivity.
    cbn [dict_keys map fst rev]. fold (dict_keys l).
    split; [|split].
    + rewrite Hname. f_equal. rewrite <- Hnames. apply map_ext. intros k.
      symmetry. now apply get_path_for_type_dot_same_cwd.
    + unfold same_cwd in *. congruence.
    + rewrite Hfiles. cbn [files open_writer].
      rewrite <- app_assoc. reflexivity.
Qed.

(** X8: a run that succeeds writes one page for each object, in the
    order of the collection and at the path of the object, and then one
    page for each type that has a constructor, in the order in which the
    types first appear, at the path that [get_path_for_type] gives for the
    type from the working directory.  It keeps the working directory,
    removes no file, and the files it adds are those of its pages. *)
Theorem X8_pages_and_files_of_a_run : forall fs tlobjects fs' pages,
  generate_documentation fs tlobjects = Ok (fs', pages) ->
  exists type_files,
    map page_filename pages
    = (map get_create_path_for tlobjects ++ type_files)%list
    /\ map (fun k => get_path_for_type fs k ".")
         (distinct_in_order (results_of false tlobjects))
       = map Ok type_files
    /\ cwd_parts fs' = cwd_parts fs
    /\ files fs'
       = (rev (map (PosixPath.abspath fs) (map page_filename pages)) ++ files fs)%list.
Proof.
  intros fs tlobjects fs' pages H. unfold generate_documentation in H.
  apply bind_ok in H as ([fs1 pages_a] & Ha & H).
  apply bind_ok in H as ([fs2 pages_b] & Hb & H).
  injection H as <- <-.
  destruct (object_pages_layout _ _ _ _ Ha) as (Hna & Hca & Hfa).
  destruct (type_pages_layout _ _ _ _ _ Hb) as (Hnb & Hcb & Hfb).
  exists (map page_filename pages_b).
  split; [now rewrite map_app, Hna|]. split; [|split].
  - rewrite <- Hnb.
    assert (Hk : dict_keys (tltypes_of (build_index tlobjects))
                 = distinct_in_order (results_of false tlobjects)).
    { unfold build_index, distinct_in_order.
      now rewrite (fold_index_step_keys false tlobjects ([], [])). }
    rewrite <- Hk. apply map_ext. intros k.
    symmetry. now apply get_path_for_type_dot_same_cwd.
  - unfold same_cwd in *. congruence.
  - rewrite Hfb, Hfa, !map_app, rev_app_distr, <- app_assoc. f_equal.
    f_equal. apply map_ext. intros p. now apply abspath_same_cwd.
Qed.

Lemma X8_pages_and_files_of_a_run_witness :
  exists fs' pages,
    generate_documentation fs_fresh (sample_request :: sample_constructors)
    = Ok (fs', pages)
    /\ map page_filename pages
       = ["methods/messages/send_message.html";
          "constructors/input_peer_empty.html";
          "constructors/input_peer_self.html";
          "constructors/input_peer_chat.html";
          "types/input_peer.html"]
    /\ files fs'
       = ["/home/docs/types/input_peer.html";
          "/home/docs/constructors/input_peer_chat.html";
          "/home/docs/constructors/input_peer_self.html";
          "/home/docs/constructors/input_peer_empty.html";
          "/home/docs/methods/messages/send_message.html"].
Proof.
  destruct (generate_documentation fs_fresh (sample_request :: sample_constructors))
    as [[fs' pages]|e] eqn:E; [|vm_compute in E; discriminate].
  exists fs', pages. split; [reflexivity|].
  destruct (X8_pages_and_files_of_a_run _ _ _ _ E) as (tf & Hn & _ & _ & Hf).
  assert (Hp : map page_filename pages
               = ["methods/messages/send_message.html";
                  "constructors/input_peer_empty.html";
                  "constructors/input_peer_self.html";
                  "constructors/input_peer_chat.html";
                  "types/input_peer.html"]).
  { vm_compute in E. now injection E as _ <-. }
  split; [exact Hp|]. rewrite Hf, Hp. reflexivity.
Defined.


(** ** The links in the tables of the pages *)

Lemma row_links_app l1 l2 : row_links (l1 ++ l2) = (row_links l1 ++ row_links l2)%list.
Proof. apply flat_map_app. Qed.

Lemma row_links_namespace_menu ns : row_links (namespace_menu ns) = [].
Proof. destruct ns as [n|]; simpl; [destruct (Py.truthy n)|]; reflexivity. Qed.

Lemma link_base_file fs filename :
  PosixPath.isfile fs filename = true ->
  link_base fs filename = PosixPath.dirname filename.
Proof. unfold link_base. now intros ->. Qed.

(** The rows of a table of objects on a page that is a file: the class
    names, each with a link that leads to the page of the object. *)
Lemma object_rows_links fs filename l rows :
  PosixPath.isfile fs filename = true ->
  object_rows fs filename l = Ok rows ->
  Forall2 (fun o row =>
             fst row = get_class_name (Obj o)
             /\ link_target fs (PosixPath.dirname filename) (snd row)
                = PosixPath.abs_list fs (get_create_path_for o))
    l (row_links rows).
Proof.
  intros Hfile. revert rows.
  induction l as [|o l IH]; cbn [object_rows]; intros rows H.
  - injection H as <-. constructor.
  - apply bind_ok in H as (link & Hl & H). apply bind_ok in H as (rows' & Hr & H).
    injection H as <-. cbn [row_links flat_map app]. constructor.
    + split; [reflexivity|]. cbn [snd].
      rewrite <- (link_base_file _ _ Hfile).
      now apply get_relative_path_leads_back.
    + now apply IH.
Qed.

(** X9: the two tables of a type page list the constructors of the type
    and then the functions that return it, each by its class name and in
    the order of the index; the link of each row, followed from the
    directory of the type page, leads to the page of that object. *)
Theorem X9_type_page_rows_lead_to_objects :
  forall fs tlfunctions tltype constructors fs' page,
  type_page fs tlfunctions tltype constructors = Ok (fs', page) ->
  Forall2 (fun o row =>
             fst row = get_class_name (Obj o)
             /\ link_target fs' (PosixPath.dirname (page_filename page)) (snd row)
                = PosixPath.abs_list fs' (get_create_path_for o))
    (constructors ++ Dict.get_default tlfunctions tltype [])
    (row_links (page_calls page)).
Proof.
  intros fs tlfunctions tltype constructors fs' page H.
  unfold type_page in H.
  apply bind_ok in H as (filename & _ & H).
  apply bind_ok in H as ([namespace0 name0] & _ & H).
  bind_inv H. injection H as <- <-. cbn [page_filename page_calls].
  pose proof (object_rows_links _ _ _ _ (isfile_open_writer fs filename) Hx4) as Hc.
  pose proof (object_rows_links _ _ _ _ (isfile_open_writer fs filename) Hx5) as Hf.
  pose proof (row_links_namespace_menu namespace0) as Hn.
  unfold row_links in *. cbn [flat_map app].
  rewrite flat_map_app, Hn. cbn [flat_map app].
  rewrite flat_map_app. cbn [flat_map app].
  rewrite flat_map_app. cbn [flat_map app]. rewrite app_nil_r.
  now apply Forall2_app.
Qed.

Lemma X9_type_page_rows_lead_to_objects_witness :
  exists fs' page,
    type_page fs_fresh [] "InputPeer" sample_constructors = Ok (fs', page)
    /\ row_links (page_calls page)
       = [("InputPeerEmpty", "../constructors/input_peer_empty.html");
          ("InputPeerSelf", "../constructors/input_peer_self.html");
          ("InputPeerChat", "../constructors/input_peer_chat.html")]
    /\ Forall2 (fun o row =>
                  link_target fs' "types" (snd row)
                  = PosixPath.abs_list fs' (get_create_path_for o))
         sample_constructors (row_links (page_calls page)).
Proof.
  destruct (type_page fs_fresh [] "InputPeer" sample_constructors)
    as [[fs' page]|e] eqn:E; [|vm_compute in E; discriminate].
  exists fs', page. split; [reflexivity|].
  pose proof (X9_type_page_rows_lead_to_objects _ _ _ _ _ _ E) as H.
  assert (Hp : page_filename page = "types/input_peer.html"
               /\ row_links (page_calls page)
                  = [("InputPeerEmpty", "../constructors/input_peer_empty.html");
                     ("InputPeerSelf", "../constructors/input_peer_self.html");
                     ("InputPeerChat", "../constructors/input_peer_chat.html")]).
  { vm_compute in E. injection E as _ <-. split; reflexivity. }
  destruct Hp as [Hname Hrows]. split; [exact Hrows|].
  rewrite Hname in H. cbn [Dict.get_default Dict.get] in H. rewrite app_nil_r in H.
  eapply Forall2_impl; [|exact H]. intros o row [_ Hl]. exact Hl.
Defined.

Lemma arg_rows_links fs filename l rows :
  PosixPath.isfile fs filename = true ->
  arg_rows fs filename l = Ok rows ->
  Forall2 (fun a row =>
             fst row = arg_type a
             /\ exists target,
                  type_target (arg_type a) = Ok target
                  /\ link_target fs (PosixPath.dirname filename) (snd row)
                     = PosixPath.abs_list fs target)
    l (row_links rows).
Proof.
  intros Hfile. revert rows.
  induction l as [|a l IH]; cbn [arg_rows]; intros rows H.
  - injection H as <-. constructor.
  - apply bind_ok in H as (row & Hrow & H). apply bind_ok in H as (rows' & Hr & H).
    injection H as <-. unfold arg_row in Hrow.
    apply bind_ok in Hrow as (link & Hl & Hrow). injection Hrow as <-.
    cbn [row_links flat_map app]. constructor; [|now apply IH].
    split; [reflexivity|]. cbn [snd].
    unfold get_path_for_type in Hl.
    destruct (type_target (arg_type a)) as [target|e]; cbn [bind] in Hl;
      [|discriminate].
    exists target. split; [reflexivity|].
    rewrite <- (link_base_file _ _ Hfile).
    now apply get_relative_path_leads_back.
Qed.

(** X10: in the table of an object page the type cell of each argument
    shown carries the type as text and a link that, followed from the
    directory of the page, leads to the target of that type. *)
Theorem X10_argument_types_lead_to_targets : forall fs tlobject fs' page,
  object_page fs tlobject = Ok (fs', page) ->
  Forall2 (fun a row =>
             fst row = arg_type a
             /\ exists target,
                  type_target (arg_type a) = Ok target
                  /\ link_target fs' (PosixPath.dirname (page_filename page)) (snd row)
                     = PosixPath.abs_list fs' target)
    (displayed_args tlobject) (row_links (page_calls page)).
Proof.
  intros fs tlobject fs' page H. unfold object_page in H. bind_inv H.
  injection H as <- <-. cbn [page_filename page_calls].
  pose proof (row_links_namespace_menu (namespace tlobject)) as Hn.
  assert (Ht : Forall2 (fun a row =>
             fst row = arg_type a
             /\ exists target,
                  type_target (arg_type a) = Ok target
                  /\ link_target (open_writer fs (get_create_path_for tlobject))
                       (PosixPath.dirname (get_create_path_for tlobject)) (snd row)
                     = PosixPath.abs_list
                         (open_writer fs (get_create_path_for tlobject)) target)
             (displayed_args tlobject) (row_links x4)).
  { destruct (displayed_args tlobject) as [|a l] eqn:E;
      cbn [PosixPath.is_nil negb] in Hx4.
    - destruct (is_function tlobject); injection Hx4 as <-; constructor.
    - apply bind_ok in Hx4 as (rows & Hrows0 & Hx4). injection Hx4 as <-.
      pose proof (arg_rows_links _ _ _ _ (isfile_open_writer fs _) Hrows0) as Hrows.
      unfold row_links in *. cbn [flat_map app].
      rewrite flat_map_app. cbn [flat_map app]. now rewrite app_nil_r. }
  unfold row_links in *. cbn [flat_map app].
  rewrite flat_map_app, Hn. cbn [flat_map app].
  rewrite flat_map_app. cbn [flat_map app]. now rewrite app_nil_r.
Qed.

Lemma X10_argument_types_lead_to_targets_witness :
  exists fs' page,
    object_page fs_fresh sample_request = Ok (fs', page)
    /\ row_links (page_calls page)
       = [("int", "../../core/index.html#int"); ("Peer", "../../types/peer.html");
          ("true", "../../core/index.html#true");
          ("string", "../../core/index.html#string")]
    /\ Forall2 (fun a row => fst row = arg_type a)
         (displayed_args sample_request) (row_links (page_calls page)).
Proof.
  destruct (object_page fs_fresh sample_request) as [[fs' page]|e] eqn:E;
    [|vm_compute in E; discriminate].
  exists fs', page. split; [reflexivity|].
  pose proof (X10_argument_types_lead_to_targets _ _ _ _ E) as H.
  split; [vm_compute in E; now injection E as _ <-|].
  eapply Forall2_impl; [|exact H]. intros a row [Ht _]. exact Ht.
Defined.

(** ** The links in the head and the menu of the pages *)

Lemma commonprefix_app_diff l a l1 b l2 :
  (a =? b)%string = false ->
  PosixPath.commonprefix (l ++ a :: l1) (l ++ b :: l2) = l.
Proof.
  intros Hab. induction l as [|x l IH]; cbn [app PosixPath.commonprefix].
  - now rewrite Hab.
  - now rewrite String.eqb_refl, IH.
Qed.

(** The path between two places that part below a common directory. *)
Lemma relpath_sideways fs path start l a l1 b l2 :
  Py.truthy path = true ->
  PosixPath.abs_list fs start = (l ++ a :: l1)%list ->
  PosixPath.abs_list fs path = (l ++ b :: l2)%list ->
  (a =? b)%string = false ->
  PosixPath.relpath fs path start
  = Ok (PosixPath.join ".." (repeat ".." (List.length l1) ++ b :: l2)).
Proof.
  intros Hp Hs Hd Hab. unfold PosixPath.relpath. rewrite Hp. cbn [negb].
  rewrite Hs, Hd, (commonprefix_app_diff _ _ _ _ _ Hab).
  rewrite skipn_length_app, length_app. cbn [List.length].
  replace (List.length l + S (List.length l1) - List.length l)
    with (S (List.length l1)) by lia.
  reflexivity.
Qed.

Lemma object_path_plain o :
  namespace o = None -> Py.contains "/" (name o) = false ->
  get_create_path_for o
  = (if is_function o then "methods" else "constructors")
      ++ "/" ++ get_file_name (Obj o) true.
Proof.
  intros Hns Hname. unfold get_create_path_for. rewrite Hns.
  cbn [PosixPath.join fold_left]. unfold PosixPath.join2.
  change (get_file_name (Obj o) true) with (get_file_name (Name (name o)) true).
  rewrite (startswith_sep_contains _ (file_name_ext_no_sep _ Hname)).
  now destruct (is_function o).
Qed.

Lemma object_path_plain_parts o :
  namespace o = None -> Py.contains "/" (name o) = false ->
  let root := if is_function o then "methods" else "constructors" in
  let path := get_create_path_for o in
  PosixPath.isabs path = false
  /\ parts path = [root; get_file_name (Obj o) true]
  /\ parts (PosixPath.dirname path) = [root]
  /\ is_regular root = true
  /\ is_regular (get_file_name (Obj o) true) = true
  /\ (root =? "css")%string = false.
Proof.
  intros Hns Hname root path.
  pose proof (file_name_ext_no_sep _ Hname) as Hsep.
  pose proof (file_name_ext_truthy (name o)) as Htr.
  change (get_file_name (Name (name o)) true) with (get_file_name (Obj o) true) in *.
  assert (Hpath : path = root ++ String "/" (get_file_name (Obj o) true)).
  { unfold path, root. rewrite (object_path_plain o Hns Hname).
    now destruct (is_function o). }
  assert (Hparts : parts path = [root; get_file_name (Obj o) true]).
  { rewrite Hpath, parts_app_sep, (parts_no_sep _ Hsep Htr).
    unfold root. now destruct (is_function o). }
  split; [rewrite Hpath; unfold root; now destruct (is_function o)|].
  split; [exact Hparts|]. split.
  - assert (Ht : Py.truthy (PosixPath.tail_of path) = true).
    { fold (PosixPath.basename path). unfold path.
      rewrite basename_object_path.
      now destruct (PosixPath.tail_of (get_file_name (Name (name o)) false)). }
    pose proof (parts_head_tail path Ht) as H. rewrite Hparts in H.
    change [root; get_file_name (Obj o) true]
      with ([root] ++ [get_file_name (Obj o) true])%list in H.
    now apply app_inj_tail in H as [<- _].
  - split; [unfold root; now destruct (is_function o)|].
    split; [apply html_is_regular|].
    unfold root; now destruct (is_function o).
Qed.

Lemma object_page_head fs o fs' page :
  object_page fs o = Ok (fs', page) ->
  exists css,
    head_css (page_calls page) = Some css
    /\ get_relative_path fs "css/docs.css" (get_create_path_for o) = Ok css.
Proof.
  unfold object_page. intros H.
  destruct (original_paths_relative fs (get_create_path_for o))
    as (a & b & c & d & e & f & Hp & Ha & _).
  rewrite Hp in H. cbn [bind] in H. unfold Dict.getitem in H.
  cbn [Dict.get String.eqb Ascii.eqb Bool.eqb bind] in H.
  bind_inv H. injection H as _ <-. exists a. now split.
Qed.

(** X11: the style sheet of an object page is linked from the file
    system as it is before the page is opened.  The link leads to
    [css/docs.css] from the path of the page taken as a directory while
    no file stands there, and from the directory of the page once one
    does: for an object without namespace it is [../../css/docs.css] on
    the first run and [../css/docs.css] on the next. *)
Theorem X11_object_page_style_sheet : forall fs tlobject fs' page,
  object_page fs tlobject = Ok (fs', page) ->
  let path := get_create_path_for tlobject in
  exists css,
    head_css (page_calls page) = Some css
    /\ link_target fs (link_base fs path) css = PosixPath.abs_list fs "css/docs.css"
    /\ (namespace tlobject = None -> Py.contains "/" (name tlobject) = false ->
        css = if PosixPath.isfile fs path then "../css/docs.css"
              else "../../css/docs.css").
Proof.
  intros fs tlobject fs' page H path.
  destruct (object_page_head _ _ _ _ H) as (css & Hhead & Hcss).
  exists css. split; [exact Hhead|].
  split; [now apply get_relative_path_leads_back|].
  intros Hns Hname.
  destruct (object_path_plain_parts tlobject Hns Hname)
    as (Hrel & Hparts & Hdir & Hroot & Hfile & Hne).
  fold path in Hrel, Hparts, Hdir.
  assert (Hdest : PosixPath.abs_list fs "css/docs.css"
                  = (PosixPath.abs_list fs "." ++ ["css"; "docs.css"])%list).
  { now rewrite (abs_list_below_cwd fs "css/docs.css"). }
  unfold get_relative_path in Hcss. fold path in Hcss.
  destruct (PosixPath.isfile fs path).
  - assert (Hstart : PosixPath.abs_list fs (PosixPath.dirname path)
                     = (PosixPath.abs_list fs "."
                        ++ [if is_function tlobject then "methods" else "constructors"])%list).
    { rewrite (abs_list_below_cwd fs (PosixPath.dirname path)).
      - now rewrite Hdir.
      - now rewrite isabs_dirname.
      - rewrite Hdir. cbn [forallb]. now rewrite Hroot. }
    rewrite (relpath_sideways fs "css/docs.css" _ _ _ [] "css" ["docs.css"]
               eq_refl Hstart Hdest Hne) in Hcss.
    now injection Hcss as <-.
  - assert (Hstart : PosixPath.abs_list fs path
                     = (PosixPath.abs_list fs "."
                        ++ [if is_function tlobject then "methods" else "constructors";
                            get_file_name (Obj tlobject) true])%list).
    { rewrite (abs_list_below_cwd fs path Hrel).
      - now rewrite Hparts.
      - rewrite Hparts. cbn [forallb]. now rewrite Hroot, Hfile. }
    rewrite (relpath_sideways fs "css/docs.css" _ _ _
               [get_file_name (Obj tlobject) true]
               "css" ["docs.css"] eq_refl Hstart Hdest Hne) in Hcss.
    now injection Hcss as <-.
Qed.

Lemma X11_object_page_style_sheet_witness :
  let o := sample_constructor "inputPeerEmpty" in
  exists fs1 page1 fs2 page2,
    object_page fs_fresh o = Ok (fs1, page1)
    /\ head_css (page_calls page1) = Some "../../css/docs.css"
    /\ object_page fs1 o = Ok (fs2, page2)
    /\ head_css (page_calls page2) = Some "../css/docs.css".
Proof.
  intros o.
  destruct (object_page fs_fresh o) as [[fs1 page1]|e] eqn:E1;
    [|vm_compute in E1; discriminate].
  destruct (object_page fs1 o) as [[fs2 page2]|e] eqn:E2.
  2:{ apply object_page_fs in E1. subst fs1. vm_compute in E2. discriminate. }
  exists fs1, page1, fs2, page2.
  destruct (X11_object_page_style_sheet _ _ _ _ E1) as (css1 & Hh1 & _ & Hc1).
  destruct (X11_object_page_style_sheet _ _ _ _ E2) as (css2 & Hh2 & _ & Hc2).
  rewrite Hh1, Hh2, (Hc1 eq_refl eq_refl), (Hc2 eq_refl eq_refl).
  split; [reflexivity|]. split; [reflexivity|]. split; [exact E2|].
  apply object_page_fs in E1. subst fs1. reflexivity.
Defined.

Lemma menu_links_namespace_menu ns :
  menu_links (namespace_menu ns)
  = match ns with
    | Some n => if Py.truthy n then [(n, "index.html")] else []
    | None => []
    end.
Proof. destruct ns as [n|]; simpl; [destruct (Py.truthy n)|]; reflexivity. Qed.

(** X12: the head of a type page links the style sheet, and its menu the
    index of all pages, the index of the types and, for a key with a
    namespace, [index.html] under the name of the namespace.  The first
    three links lead to [css/docs.css], [core/index.html] and
    [types/index.html] from the directory of the page (the directory
    stands for itself as long as no regular file has its name). *)
Theorem X12_type_page_head_and_menu :
  forall fs tlfunctions tltype constructors fs' page,
  type_page fs tlfunctions tltype constructors = Ok (fs', page) ->
  let dir := PosixPath.dirname (page_filename page) in
  exists css index_all index_types,
    head_css (page_calls page) = Some css
    /\ menu_links (page_calls page)
       = ([("API", index_all); ("Types", index_types)]
          ++ (if Py.contains "." tltype
              then match Py.split "." tltype with
                   | ns :: _ => if Py.truthy ns then [(ns, "index.html")] else []
                   | [] => []
                   end
              else []))%list
    /\ link_target fs (link_base fs dir) css = PosixPath.abs_list fs "css/docs.css"
    /\ link_target fs (link_base fs dir) index_all
       = PosixPath.abs_list fs "core/index.html"
    /\ link_target fs (link_base fs dir) index_types
       = PosixPath.abs_list fs "types/index.html"
    /\ (PosixPath.isfile fs dir = false -> link_base fs dir = dir).
Proof.
  intros fs tlfunctions tltype constructors fs' page H dir.
  unfold type_page in H.
  apply bind_ok in H as (filename & _ & H).
  apply bind_ok in H as ([namespace0 name0] & Hsplit & H).
  destruct (original_paths_relative fs (PosixPath.dirname filename))
    as (a & b & c & d & e & f & Hp & Ha & _ & Hc & Hd & _).
  rewrite Hp in H. cbn [bind] in H. unfold Dict.getitem in H.
  cbn [Dict.get String.eqb Ascii.eqb Bool.eqb bind] in H.
  bind_inv H. injection H as _ <-.
  unfold dir. cbn [page_filename page_calls].
  exists a, c, d. split; [reflexivity|]. split; [|split; [|split; [|split]]].
  - assert (Hrows : forall fs0 f0 l rows,
               object_rows fs0 f0 l = Ok rows -> menu_links rows = []).
    { intros fs0 f0 l. induction l as [|o l IH]; cbn [object_rows]; intros rows Hr.
      - now injection Hr as <-.
      - bind_inv Hr. injection Hr as <-. cbn [menu_links flat_map app].
        now apply IH. }
    pose proof (Hrows _ _ _ _ Hx) as Hr1. pose proof (Hrows _ _ _ _ Hx0) as Hr2.
    pose proof (menu_links_namespace_menu namespace0) as Hn.
    unfold menu_links in *. cbn [flat_map app].
    rewrite flat_map_app, Hn. cbn [flat_map app].
    rewrite flat_map_app, Hr1. cbn [flat_map app].
    rewrite flat_map_app, Hr2. cbn [flat_map app]. rewrite app_nil_r.
    do 2 f_equal.
    destruct (Py.contains "." tltype).
    + destruct (Py.split "." tltype) as [|p1 [|p2 [|p3 l]]]; try discriminate.
      now injection Hsplit as <- _.
    + now injection Hsplit as <- _.
  - now apply get_relative_path_leads_back.
  - now apply get_relative_path_leads_back.
  - now apply get_relative_path_leads_back.
  - unfold link_base. now intros ->.
Qed.

Lemma X12_type_page_head_and_menu_witness :
  exists fs' page,
    type_page fs_fresh [] "contacts.ResolvedPeer" [sample_constructor "resolvedPeer"]
    = Ok (fs', page)
    /\ head_css (page_calls page) = Some "../../css/docs.css"
    /\ menu_links (page_calls page)
       = [("API", "../../core/index.html"); ("Types", "../index.html");
          ("contacts", "index.html")].
Proof.
  destruct (type_page fs_fresh [] "contacts.ResolvedPeer"
              [sample_constructor "resolvedPeer"]) as [[fs' page]|e] eqn:E;
    [|vm_compute in E; discriminate].
  exists fs', page. split; [reflexivity|].
  destruct (X12_type_page_head_and_menu _ _ _ _ _ _ E)
    as (css & ia & it & Hh & Hm & _).
  vm_compute in E. injection E as _ <-. split; reflexivity.
Defined.


(** ** What an object page holds *)

Lemma arg_rows_cells fs filename l rows :
  arg_rows fs filename l = Ok rows ->
  cell_texts rows = flat_map (fun a => [arg_name a; arg_type a; arg_description a]) l
  /\ menu_links rows = [] /\ titles rows = [].
Proof.
  revert rows. induction l as [|a l IH]; cbn [arg_rows]; intros rows H.
  - injection H as <-. now repeat split.
  - apply bind_ok in H as (row & Hrow & H). apply bind_ok in H as (rows' & Hr & H).
    injection H as <-. unfold arg_row in Hrow.
    apply bind_ok in Hrow as (link & _ & Hrow). injection Hrow as <-.
    destruct (IH _ Hr) as (Hc & Hm & Ht).
    cbn [cell_texts menu_links titles flat_map app].
    fold (cell_texts rows') (menu_links rows') (titles rows').
    now rewrite Hc, Hm, Ht.
Qed.

(** X13: an object page bears the class name of the object as the title
    of its head and as its first title, then "Parameters" for a function
    and "Members" otherwise; its menu links "API", then "Methods" or
    "Constructors", then the namespace if there is one.  Its table has
    three cells for each argument shown, the name, the type and the
    description, and when no argument is shown there is no cell but one
    sentence, chosen by the kind of the object. *)
Theorem X13_object_page_contents : forall fs tlobject fs' page,
  object_page fs tlobject = Ok (fs', page) ->
  titles (page_calls page)
  = [get_class_name (Obj tlobject); get_class_name (Obj tlobject);
     if is_function tlobject then "Parameters" else "Members"]
  /\ map fst (menu_links (page_calls page))
     = ("API" :: (if is_function tlobject then "Methods" else "Constructors")
        :: match namespace tlobject with
           | Some ns => if Py.truthy ns then [ns] else []
           | None => []
           end)
  /\ cell_texts (page_calls page)
     = flat_map (fun a => [arg_name a; arg_type a; arg_description a])
         (displayed_args tlobject)
  /\ text_calls (page_calls page)
     = match displayed_args tlobject with
       | [] => [if is_function tlobject
                then "This request takes no input parameters."
                else "This type has no members."]
       | _ => []
       end.
Proof.
  intros fs tlobject fs' page H.
  assert (Htext : text_calls (page_calls page)
                  = match displayed_args tlobject with
                    | [] => [if is_function tlobject
                             then "This request takes no input parameters."
                             else "This type has no members."]
                    | _ => []
                    end).
  { destruct (object_page_calls _ _ _ _ H) as (table & _ & -> & Ht).
    destruct (displayed_args tlobject) as [|a l]; cbn [PosixPath.is_nil negb] in Ht.
    - now subst table.
    - destruct Ht as (rows & Hrows & ->). apply arg_rows_text in Hrows.
      unfold text_calls in *. cbn [flat_map app].
      now rewrite flat_map_app, Hrows. }
  unfold object_page in H. bind_inv H. injection H as _ <-. cbn [page_calls].
  assert (Htable : cell_texts x4
                   = flat_map (fun a => [arg_name a; arg_type a; arg_description a])
                       (displayed_args tlobject)
                   /\ menu_links x4 = [] /\ titles x4 = []).
  { destruct (displayed_args tlobject) as [|a l] eqn:E;
      cbn [PosixPath.is_nil negb] in Hx4.
    - destruct (is_function tlobject); injection Hx4 as <-; now repeat split.
    - apply bind_ok in Hx4 as (rows & Hrows & Hx4). injection Hx4 as <-.
      destruct (arg_rows_cells _ _ _ _ Hrows) as (Hc & Hm & Ht).
      unfold cell_texts, menu_links, titles in *. cbn [flat_map app].
      rewrite !flat_map_app, Hc, Hm, Ht. cbn [flat_map app].
      now rewrite app_nil_r. }
  destruct Htable as (Hc & Hm & Ht).
  assert (Hns : cell_texts (namespace_menu (namespace tlobject)) = []
                /\ titles (namespace_menu (namespace tlobject)) = []).
  { destruct (namespace tlobject) as [n|]; simpl; [destruct (Py.truthy n)|];
      now split. }
  destruct Hns as [Hnc Hnt].
  pose proof (menu_links_namespace_menu (namespace tlobject)) as Hnm.
  split; [|split; [|split; [|exact Htext]]].
  - unfold titles in *. cbn [flat_map app].
    rewrite flat_map_app, Hnt. cbn [flat_map app].
    now rewrite flat_map_app, Ht.
  - unfold menu_links in *. cbn [flat_map app map fst].
    rewrite flat_map_app, Hnm. cbn [flat_map app].
    rewrite flat_map_app, Hm. cbn [flat_map app]. rewrite app_nil_r.
    do 2 f_equal. destruct (namespace tlobject) as [n|]; [|reflexivity].
    now destruct (Py.truthy n).
  - unfold cell_texts in *. cbn [flat_map app].
    rewrite flat_map_app, Hnc. cbn [flat_map app].
    rewrite flat_map_app, Hc. cbn [flat_map app]. now rewrite app_nil_r.
Qed.

Lemma X13_object_page_contents_witness :
  exists fs' page,
    object_page fs_fresh sample_request = Ok (fs', page)
    /\ titles (page_calls page)
       = ["SendMessageRequest"; "SendMessageRequest"; "Parameters"]
    /\ cell_texts (page_calls page)
       = ["plain1"; "int"; ""; "plain2"; "Peer"; "";
          "flagA"; "true"; "This argument can be omitted.";
          "flagB"; "string"; "This argument can be omitted."].
Proof.
  destruct (object_page fs_fresh sample_request) as [[fs' page]|e] eqn:E;
    [|vm_compute in E; discriminate].
  exists fs', page. split; [reflexivity|].
  destruct (X13_object_page_contents _ _ _ _ E) as (Ht & _ & Hc & _).
  rewrite Ht, Hc. split; reflexivity.
Defined.


(** ** The roots of the object pages *)







(** ** The form of a relative link *)

(** What [relpath] returns: "." or some ".." followed by regular
    components, joined by slashes. *)
Lemma relpath_shape fs destination start link :
  PosixPath.relpath fs destination start = Ok link ->
  link = "."
  \/ exists n r,
       link = Py.join "/" (repeat ".." n ++ r)
       /\ (repeat ".." n ++ r)%list <> []
       /\ forallb is_regular r = true
       /\ Forall clean r.
Proof.
  unfold PosixPath.relpath.
  destruct (negb (Py.truthy destination)); [discriminate|].
  pose proof (abs_list_regular fs destination) as Hrt.
  pose proof (abs_list_clean fs destination) as Hct.
  destruct (commonprefix_split (PosixPath.abs_list fs start)
              (PosixPath.abs_list fs destination)) as (r1 & r2 & Hb & Ht).
  set (cp := PosixPath.commonprefix (PosixPath.abs_list fs start)
               (PosixPath.abs_list fs destination)) in *.
  assert (Hskip : skipn (List.length cp) (PosixPath.abs_list fs destination) = r2).
  { rewrite Ht at 1. apply skipn_length_app. }
  rewrite Hskip.
  assert (Hr2 : forallb is_regular r2 = true).
  { rewrite Ht, forallb_app in Hrt. now apply andb_true_iff in Hrt as [_ H]. }
  assert (Hc2 : Forall clean r2).
  { rewrite Ht in Hct. now apply Forall_app in Hct as [_ H]. }
  set (n := List.length (PosixPath.abs_list fs start) - List.length cp).
  destruct (repeat ".." n ++ r2)%list as [|c cs] eqn:E.
  - intros [= <-]. now left.
  - intros [= <-]. right. exists n, r2.
    assert (Hclean : Forall clean (c :: cs)).
    { rewrite <- E. apply Forall_app. split; [apply repeat_dotdot_clean | exact Hc2]. }
    pose proof Hclean as Hclean'.
    apply Forall_cons_iff in Hclean' as [[Hc Htr] Hcs].
    rewrite (join_clean cs c Htr (endswith_char_no_sep _ _ Hc) Hcs), E.
    repeat split; [discriminate | exact Hr2 | exact Hc2].
Qed.

(** In a relative path, [normpath] keeps the ".." at the front. *)
Lemma fold_norm_relative_dotdot n : forall k,
  fold_left (PosixPath.norm_step 0) (repeat ".." n) (repeat ".." k)
  = repeat ".." (k + n).
Proof.
  induction n as [|n IH]; intros k; cbn [repeat fold_left].
  - now rewrite Nat.add_0_r.
  - assert (Hstep : PosixPath.norm_step 0 (repeat ".." k) ".." = repeat ".." (S k)).
    { unfold PosixPath.norm_step. cbn [String.eqb Ascii.eqb Bool.eqb orb negb Nat.eqb andb].
      destruct k as [|k].
      - reflexivity.
      - assert (Hl : (last (repeat ".." (S k)) "" =? "..")%string = true).
        { clear. induction k as [|k IH]; [reflexivity|].
          change (repeat ".." (S (S k))) with (".." :: repeat ".." (S k)).
          cbn [last]. exact IH. }
        rewrite Hl. cbn [PosixPath.is_nil repeat negb andb orb].
        change (".." :: repeat ".." k) with (repeat ".." (S k)).
        now rewrite <- repeat_cons. }
    rewrite Hstep, (IH (S k)). f_equal. lia.
Qed.

Lemma normpath_link link :
  link = "."
  \/ (exists n r,
         link = Py.join "/" (repeat ".." n ++ r)
         /\ (repeat ".." n ++ r)%list <> []
         /\ forallb is_regular r = true
         /\ Forall clean r) ->
  PosixPath.isabs link = false /\ PosixPath.normpath link = link.
Proof.
  intros [-> | (n & r & -> & Hne & Hreg & Hclean)]; [now split|].
  assert (Hall : Forall clean (repeat ".." n ++ r)).
  { apply Forall_app. split; [apply repeat_dotdot_clean | exact Hclean]. }
  destruct (repeat ".." n ++ r)%list as [|c cs] eqn:E; [congruence|].
  assert (Habs : Py.startswith "/" (Py.join "/" (c :: cs)) = false).
  { apply join_not_abs. now apply Forall_cons_iff in Hall as [Hc _]. }
  split; [exact Habs|].
  assert (Htr : Py.truthy (Py.join "/" (c :: cs)) = true).
  { apply Forall_cons_iff in Hall as [[_ Hc] _].
    destruct c; [discriminate|]. now destruct cs. }
  unfold PosixPath.normpath, PosixPath.initial_slashes.
  rewrite Htr, Habs. cbn [negb Nat.eqb].
  rewrite fold_norm_filter. fold (parts (Py.join "/" (c :: cs))).
  rewrite (parts_join _ Hall), <- E, fold_left_app.
  pose proof (fold_norm_relative_dotdot n 0) as Hf. cbn [repeat Nat.add] in Hf.
  rewrite Hf, (fold_norm_regular _ _ _ Hreg), E. now rewrite Htr.
Qed.

(** X15: [get_relative_path] raises [ValueError] exactly for the empty
    destination.  Otherwise it returns a relative path in normal form
    (never one that begins with a slash, and [normpath] leaves it as it
    is) that leads to the destination from [relative_to], or from its
    directory when [relative_to] names a file. *)
Theorem X15_relative_link_form : forall fs destination relative_to,
  (Py.truthy destination = true ->
   exists link,
     get_relative_path fs destination relative_to = Ok link
     /\ PosixPath.isabs link = false
     /\ PosixPath.normpath link = link
     /\ link_target fs (link_base fs relative_to) link
        = PosixPath.abs_list fs destination)
  /\ (Py.truthy destination = false ->
      get_relative_path fs destination relative_to
      = Raise (ValueError "no path specified")).
Proof.
  intros fs destination relative_to. split.
  - intros Hd.
    destruct (get_relative_path_defined fs destination relative_to Hd) as [link Hl].
    exists link. split; [exact Hl|].
    pose proof (get_relative_path_leads_back _ _ _ _ Hl) as Hlead.
    unfold get_relative_path in Hl. apply relpath_shape in Hl.
    destruct (normpath_link link Hl) as [Ha Hn]. now repeat split.
  - intros Hd. destruct destination; [reflexivity | discriminate].
Qed.

Lemma X15_relative_link_form_witness :
  Py.truthy "css/docs.css" = true
  /\ get_relative_path fs_fresh "css/docs.css" "methods/messages"
     = Ok "../../css/docs.css"
  /\ PosixPath.normpath "../../css/docs.css" = "../../css/docs.css"
  /\ Py.truthy "" = false
  /\ get_relative_path fs_fresh "" "methods" = Raise (ValueError "no path specified").
Proof.
  split; [reflexivity|].
  destruct (proj1 (X15_relative_link_form fs_fresh "css/docs.css" "methods/messages")
              eq_refl) as (link & Hl & _ & Hn & _).
  assert (E : link = "../../css/docs.css").
  { vm_compute in Hl. now injection Hl as <-. }
  subst link. split; [exact Hl|]. split; [exact Hn|]. split; [reflexivity|].
  exact (proj2 (X15_relative_link_form fs_fresh "" "methods") eq_refl).
Defined.

(** ** The cross references of a run *)

Lemma object_rows_cells fs filename l rows :
  object_rows fs filename l = Ok rows ->
  cell_texts rows = map (fun o => get_class_name (Obj o)) l.
Proof.
  revert rows. induction l as [|o l IH]; cbn [object_rows]; intros rows H.
  - now injection H as <-.
  - bind_inv H. injection H as <-. cbn [cell_texts flat_map app map].
    fold (cell_texts x0). now rewrite (IH _ Hx0).
Qed.

Lemma type_page_cells fs tlfunctions tltype constructors fs' page :
  type_page fs tlfunctions tltype constructors = Ok (fs', page) ->
  cell_texts (page_calls page)
  = map (fun o => get_class_name (Obj o))
      (constructors ++ Dict.get_default tlfunctions tltype []).
Proof.
  unfold type_page. intros H.
  apply bind_ok in H as (filename & _ & H).
  apply bind_ok in H as ([namespace0 name0] & _ & H).
  bind_inv H. injection H as _ <-. cbn [page_calls].
  pose proof (object_rows_cells _ _ _ _ Hx4) as Hc.
  pose proof (object_rows_cells _ _ _ _ Hx5) as Hf.
  assert (Hn : cell_texts (namespace_menu namespace0) = []).
  { destruct namespace0 as [n|]; simpl; [destruct (Py.truthy n)|]; reflexivity. }
  unfold cell_texts in *. cbn [flat_map app].
  rewrite flat_map_app, Hn. cbn [flat_map app].
  rewrite flat_map_app, Hc. cbn [flat_map app].
  rewrite flat_map_app, Hf. cbn [flat_map app].
  now rewrite app_nil_r, map_app.
Qed.

Lemma type_pages_contents tlfunctions items : forall fs fs' pages,
  type_pages fs tlfunctions items = Ok (fs', pages) ->
  Forall2 (fun kv page =>
             cell_texts (page_calls page)
             = map (fun o => get_class_name (Obj o))
                 (snd kv ++ Dict.get_default tlfunctions (fst kv) [])
             /\ text_calls (page_calls page)
                = [constructors_sentence (snd kv);
                   functions_sentence (Dict.get_default tlfunctions (fst kv) [])])
    items pages.
Proof.
  induction items as [|[tltype constructors] l IH]; cbn [type_pages];
    intros fs fs' pages H.
  - injection H as _ <-. constructor.
  - apply bind_ok in H as ([fs1 page1] & H1 & H).
    apply bind_ok in H as ([fs2 pages2] & H2 & H).
    injection H as _ <-. constructor; [|now apply (IH _ _ _ H2)].
    cbn [fst snd]. split.
    + now apply (type_page_cells _ _ _ _ _ _ H1).
    + now apply (type_page_text _ _ _ _ _ _ H1).
Qed.

Lemma index_get (fn : bool) tlobjects k :
  Dict.get (if fn then tlfunctions_of (build_index tlobjects)
            else tltypes_of (build_index tlobjects)) k
  = match with_result fn k tlobjects with
    | [] => None
    | l => Some l
    end.
Proof.
  unfold build_index. rewrite (fold_index_step_get fn tlobjects ([], []) k).
  now destruct fn.
Qed.

Lemma index_functions_default tlobjects k :
  Dict.get_default (tlfunctions_of (build_index tlobjects)) k []
  = with_result true k tlobjects.
Proof.
  unfold Dict.get_default. rewrite (index_get true tlobjects k).
  now destruct (with_result true k tlobjects).
Qed.

Lemma index_types_entry tlobjects k l :
  In (k, l) (tltypes_of (build_index tlobjects)) -> l = with_result false k tlobjects.
Proof.
  intros H.
  assert (Hnd : NoDup (dict_keys (tltypes_of (build_index tlobjects)))).
  { unfold build_index. rewrite (fold_index_step_keys false tlobjects ([], [])).
    apply fold_add_key_NoDup. constructor. }
  apply (dict_in_get _ _ _ Hnd) in H. rewrite (index_get false tlobjects k) in H.
  destruct (with_result false k tlobjects); [discriminate|]. now injection H as <-.
Qed.

Lemma Forall2_keys {V B : Type} (P : string -> V -> B -> Prop) (Q : string -> B -> Prop)
  (d : Dict.t V) (l : list B) :
  (forall k v b, In (k, v) d -> P k v b -> Q k b) ->
  Forall2 (fun kv b => P (fst kv) (snd kv) b) d l ->
  Forall2 Q (dict_keys d) l.
Proof.
  intros HPQ H. induction H as [|[k v] b d l Hkv _ IH]; cbn [dict_keys map fst];
    constructor.
  - apply (HPQ k v b); [now left | exact Hkv].
  - apply IH. intros k' v' b' Hin. apply HPQ. now right.
Qed.

(** X16: in a run that succeeds, the pages after those of the objects are
    the pages of the types that have a constructor, in the order of first
    appearance.  The page of a type lists, by class name and in the order
    of the collection, the objects that are not functions and have the
    type as [result], then the functions that have it as [result], and its
    two sentences count these two lists. *)
Theorem X16_type_pages_cross_references : forall fs tlobjects fs' pages,
  generate_documentation fs tlobjects = Ok (fs', pages) ->
  Forall2 (fun k page =>
             cell_texts (page_calls page)
             = map (fun o => get_class_name (Obj o))
                 (with_result false k tlobjects ++ with_result true k tlobjects)
             /\ text_calls (page_calls page)
                = [constructors_sentence (with_result false k tlobjects);
                   functions_sentence (with_result true k tlobjects)])
    (distinct_in_order (results_of false tlobjects))
    (skipn (List.length tlobjects) pages).
Proof.
  intros fs tlobjects fs' pages H. unfold generate_documentation in H.
  apply bind_ok in H as ([fs1 pages_a] & Ha & H).
  apply bind_ok in H as ([fs2 pages_b] & Hb & H).
  injection H as _ <-.
  assert (Hlen : List.length tlobjects = List.length pages_a).
  { destruct (object_pages_layout _ _ _ _ Ha) as (Hn & _).
    apply (f_equal (@List.length string)) in Hn. now rewrite !length_map in Hn. }
  rewrite Hlen, skipn_length_app.
  assert (Hk : dict_keys (tltypes_of (build_index tlobjects))
               = distinct_in_order (results_of false tlobjects)).
  { unfold build_index, distinct_in_order.
    now rewrite (fold_index_step_keys false tlobjects ([], [])). }
  rewrite <- Hk.
  pose proof (type_pages_contents _ _ _ _ _ Hb) as Hc.
  eapply (Forall2_keys
            (fun k v page =>
               cell_texts (page_calls page)
               = map (fun o => get_class_name (Obj o))
                   (v ++ Dict.get_default (tlfunctions_of (build_index tlobjects)) k [])
               /\ text_calls (page_calls page)
                  = [constructors_sentence v;
                     functions_sentence
                       (Dict.get_default (tlfunctions_of (build_index tlobjects)) k [])]));
    [|exact Hc].
  intros k v page Hin [Hcells Htexts]. cbv beta.
  apply index_types_entry in Hin. subst v.
  rewrite index_functions_default in Hcells, Htexts. now split.
Qed.

Lemma X16_type_pages_cross_references_witness :
  exists fs' pages,
    generate_documentation fs_fresh (sample_request :: sample_constructors)
    = Ok (fs', pages)
    /\ with_result false "InputPeer" (sample_request :: sample_constructors)
       = sample_constructors
    /\ Forall2 (fun k page =>
                  cell_texts (page_calls page)
                  = map (fun o => get_class_name (Obj o))
                      (with_result false k (sample_request :: sample_constructors)
                       ++ with_result true k (sample_request :: sample_constructors)))
         ["InputPeer"] (skipn 4 pages).
Proof.
  destruct (generate_documentation fs_fresh (sample_request :: sample_constructors))
    as [[fs' pages]|e] eqn:E; [|vm_compute in E; discriminate].
  exists fs', pages. split; [reflexivity|]. split; [reflexivity|].
  pose proof (X16_type_pages_cross_references _ _ _ _ E) as H.
  refine (Forall2_impl _ _ H). intros k page [Hc _]. exact Hc.
Defined.

(** ** Where the page of a type goes *)

Lemma type_path_from_cwd fs type target c cs :
  type_target type = Ok target ->
  PosixPath.isabs target = false ->
  parts target = c :: cs ->
  forallb is_regular (c :: cs) = true ->
  Py.join "/" (c :: cs) = target ->
  get_path_for_type fs type "." = Ok target.
Proof.
  intros Ht Habs Hparts Hreg Hjoin. unfold get_path_for_type. rewrite Ht. cbn [bind].
  now rewrite (get_relative_path_from_cwd fs target c cs Habs Hparts Hreg), Hjoin.
Qed.

Lemma type_path_core fs type :
  is_core_type type = true ->
  get_path_for_type fs type "." = Ok ("core/index.html#" ++ Py.lower type).
Proof.
  intros Hcore.
  assert (Hsep : Py.contains "/" ("index.html#" ++ Py.lower type) = false).
  { cbn [append Py.contains Ascii.eqb Bool.eqb orb].
    rewrite contains_lower by reflexivity. now apply core_type_no_sep. }
  apply (type_path_from_cwd fs type _ "core" ["index.html#" ++ Py.lower type]).
  - unfold type_target. now rewrite Hcore.
  - reflexivity.
  - change ("core/index.html#" ++ Py.lower type)
      with ("core" ++ String "/" ("index.html#" ++ Py.lower type)).
    now rewrite parts_app_sep, (parts_no_sep _ Hsep eq_refl).
  - reflexivity.
  - reflexivity.
Qed.

Lemma type_path_bare fs type :
  is_core_type type = false -> Py.contains "." type = false ->
  Py.contains "/" type = false ->
  get_path_for_type fs type "." = Ok ("types/" ++ get_file_name (Name type) true).
Proof.
  intros Hcore Hdot Hsep.
  apply (type_path_from_cwd fs type _ "types" [get_file_name (Name type) true]).
  - unfold type_target. now rewrite Hcore, Hdot.
  - reflexivity.
  - change ("types/" ++ get_file_name (Name type) true)
      with ("types" ++ String "/" (get_file_name (Name type) true)).
    now rewrite parts_app_sep,
      (parts_no_sep _ (file_name_ext_no_sep _ Hsep) (file_name_ext_truthy _)).
  - cbn [forallb]. rewrite file_name_ext. now rewrite html_is_regular.
  - reflexivity.
Qed.

Lemma type_path_namespaced fs ns foo :
  Py.contains "." ns = false -> Py.contains "." foo = false ->
  Py.truthy ns = true -> Py.contains "/" ns = false -> Py.contains "/" foo = false ->
  get_path_for_type fs (ns ++ "." ++ foo) "."
  = Ok ("types/" ++ ns ++ "/" ++ get_file_name (Name foo) true).
Proof.
  intros Hns Hfoo Htr Hsep Hfsep.
  assert (Hdot : Py.contains "." (ns ++ "." ++ foo) = true).
  { rewrite contains_app. cbn [append Py.contains]. rewrite Ascii.eqb_refl.
    apply orb_true_r. }
  assert (Hcore : is_core_type (ns ++ "." ++ foo) = false).
  { destruct (is_core_type (ns ++ "." ++ foo)) eqn:E; [|reflexivity].
    apply core_type_no_dot in E. congruence. }
  apply (type_path_from_cwd fs _ _ "types" [ns; get_file_name (Name foo) true]).
  - unfold type_target. rewrite Hcore, Hdot.
    change (ns ++ "." ++ foo) with (ns ++ String "." foo).
    now rewrite (split_two _ _ _ Hns Hfoo).
  - reflexivity.
  - change ("types/" ++ ns ++ "/" ++ get_file_name (Name foo) true)
      with ("types" ++ String "/" (ns ++ String "/" (get_file_name (Name foo) true))).
    rewrite !parts_app_sep, (parts_no_sep ns Hsep Htr).
    now rewrite (parts_no_sep _ (file_name_ext_no_sep _ Hfsep) (file_name_ext_truthy _)).
  - cbn [forallb]. rewrite (no_dot_is_regular _ Htr Hns), file_name_ext.
    now rewrite html_is_regular.
  - reflexivity.
Qed.

Lemma object_rows_titles fs filename l rows :
  object_rows fs filename l = Ok rows -> titles rows = [].
Proof.
  revert rows. induction l as [|o l IH]; cbn [object_rows]; intros rows H.
  - now injection H as <-.
  - bind_inv H. injection H as <-. cbn [titles flat_map app]. now apply IH.
Qed.

(** X17: the page of a type is written at [core/index.html#name] when the
    key is the name of a core type in any case (as "Bool" or "Vector"),
    at [types/file.html] for another key without dot, and at
    [types/ns/file.html] for a key [ns.Name]; its head and first title are
    the class name of the part of the key after the dot, followed by the
    titles of its two tables. *)
Theorem X17_type_page_file_and_titles :
  forall fs tlfunctions tltype constructors fs' page,
  type_page fs tlfunctions tltype constructors = Ok (fs', page) ->
  let name0 := if Py.contains "." tltype then last (Py.split "." tltype) ""
               else tltype in
  titles (page_calls page)
  = [get_class_name (Name name0); get_class_name (Name name0);
     "Available constructors"; "Methods returning this type"]
  /\ (is_core_type tltype = true ->
      page_filename page = "core/index.html#" ++ Py.lower tltype)
  /\ (is_core_type tltype = false -> Py.contains "." tltype = false ->
      Py.contains "/" tltype = false ->
      page_filename page = "types/" ++ get_file_name (Name tltype) true)
  /\ (forall ns foo,
         tltype = ns ++ "." ++ foo ->
         Py.contains "." ns = false -> Py.contains "." foo = false ->
         Py.truthy ns = true -> Py.contains "/" tltype = false ->
         page_filename page = "types/" ++ ns ++ "/" ++ get_file_name (Name foo) true).
Proof.
  intros fs tlfunctions tltype constructors fs' page H name0.
  destruct (type_page_filename _ _ _ _ _ _ H) as [Hfile _].
  split; [|split; [|split]].
  - unfold type_page in H.
    apply bind_ok in H as (filename & _ & H).
    apply bind_ok in H as ([namespace0 name1] & Hsplit & H).
    bind_inv H. injection H as _ <-. cbn [page_calls].
    assert (Hname : name1 = name0).
    { unfold name0. destruct (Py.contains "." tltype).
      - destruct (Py.split "." tltype) as [|p1 [|p2 [|p3 l]]]; try discriminate.
        now injection Hsplit as _ <-.
      - now injection Hsplit as _ <-. }
    subst name1.
    pose proof (object_rows_titles _ _ _ _ Hx4) as Hc.
    pose proof (object_rows_titles _ _ _ _ Hx5) as Hf.
    assert (Hn : titles (namespace_menu namespace0) = []).
    { destruct namespace0 as [n|]; simpl; [destruct (Py.truthy n)|]; reflexivity. }
    unfold titles in *. cbn [flat_map app].
    rewrite flat_map_app, Hn. cbn [flat_map app].
    rewrite flat_map_app, Hc. cbn [flat_map app].
    now rewrite flat_map_app, Hf.
  - intros Hcore. rewrite (type_path_core fs _ Hcore) in Hfile.
    now injection Hfile as <-.
  - intros Hcore Hdot Hsep. rewrite (type_path_bare fs _ Hcore Hdot Hsep) in Hfile.
    now injection Hfile as <-.
  - intros ns foo -> Hns Hfoo Htr Hsep.
    rewrite !contains_app in Hsep. cbn [Py.contains] in Hsep.
    apply orb_false_iff in Hsep as [Hs1 Hs2]. apply orb_false_iff in Hs2 as [_ Hs2].
    rewrite (type_path_namespaced fs ns foo Hns Hfoo Htr Hs1 Hs2) in Hfile.
    now injection Hfile as <-.
Qed.

Lemma X17_type_page_file_and_titles_witness :
  let bool_false := {| name := "boolFalse"; namespace := None; is_function := false;
                       result := "Bool"; args := [] |} in
  exists fs' page,
    type_page fs_fresh [] "Bool" [bool_false] = Ok (fs', page)
    /\ is_core_type "Bool" = true
    /\ page_filename page = "core/index.html#bool"
    /\ titles (page_calls page)
       = ["Bool"; "Bool"; "Available constructors"; "Methods returning this type"].
Proof.
  intros bool_false.
  destruct (type_page fs_fresh [] "Bool" [bool_false]) as [[fs' page]|e] eqn:E;
    [|vm_compute in E; discriminate].
  exists fs', page. split; [reflexivity|]. split; [reflexivity|].
  destruct (X17_type_page_file_and_titles _ _ _ _ _ _ E) as (Ht & Hc & _).
  split; [exact (Hc eq_refl) | exact Ht].
Defined.
